(** * generate_synthetic_cohort.py: a shallow embedding and its properties

    The file has three parts: the program (scalars, arrays, the random
    stream, the interpreter state, the script section by section, and one
    concrete random stream), the specifications (postconditions and the
    properties claimed of a run), and the proofs.

    The script draws the columns of a synthetic cohort table from numpy's
    global random stream, derives a readmission outcome, blanks some cells
    and assembles a pandas DataFrame.

    Modelling conventions.
    - A float64 array element is an exact rational ([Q]); float64 arithmetic
      on array data is read as exact arithmetic.  Cells that may hold NaN
      (the arrays produced by [add_missing]) have type [float64].
    - Python float scalars that decide an integer count
      (the [int(len(arr) * pct / 100)] of [add_missing]) are genuine
      binary64 values ([PrimFloat.float]).
    - numpy's random stream, [np.exp] and [np.sqrt] are not part of the
      repository: they are the operations of the classes [RandomState] and
      [Libm], and the documented contracts of the samplers are the class
      [RandomStateLaws].
    - Arrays that are mutated, or handed to a function that mutates, live in
      a store of arrays addressed by location; all other arrays are values.
    - [print] and [df.to_csv] are not modelled. *)

From Stdlib Require Import ZArith QArith Qabs Qround Qminmax Uint63 PrimFloat FloatOps SpecFloat.
From Stdlib Require Import String Lqa.
From stdpp Require Import base list.

Set Warnings "-inexact-float".
Local Open Scope Z_scope.

(** ** Scalars *)

Module Scalar.

(** [np.rint]: round half to even. *)
Definition rint (x : Q) : Z :=
  let f := Qfloor x in
  match Qcompare (x - inject_Z f) (1 # 2) with
  | Lt => f
  | Gt => f + 1
  | Eq => if Z.even f then f else f + 1
  end.

Definition power_of_ten (decimals : nat) : Q := inject_Z (10 ^ Z.of_nat decimals).

(** [x.round(decimals)] for [decimals >= 0] on a float array element: numpy
    calls [rint] directly when [decimals = 0], and otherwise multiplies by
    [10 ** decimals], calls [rint] and divides.  The product and the
    quotient are exact here, where numpy rounds each to binary64: on a
    double whose rounded product lands on a half (18.95 * 10 is 189.5 in
    binary64) numpy's result is the other neighbour.  What is stated of
    rounded values below is kept to what both agree on: bounds that lie on
    the grid, and order. *)
Definition np_round (decimals : nat) (x : Q) : Q :=
  match decimals with
  | O => inject_Z (rint x)
  | S _ => inject_Z (rint (x * power_of_ten decimals)) / power_of_ten decimals
  end.

(** [np.clip(x, lo, hi)] is [minimum(maximum(x, lo), hi)]. *)
Definition clipQ (lo hi x : Q) : Q := Qmin (Qmax x lo) hi.
Definition clipZ (lo hi x : Z) : Z := Z.min (Z.max x lo) hi.

(** [astype(int)] on a float: truncation toward zero.  The target is int64
    in numpy; the script casts draws and clipped values far inside that
    range, and the integer is unbounded here. *)
Definition truncQ (x : Q) : Z := Z.quot (Qnum x) (Zpos (Qden x)).

Definition Qltb (x y : Q) : bool := negb (Qle_bool y x).

(** Closed interval membership, the shape of every range claim. *)
Definition betweenQ (lo hi x : Q) : Prop := (lo <= x)%Q /\ (x <= hi)%Q.
Definition betweenZ (lo hi x : Z) : Prop := lo <= x <= hi.

(** Python floats that feed [int(...)]. *)
Definition py_float (z : Z) : float := PrimFloat.of_uint63 (Uint63.of_Z z).

(** [int(f)]: truncation toward zero; [None] on NaN and the infinities,
    where Python raises. *)
Definition py_int (f : float) : option Z :=
  match Prim2SF f with
  | S754_zero _ => Some 0
  | S754_finite s m e =>
      let mag := match e with
                 | Z0 => Zpos m
                 | Zpos p => Z.shiftl (Zpos m) (Zpos p)
                 | Zneg p => Z.shiftr (Zpos m) (Zpos p)
                 end in
      Some (if s then - mag else mag)
  | S754_infinity _ | S754_nan => None
  end.

End Scalar.
Export Scalar.

(** ** Arrays *)

Module Array.

(** A float64 cell of an array that may hold missing values. *)
Inductive float64 : Type :=
| Finite (q : Q)
| NaN.

Definition is_nan (x : float64) : bool :=
  match x with NaN => true | Finite _ => false end.

Inductive ndarray : Type :=
| IntArr (l : list Z)
| FloatArr (l : list float64).

Definition len (a : ndarray) : nat :=
  match a with IntArr l => length l | FloatArr l => length l end.

(** [a.astype(float)] as a value. *)
Definition as_float (a : ndarray) : list float64 :=
  match a with
  | IntArr l => map (fun z => Finite (inject_Z z)) l
  | FloatArr l => l
  end.

(** [np.arange(start, start + n)]. *)
Definition arange (start : Z) (n : nat) : list Z :=
  map (fun i => start + Z.of_nat i) (seq 0 n).

(** A scalar broadcast against an array of [n] elements. *)
Definition full {A} (n : nat) (v : A) : list A := repeat v n.

(** [np.where(cond, a, b)], all three already of one shape (numpy raises on
    shapes that do not broadcast; every array of the script has [N]
    entries). *)
Fixpoint np_where {A} (cond : list bool) (a b : list A) : list A :=
  match cond, a, b with
  | c :: cond', x :: a', y :: b' => (if c then x else y) :: np_where cond' a' b'
  | _, _, _ => []
  end.

(** An elementwise binary operation on two float arrays of one shape. *)
Fixpoint zip_with_Q (f : Q -> Q -> Q) (x y : list Q) : list Q :=
  match x, y with
  | a :: x', b :: y' => f a b :: zip_with_Q f x' y'
  | _, _ => []
  end.

Definition to_float (x : list Z) : list Q := map inject_Z x.

Definition np_sum (x : list Q) : Q := fold_left Qplus x 0%Q.
Definition np_mean (x : list Q) : Q := (np_sum x / inject_Z (Z.of_nat (length x)))%Q.

Definition count_nan (l : list float64) : nat := length (filter (fun x => is_nan x = true) l).

(** [a[idx] = np.nan] for an integer index array. *)
Definition set_nan_at (idx : list nat) (l : list float64) : list float64 :=
  foldr (fun i acc => <[i := NaN]> acc) l idx.

(** [a[mask] = np.nan] for a boolean mask of the same length. *)
Fixpoint set_nan_where (mask : list bool) (l : list float64) : list float64 :=
  match mask, l with
  | m :: mask', x :: l' => (if m then NaN else x) :: set_nan_where mask' l'
  | _, _ => []
  end.

End Array.
Export Array.

(** ** numpy's random stream and the math library *)

(** The samplers of [np.random] that the script calls, as state-passing
    functions on the stream.  [binomial_each] is [binomial] with an array of
    probabilities; [choice_without_replacement a size] is
    [np.random.choice(a, size, replace=False)] for an integer [a]. *)
Class RandomState : Type := {
  rng : Type;
  seed : Z -> rng;
  normal : Q -> Q -> nat -> rng -> list Q * rng;
  lognormal : Q -> Q -> nat -> rng -> list Q * rng;
  poisson : Q -> nat -> rng -> list Z * rng;
  binomial : Z -> Q -> nat -> rng -> list Z * rng;
  binomial_each : Z -> list Q -> nat -> rng -> list Z * rng;
  random : nat -> rng -> list Q * rng;
  choice : list string -> nat -> list Q -> rng -> list string * rng;
  choice_without_replacement : nat -> nat -> rng -> list nat * rng
}.

(** What numpy documents of them: the requested size, Bernoulli outcomes
    for [n = 1], and distinct in-range indices without replacement. *)
Class RandomStateLaws (RS : RandomState) : Prop := {
  normal_length : forall mu sigma n s, length (normal mu sigma n s).1 = n;
  lognormal_length : forall mu sigma n s, length (lognormal mu sigma n s).1 = n;
  poisson_length : forall lam n s, length (poisson lam n s).1 = n;
  binomial_length : forall k p n s, length (binomial k p n s).1 = n;
  binomial_each_length : forall k p n s, length (binomial_each k p n s).1 = n;
  random_length : forall n s, length (random n s).1 = n;
  choice_length : forall a n p s, length (choice a n p s).1 = n;
  binomial_range : forall k p n s, 0 <= k -> Forall (betweenZ 0 k) (binomial k p n s).1;
  binomial_each_range :
    forall k p n s, 0 <= k -> Forall (betweenZ 0 k) (binomial_each k p n s).1;
  choice_without_replacement_length :
    forall a size s, (size <= a)%nat -> length (choice_without_replacement a size s).1 = size;
  choice_without_replacement_distinct :
    forall a size s, (size <= a)%nat -> NoDup (choice_without_replacement a size s).1;
  choice_without_replacement_range :
    forall a size s, (size <= a)%nat ->
      Forall (fun i => (i < a)%nat) (choice_without_replacement a size s).1
}.

Class Libm : Type := {
  np_exp : Q -> Q;
  np_sqrt : Q -> Q
}.

(** ** The interpreter state: random stream and array store *)

Inductive exn : Type := ValueError | IndexError | OverflowError | TypeError.

Inductive result (A : Type) : Type :=
| Ok (a : A)
| Raise (e : exn).
Arguments Ok {A} a.
Arguments Raise {A} e.

Definition loc : Type := nat.

Section Interp.
Context {RS : RandomState}.

Record state : Type := State { st_rng : rng; st_heap : list ndarray }.

Definition M (A : Type) : Type := state -> result (A * state).

Definition ret {A} (a : A) : M A := fun st => Ok (a, st).

Definition bind {A B} (m : M A) (k : A -> M B) : M B :=
  fun st => match m st with
            | Ok (a, st') => k a st'
            | Raise e => Raise e
            end.

Definition raise {A} (e : exn) : M A := fun _ => Raise e.

(** A sampler call advances the stream and leaves the store alone. *)
Definition draw {A} (f : rng -> A * rng) : M A :=
  fun st => let (v, r) := f (st_rng st) in Ok (v, State r (st_heap st)).

(** A new array object. *)
Definition ref (a : ndarray) : M loc :=
  fun st => Ok (length (st_heap st), State (st_rng st) (st_heap st ++ [a])).

Definition load (l : loc) : M ndarray :=
  fun st => match st_heap st !! l with
            | Some a => Ok (a, st)
            | None => Raise TypeError
            end.

Definition store (l : loc) (a : ndarray) : M unit :=
  fun st => match st_heap st !! l with
            | Some _ => Ok (tt, State (st_rng st) (<[l := a]> (st_heap st)))
            | None => Raise TypeError
            end.

End Interp.

Notation "x <- m ;; k" := (bind m (fun x => k))
  (at level 100, m at next level, right associativity, only parsing).
Notation "m ;;; k" := (bind m (fun _ => k))
  (at level 100, right associativity, only parsing).

(** ** The script *)

Module Cohort.

Local Open Scope Q_scope.
Local Open Scope string_scope.

Definition N : nat := 2400.

(** Array arithmetic of the logit expression: [c * x], [c + x], and the
    elementwise [x + y], [x - y], [x * y]. *)
Definition scal (c : Q) (x : list Q) : list Q := map (Qmult c) x.
Definition offs (c : Q) (x : list Q) : list Q := map (Qplus c) x.
Definition arr_add (x y : list Q) : list Q := zip_with_Q Qplus x y.
Definition arr_sub (x y : list Q) : list Q := zip_with_Q Qminus x y.
Definition arr_mul (x y : list Q) : list Q := zip_with_Q Qmult x y.

(** The comparisons [flag == 1], [flag == 0], [x < c] and [x == c]. *)
Definition eq1 (flag : list Z) : list bool := map (fun v => Z.eqb v 1) flag.
Definition eq0 (flag : list Z) : list bool := map (fun v => Z.eqb v 0) flag.
Definition below (x : list Q) (c : Q) : list bool := map (fun v => Qltb v c) x.
Definition eqs (x : list string) (c : string) : list bool := map (fun v => String.eqb v c) x.

(** [x & y] on boolean arrays of one shape. *)
Fixpoint and_mask (x y : list bool) : list bool :=
  match x, y with
  | a :: x', b :: y' => (a && b) :: and_mask x' y'
  | _, _ => []
  end.

(** The columns each banner section of the script binds. *)
Record Demographics : Type := {
  subject_id : list Z;
  age_at_admit : list Z;
  gender : list string;
  race : list string;
  insurance : list string;
  marital_status : list string
}.

Record Admission : Type := {
  los_days : list Q;
  admission_type : list string;
  hadm_id : list Z
}.

Record Utilization : Type := {
  prior_admits_12m : list Z;
  had_icu_stay : list Z;
  icu_los_days : list Q
}.

Record Diagnoses : Type := {
  num_diagnoses : list Z;
  dx_cerebral_infarction : list Z;
  dx_ich : list Z;
  dx_epilepsy : list Z;
  dx_parkinson : list Z;
  dx_alzheimer : list Z;
  dx_ms : list Z;
  dx_diabetes : list Z;
  dx_chf : list Z;
  dx_copd : list Z;
  dx_ckd : list Z
}.

Record Labs : Type := {
  creatinine_base : list Q;
  creatinine : list Q;
  hgb_base : list Q;
  hemoglobin : list Q;
  wbc : list Q;
  glucose_base : list Q;
  glucose : list Z;
  sodium : list Z;
  potassium : list Q;
  bun : list Z;
  platelet : list Z
}.

Record Medications : Type := {
  num_medications : list Z;
  on_anticoagulant : list Z;
  on_statin : list Z;
  on_insulin : list Z;
  on_antiepileptic : list Z
}.

Record Outcome : Type := {
  logit : list Q;
  prob_readmit : list Q;
  readmit_30d : list Z
}.

Record Missing : Type := {
  creatinine_m : loc;
  hemoglobin_m : loc;
  wbc_m : loc;
  glucose_m : loc;
  sodium_m : loc;
  potassium_m : loc;
  bun_m : loc;
  platelet_m : loc;
  num_meds_m : loc;
  mar_mask : list bool
}.

Inductive column : Type :=
| IntCol (l : list Z)
| FloatCol (l : list float64)
| StrCol (l : list string).

Definition col_len (c : column) : nat :=
  match c with IntCol l => length l | FloatCol l => length l | StrCol l => length l end.

(** [df[name].isnull().sum()]. *)
Definition col_missing (c : column) : nat :=
  match c with FloatCol l => count_nan l | IntCol _ | StrCol _ => O end.

Definition DataFrame : Type := list (string * column).

Definition float_col (x : list Q) : column := FloatCol (map Finite x).

(** [df[name]]. *)
Fixpoint df_col (t : DataFrame) (name : string) : option column :=
  match t with
  | [] => None
  | (k, c) :: t' => if String.eqb k name then Some c else df_col t' name
  end.

(** Pre-clip lab values: the comorbidity adjustments. *)
Definition creatinine_adj (dx_ckd : list Z) (creatinine_base : list Q) : list Q :=
  np_where (eq1 dx_ckd) (map (fun v => v * 1.8) creatinine_base) creatinine_base.

Definition hemoglobin_adj (dx_ckd : list Z) (hgb_base : list Q) : list Q :=
  np_where (eq1 dx_ckd) (map (fun v => v - 1.5) hgb_base) hgb_base.

Definition glucose_adj (dx_diabetes : list Z) (glucose_base : list Q) : list Q :=
  np_where (eq1 dx_diabetes) (map (fun v => v * 1.3) glucose_base) glucose_base.

(** The rebinding line of each lab: clip, round, and the integer cast. *)
Definition clip_round (lo hi : Q) (decimals : nat) (x : list Q) : list Q :=
  map (np_round decimals) (map (clipQ lo hi) x).

Definition clip_round_int (lo hi : Q) (x : list Q) : list Z :=
  map truncQ (clip_round lo hi 0 x).

Section Script.
Context {RS : RandomState} {LM : Libm}.

(** *** 1. Demographics *)
Definition demographics : M Demographics :=
  let subject_id := arange 100001 N in
  age_draw <- draw (normal 67 15 N) ;;
  let age_at_admit := map (clipZ 18 99) (map truncQ age_draw) in
  gender <- draw (choice ["M"; "F"] N [0.53; 0.47]) ;;
  race <- draw (choice ["WHITE"; "BLACK/AFRICAN AMERICAN"; "HISPANIC/LATINO";
                        "ASIAN"; "OTHER"; "UNKNOWN"]
                       N [0.58; 0.16; 0.08; 0.05; 0.08; 0.05]) ;;
  insurance <- draw (choice ["Medicare"; "Medicaid"; "Other"] N [0.55; 0.18; 0.27]) ;;
  marital_status <- draw (choice ["MARRIED"; "SINGLE"; "DIVORCED"; "WIDOWED"; "UNKNOWN"]
                                 N [0.38; 0.25; 0.10; 0.17; 0.10]) ;;
  ret {| subject_id := subject_id; age_at_admit := age_at_admit; gender := gender;
         race := race; insurance := insurance; marital_status := marital_status |}.

(** *** 2. Admission characteristics *)
Definition admission : M Admission :=
  los_draw <- draw (lognormal 1.6 0.7 N) ;;
  let los_days := clip_round 1.0 60.0 1 los_draw in
  admission_type <- draw (choice ["URGENT"; "EMERGENCY"; "OBSERVATION"] N [0.35; 0.55; 0.10]) ;;
  let hadm_id := arange 200001 N in
  ret {| los_days := los_days; admission_type := admission_type; hadm_id := hadm_id |}.

(** *** 3. Utilization features *)
Definition utilization : M Utilization :=
  u <- draw (random N) ;;
  k <- draw (poisson 1.8 N) ;;
  let prior_admits_12m := np_where (below u 0.45) (full N 0%Z) (map (clipZ 1 8) k) in
  had_icu_stay <- draw (binomial 1 0.25 N) ;;
  icu_draw <- draw (lognormal 0.8 0.6 N) ;;
  let icu_los_days :=
    np_where (eq1 had_icu_stay) (clip_round 0.5 30.0 1 icu_draw) (full N 0.0) in
  ret {| prior_admits_12m := prior_admits_12m; had_icu_stay := had_icu_stay;
         icu_los_days := icu_los_days |}.

(** *** 4. Diagnosis features *)
Definition diagnoses : M Diagnoses :=
  dx_draw <- draw (poisson 5.5 N) ;;
  let num_diagnoses := map (clipZ 1 20) dx_draw in
  dx_cerebral_infarction <- draw (binomial 1 0.22 N) ;;
  dx_ich <- draw (binomial 1 0.09 N) ;;
  dx_epilepsy <- draw (binomial 1 0.18 N) ;;
  dx_parkinson <- draw (binomial 1 0.08 N) ;;
  dx_alzheimer <- draw (binomial 1 0.07 N) ;;
  dx_ms <- draw (binomial 1 0.04 N) ;;
  dx_diabetes <- draw (binomial 1 0.28 N) ;;
  dx_chf <- draw (binomial 1 0.18 N) ;;
  dx_copd <- draw (binomial 1 0.14 N) ;;
  dx_ckd <- draw (binomial 1 0.16 N) ;;
  ret {| num_diagnoses := num_diagnoses;
         dx_cerebral_infarction := dx_cerebral_infarction; dx_ich := dx_ich;
         dx_epilepsy := dx_epilepsy; dx_parkinson := dx_parkinson;
         dx_alzheimer := dx_alzheimer; dx_ms := dx_ms; dx_diabetes := dx_diabetes;
         dx_chf := dx_chf; dx_copd := dx_copd; dx_ckd := dx_ckd |}.

(** *** 5. Laboratory values *)
Definition labs (gender : list string) (dx_diabetes dx_ckd : list Z) : M Labs :=
  creatinine_base <- draw (lognormal 0.1 0.35 N) ;;
  let creatinine := creatinine_adj dx_ckd creatinine_base in
  let creatinine := clip_round 0.3 8.0 2 creatinine in
  hgb_f <- draw (normal 12.2 1.8 N) ;;
  hgb_m <- draw (normal 13.8 2.0 N) ;;
  let hgb_base := np_where (eqs gender "F") hgb_f hgb_m in
  let hemoglobin := hemoglobin_adj dx_ckd hgb_base in
  let hemoglobin := clip_round 5.0 19.0 1 hemoglobin in
  wbc_draw <- draw (lognormal 2.1 0.35 N) ;;
  let wbc := clip_round 1.5 35.0 1 wbc_draw in
  glucose_base <- draw (lognormal 4.8 0.25 N) ;;
  let glucose := glucose_adj dx_diabetes glucose_base in
  let glucose := clip_round_int 50 500 glucose in
  sodium_draw <- draw (normal 139 3.5 N) ;;
  let sodium := clip_round_int 118 158 sodium_draw in
  potassium_draw <- draw (normal 4.1 0.5 N) ;;
  let potassium := clip_round 2.5 6.5 1 potassium_draw in
  bun_draw <- draw (normal 12 3 N) ;;
  let bun := clip_round_int 5 80 (map (fun v => v + 5) (arr_mul creatinine bun_draw)) in
  platelet_draw <- draw (normal 220 75 N) ;;
  let platelet := clip_round_int 30 600 platelet_draw in
  ret {| creatinine_base := creatinine_base; creatinine := creatinine;
         hgb_base := hgb_base; hemoglobin := hemoglobin; wbc := wbc;
         glucose_base := glucose_base; glucose := glucose; sodium := sodium;
         potassium := potassium; bun := bun; platelet := platelet |}.

(** *** 6. Medication features *)
Definition medications (dx_diabetes dx_epilepsy : list Z) : M Medications :=
  med_draw <- draw (poisson 8 N) ;;
  let num_medications := map (clipZ 1 25) med_draw in
  on_anticoagulant <- draw (binomial 1 0.32 N) ;;
  on_statin <- draw (binomial 1 0.38 N) ;;
  insulin_yes <- draw (binomial 1 0.55 N) ;;
  insulin_no <- draw (binomial 1 0.03 N) ;;
  let on_insulin := np_where (eq1 dx_diabetes) insulin_yes insulin_no in
  aed_yes <- draw (binomial 1 0.85 N) ;;
  aed_no <- draw (binomial 1 0.12 N) ;;
  let on_antiepileptic := np_where (eq1 dx_epilepsy) aed_yes aed_no in
  ret {| num_medications := num_medications; on_anticoagulant := on_anticoagulant;
         on_statin := on_statin; on_insulin := on_insulin;
         on_antiepileptic := on_antiepileptic |}.

(** *** 7. Readmission outcome *)

(** [np.std]: population standard deviation, and the standardization [z].
    Arithmetic is exact: where numpy divides by a zero deviation and
    carries NaN on, the quotient here is 0; nothing is stated below of
    the values of [z]. *)
Definition np_std (x : list Q) : Q :=
  let m := np_mean x in np_sqrt (np_mean (map (fun v => Qabs (v - m) ^ 2) x)).

Definition z (x : list Q) : list Q :=
  let m := np_mean x in
  let s := np_std x in
  map (fun v => (v - m) / s) x.

Local Notation "c +$ x" := (offs c x) (at level 50, left associativity).
Local Notation "x +@ y" := (arr_add x y) (at level 50, left associativity).
Local Notation "x -@ y" := (arr_sub x y) (at level 50, left associativity).
Local Notation "c *$ x" := (scal c x) (at level 40, left associativity).
Local Notation "x *@ y" := (arr_mul x y) (at level 40, left associativity).

(** The logit, the probability and the binomial draw.  The arrays are
    added row by row up to the shortest; numpy raises on arrays of
    different lengths and [np.random.binomial] on a probability that is
    NaN or outside [[0, 1]], which exact arithmetic does not produce: the
    section is only followed on the arrays of [N] rows of the run. *)
Definition outcome (d : Demographics) (a : Admission) (u : Utilization) (dx : Diagnoses)
    (l : Labs) (m : Medications) : M Outcome :=
  let zi (x : list Z) := z (to_float x) in
  let deterministic :=
    -1.10 +$ 0.15 *$ zi (age_at_admit d)
      +@ 0.45 *$ zi (prior_admits_12m u)
      +@ 0.08 *$ z (los_days a)
      +@ 0.30 *$ z (creatinine l)
      -@ 0.18 *$ z (hemoglobin l)
      +@ 0.12 *$ z (wbc l)
      +@ 0.08 *$ zi (glucose l)
      -@ 0.06 *$ zi (sodium l)
      +@ 0.10 *$ zi (num_diagnoses dx)
      +@ 0.25 *$ to_float (dx_cerebral_infarction dx)
      +@ 0.35 *$ to_float (dx_ich dx)
      +@ 0.15 *$ to_float (dx_chf dx)
      +@ 0.20 *$ to_float (dx_ckd dx)
      +@ 0.10 *$ to_float (dx_diabetes dx)
      +@ 0.12 *$ to_float (dx_copd dx)
      +@ 0.18 *$ to_float (had_icu_stay u)
      +@ 0.05 *$ zi (num_medications m)
      +@ 0.08 *$ zi (prior_admits_12m u) *@ to_float (dx_ckd dx)
      +@ 0.06 *$ zi (age_at_admit d) *@ z (creatinine l) in
  noise <- draw (normal 0 0.3 N) ;;
  let logit := deterministic +@ noise in
  let prob_readmit := map (fun v => 1 / (1 + np_exp (- v))) logit in
  readmit_30d <- draw (binomial_each 1 prob_readmit N) ;;
  ret {| logit := logit; prob_readmit := prob_readmit; readmit_30d := readmit_30d |}.

(** *** 8. Missing data patterns *)

(** [int(f)] as a step of the script. *)
Definition int_of (f : float) : M Z :=
  match py_int f with
  | Some v => ret v
  | None => raise OverflowError
  end.

(** [np.random.choice(a, size, replace=False)]: numpy refuses a negative
    size and a sample larger than the population. *)
Definition np_random_choice (a : nat) (size : Z) : M (list nat) :=
  if (size <? 0)%Z then raise ValueError
  else if (Z.of_nat a <? size)%Z then raise ValueError
  else draw (choice_without_replacement a (Z.to_nat size)).

(** [arr.astype(float)] and [arr.copy()]: each returns a new array object. *)
Definition astype_float (arr : loc) : M loc :=
  a <- load arr ;; ref (FloatArr (as_float a)).

Definition copy (arr : loc) : M loc :=
  a <- load arr ;; ref a.

(** [result[idx] = np.nan]. *)
Definition setitem_nan (result : loc) (idx : list nat) : M unit :=
  a <- load result ;;
  match a with
  | FloatArr xs =>
      if forallb (fun i => i <? length xs)%nat idx
      then store result (FloatArr (set_nan_at idx xs))
      else raise IndexError
  | IntArr _ => raise ValueError
  end.

(** [result[mask] = np.nan]. *)
Definition setitem_nan_mask (result : loc) (mask : list bool) : M unit :=
  a <- load result ;;
  match a with
  | FloatArr xs =>
      if (length mask =? length xs)%nat
      then store result (FloatArr (set_nan_where mask xs))
      else raise IndexError
  | IntArr _ => raise ValueError
  end.

Definition add_missing (arr : loc) (pct : float) (name : string) : M loc :=
  a <- load arr ;;
  n_miss <- int_of (PrimFloat.div (PrimFloat.mul (py_float (Z.of_nat (len a))) pct)
                                  (py_float 100)) ;;
  idx <- np_random_choice (len a) n_miss ;;
  tmp <- astype_float arr ;;
  result <- copy tmp ;;
  setitem_nan result idx ;;;
  ret result.

Definition float_array (x : list Q) : ndarray := FloatArr (map Finite x).

Definition missingness (dx_diabetes : list Z) (l : Labs) (m : Medications) : M Missing :=
  creatinine <- ref (float_array (creatinine l)) ;;
  creatinine_m <- add_missing creatinine 4.5%float "creatinine" ;;
  hemoglobin <- ref (float_array (hemoglobin l)) ;;
  hemoglobin_m <- add_missing hemoglobin 7.2%float "hemoglobin" ;;
  wbc <- ref (float_array (wbc l)) ;;
  wbc_m <- add_missing wbc 5.8%float "wbc" ;;
  glucose_f <- ref (FloatArr (as_float (IntArr (glucose l)))) ;;
  glucose_m <- add_missing glucose_f 12.5%float "glucose" ;;
  sodium_f <- ref (FloatArr (as_float (IntArr (sodium l)))) ;;
  sodium_m <- add_missing sodium_f 4.0%float "sodium" ;;
  potassium <- ref (float_array (potassium l)) ;;
  potassium_m <- add_missing potassium 6.1%float "potassium" ;;
  bun_f <- ref (FloatArr (as_float (IntArr (bun l)))) ;;
  bun_m <- add_missing bun_f 8.3%float "bun" ;;
  platelet_f <- ref (FloatArr (as_float (IntArr (platelet l)))) ;;
  platelet_m <- add_missing platelet_f 3.5%float "platelet" ;;
  num_medications_f <- ref (FloatArr (as_float (IntArr (num_medications m)))) ;;
  num_meds_m <- add_missing num_medications_f 2.5%float "num_medications" ;;
  u <- draw (random N) ;;
  let mar_mask := and_mask (eq0 dx_diabetes) (below u 0.05) in
  setitem_nan_mask glucose_m mar_mask ;;;
  ret {| creatinine_m := creatinine_m; hemoglobin_m := hemoglobin_m; wbc_m := wbc_m;
         glucose_m := glucose_m; sodium_m := sodium_m; potassium_m := potassium_m;
         bun_m := bun_m; platelet_m := platelet_m; num_meds_m := num_meds_m;
         mar_mask := mar_mask |}.

(** *** 9. Assemble *)

(** The float column an array object of the store holds. *)
Definition float_col_of (l : loc) : M column :=
  a <- load l ;; ret (FloatCol (as_float a)).

(** [pd.DataFrame(dict)]: the columns in insertion order; pandas raises
    when the arrays differ in length. *)
Definition pd_DataFrame (cols : list (string * column)) : M DataFrame :=
  match cols with
  | [] => ret []
  | (_, c) :: rest =>
      if forallb (fun kc => col_len kc.2 =? col_len c)%nat rest
      then ret cols
      else raise ValueError
  end.

(** The dict literal handed to [pd.DataFrame], in its written order. *)
Definition columns (d : Demographics) (a : Admission) (u : Utilization) (dx : Diagnoses)
    (m : Medications) (o : Outcome)
    (creatinine_c hemoglobin_c wbc_c glucose_c sodium_c potassium_c bun_c platelet_c
       num_meds_c : column) : list (string * column) :=
  [ ("subject_id", IntCol (subject_id d));
    ("hadm_id", IntCol (hadm_id a));
    ("readmit_30d", IntCol (readmit_30d o));
    ("age_at_admit", IntCol (age_at_admit d));
    ("gender", StrCol (gender d));
    ("race", StrCol (race d));
    ("insurance", StrCol (insurance d));
    ("marital_status", StrCol (marital_status d));
    ("los_days", float_col (los_days a));
    ("admission_type", StrCol (admission_type a));
    ("prior_admits_12m", IntCol (prior_admits_12m u));
    ("had_icu_stay", IntCol (had_icu_stay u));
    ("icu_los_days", float_col (icu_los_days u));
    ("num_diagnoses", IntCol (num_diagnoses dx));
    ("dx_cerebral_infarction", IntCol (dx_cerebral_infarction dx));
    ("dx_ich", IntCol (dx_ich dx));
    ("dx_epilepsy", IntCol (dx_epilepsy dx));
    ("dx_parkinson", IntCol (dx_parkinson dx));
    ("dx_alzheimer", IntCol (dx_alzheimer dx));
    ("dx_ms", IntCol (dx_ms dx));
    ("dx_diabetes", IntCol (dx_diabetes dx));
    ("dx_chf", IntCol (dx_chf dx));
    ("dx_copd", IntCol (dx_copd dx));
    ("dx_ckd", IntCol (dx_ckd dx));
    ("creatinine", creatinine_c);
    ("hemoglobin", hemoglobin_c);
    ("wbc", wbc_c);
    ("glucose", glucose_c);
    ("sodium", sodium_c);
    ("potassium", potassium_c);
    ("bun", bun_c);
    ("platelet", platelet_c);
    ("num_medications", num_meds_c);
    ("on_anticoagulant", IntCol (on_anticoagulant m));
    ("on_statin", IntCol (on_statin m));
    ("on_insulin", IntCol (on_insulin m));
    ("on_antiepileptic", IntCol (on_antiepileptic m)) ].

Definition assemble (d : Demographics) (a : Admission) (u : Utilization) (dx : Diagnoses)
    (m : Medications) (o : Outcome) (ms : Missing) : M DataFrame :=
  creatinine_c <- float_col_of (creatinine_m ms) ;;
  hemoglobin_c <- float_col_of (hemoglobin_m ms) ;;
  wbc_c <- float_col_of (wbc_m ms) ;;
  glucose_c <- float_col_of (glucose_m ms) ;;
  sodium_c <- float_col_of (sodium_m ms) ;;
  potassium_c <- float_col_of (potassium_m ms) ;;
  bun_c <- float_col_of (bun_m ms) ;;
  platelet_c <- float_col_of (platelet_m ms) ;;
  num_meds_c <- float_col_of (num_meds_m ms) ;;
  pd_DataFrame (columns d a u dx m o creatinine_c hemoglobin_c wbc_c glucose_c sodium_c
                        potassium_c bun_c platelet_c num_meds_c).

(** The names bound when the script ends. *)
Record Globals : Type := {
  g_demographics : Demographics;
  g_admission : Admission;
  g_utilization : Utilization;
  g_diagnoses : Diagnoses;
  g_labs : Labs;
  g_medications : Medications;
  g_outcome : Outcome;
  g_missing : Missing;
  df : DataFrame
}.

Definition script : M Globals :=
  d <- demographics ;;
  a <- admission ;;
  u <- utilization ;;
  dx <- diagnoses ;;
  l <- labs (gender d) (dx_diabetes dx) (dx_ckd dx) ;;
  m <- medications (dx_diabetes dx) (dx_epilepsy dx) ;;
  o <- outcome d a u dx l m ;;
  ms <- missingness (dx_diabetes dx) l m ;;
  t <- assemble d a u dx m o ms ;;
  ret {| g_demographics := d; g_admission := a; g_utilization := u; g_diagnoses := dx;
         g_labs := l; g_medications := m; g_outcome := o; g_missing := ms; df := t |}.

(** [np.random.seed(2025)] on an empty store, then the script. *)
Definition run : result (Globals * state) := script (State (seed 2025) []).

End Script.
(** *** The figures printed after section 7 *)



End Cohort.

(** ** A concrete random stream

    A linear congruential generator with crude samplers.  It meets the
    contracts of [RandomStateLaws] (proved below), so the statements proved
    under those contracts can be instantiated with it. *)

Module Lcg.

Local Open Scope Q_scope.

Definition lcg_next (s : Z) : Z := ((s * 1103515245 + 12345) mod 2147483648)%Z.

Fixpoint lcg_take (n : nat) (s : Z) : list Z * Z :=
  match n with
  | O => ([], s)
  | S n' => let s' := lcg_next s in
            let (l, s'') := lcg_take n' s' in (s' :: l, s'')
  end.

Definition lcg_map {A} (f : Z -> A) (n : nat) (s : Z) : list A * Z :=
  let (l, s') := lcg_take n s in (map f l, s').

(** A rotation of [0 .. a-1], cut to [size] entries. *)
Definition lcg_indices (a size : nat) (s : Z) : list nat * Z :=
  let s' := lcg_next s in
  let k := if (a =? 0)%nat then O else Z.to_nat (s' mod Z.of_nat a) in
  (take size (seq k (a - k) ++ seq 0 k), s').

#[export] Instance lcg : RandomState := {|
  rng := Z;
  seed := fun v => (v mod 2147483648)%Z;
  normal := fun mu sigma => lcg_map (fun v => mu + sigma * inject_Z (v mod 7 - 3));
  lognormal := fun mu sigma => lcg_map (fun v => inject_Z (1 + v mod 16) * (1 # 2));
  poisson := fun lam => lcg_map (fun v => (v mod 12)%Z);
  binomial := fun k p => lcg_map (fun v => (v mod (k + 1))%Z);
  binomial_each := fun k p => lcg_map (fun v => (v mod (k + 1))%Z);
  random := lcg_map (fun v => inject_Z (v mod 1000) / 1000);
  choice := fun a n p =>
    lcg_map (fun v => nth (Z.to_nat (v mod Z.of_nat (length a))) a EmptyString) n;
  choice_without_replacement := lcg_indices
|}.

(** Truncated series and an integer square root stand in for the math
    library. *)
#[export] Instance libm : Libm := {|
  np_exp := fun x => 1 + x + x * x / 2 + x * x * x / 6;
  np_sqrt := fun x => inject_Z (Z.sqrt (Qnum x * Zpos (Qden x))) / inject_Z (Zpos (Qden x))
|}.

End Lcg.

(** * Specifications *)

Module Spec.
Import Cohort.

Local Open Scope Q_scope.
Local Open Scope string_scope.

(** ** Total correctness *)

(** [wp m st Post]: from [st] the computation [m] returns without raising,
    in a result and state that satisfy [Post]. *)
Definition wp {RS : RandomState} {A} (m : M A) (st : state) (Post : A -> state -> Prop) : Prop :=
  match m st with
  | Ok (a, st') => Post a st'
  | Raise _ => False
  end.

(** ** Postconditions of the sections of the script *)

(** An array of [N] Bernoulli outcomes. *)
Definition flags (x : list Z) : Prop := length x = N /\ Forall (betweenZ 0 1) x.

Definition demographics_ok (d : Demographics) : Prop :=
  subject_id d = arange 100001 N /\
  length (age_at_admit d) = N /\ Forall (betweenZ 18 99) (age_at_admit d) /\
  length (gender d) = N /\ length (race d) = N /\ length (insurance d) = N /\
  length (marital_status d) = N.

Definition admission_ok (a : Admission) : Prop :=
  hadm_id a = arange 200001 N /\
  length (los_days a) = N /\ Forall (betweenQ 1.0 60.0) (los_days a) /\
  length (admission_type a) = N.

(** Row by row, the ICU stay length against the ICU flag. *)
Definition icu_rows (u : Utilization) : Prop :=
  forall (i : nat) (flag : Z) (v : Q),
    had_icu_stay u !! i = Some flag -> icu_los_days u !! i = Some v ->
    (flag = 0%Z -> v = 0.0) /\ (flag = 1%Z -> betweenQ 0.5 30.0 v).

Definition utilization_ok (u : Utilization) : Prop :=
  length (prior_admits_12m u) = N /\ flags (had_icu_stay u) /\
  length (icu_los_days u) = N /\ icu_rows u.

Definition diagnoses_ok (dx : Diagnoses) : Prop :=
  length (num_diagnoses dx) = N /\ Forall (betweenZ 1 20) (num_diagnoses dx) /\
  flags (dx_cerebral_infarction dx) /\ flags (dx_ich dx) /\ flags (dx_epilepsy dx) /\
  flags (dx_parkinson dx) /\ flags (dx_alzheimer dx) /\ flags (dx_ms dx) /\
  flags (dx_diabetes dx) /\ flags (dx_chf dx) /\ flags (dx_copd dx) /\ flags (dx_ckd dx).

Definition labs_lengths (l : Labs) : Prop :=
  length (creatinine_base l) = N /\ length (hgb_base l) = N /\ length (glucose_base l) = N /\
  length (creatinine l) = N /\ length (hemoglobin l) = N /\ length (wbc l) = N /\
  length (glucose l) = N /\ length (sodium l) = N /\ length (potassium l) = N /\
  length (bun l) = N /\ length (platelet l) = N.

Definition labs_ranges (l : Labs) : Prop :=
  Forall (betweenQ 0.3 8.0) (creatinine l) /\ Forall (betweenQ 5.0 19.0) (hemoglobin l) /\
  Forall (betweenQ 1.5 35.0) (wbc l) /\ Forall (betweenZ 50 500) (glucose l) /\
  Forall (betweenZ 118 158) (sodium l) /\ Forall (betweenQ 2.5 6.5) (potassium l) /\
  Forall (betweenZ 5 80) (bun l) /\ Forall (betweenZ 30 600) (platelet l).

(** How the adjusted labs come from their base draws. *)
Definition labs_adjusted (dx_diabetes dx_ckd : list Z) (l : Labs) : Prop :=
  creatinine l = clip_round 0.3 8.0 2 (creatinine_adj dx_ckd (creatinine_base l)) /\
  hemoglobin l = clip_round 5.0 19.0 1 (hemoglobin_adj dx_ckd (hgb_base l)) /\
  glucose l = clip_round_int 50 500 (glucose_adj dx_diabetes (glucose_base l)).

Definition labs_ok (dx_diabetes dx_ckd : list Z) (l : Labs) : Prop :=
  labs_lengths l /\ labs_ranges l /\ labs_adjusted dx_diabetes dx_ckd l.

Definition medications_ok (m : Medications) : Prop :=
  length (num_medications m) = N /\ Forall (betweenZ 1 25) (num_medications m) /\
  length (on_anticoagulant m) = N /\ length (on_statin m) = N /\
  length (on_insulin m) = N /\ length (on_antiepileptic m) = N.

Definition outcome_ok (o : Outcome) : Prop :=
  length (readmit_30d o) = N /\ Forall (betweenZ 0 1) (readmit_30d o).

(** *** Section 8 *)

(** The float that [add_missing] hands to [int]. *)
Definition n_miss_float (n : nat) (pct : float) : float :=
  PrimFloat.div (PrimFloat.mul (py_float (Z.of_nat n)) pct) (py_float 100).

(** The two arrays a call leaves in the store: the [astype] result and the
    returned copy with the chosen cells blanked. *)
Definition add_missing_allocs (a : ndarray) (idx : list nat) : list ndarray :=
  [FloatArr (as_float a); FloatArr (set_nan_at idx (as_float a))].

(** [res] is [src] with [n] distinct rows blanked. *)
Definition blanked (n : nat) (src res : list float64) : Prop :=
  exists idx : list nat,
    length idx = n /\ NoDup idx /\ Forall (fun i => (i < length src)%nat) idx /\
    res = set_nan_at idx src.

(** The array object at [l] is [src] after the base rule with [n] rows. *)
Definition base_rule (h : list ndarray) (l : loc) (n : nat) (src : list float64) : Prop :=
  exists res, h !! l = Some (FloatArr res) /\ blanked n src res.

Definition int_cells (x : list Z) : list float64 := as_float (IntArr x).

Definition missing_ok (dx_diabetes : list Z) (l : Labs) (m : Medications) (ms : Missing)
    (h : list ndarray) : Prop :=
  base_rule h (creatinine_m ms) 108 (map Finite (creatinine l)) /\
  base_rule h (hemoglobin_m ms) 172 (map Finite (hemoglobin l)) /\
  base_rule h (wbc_m ms) 139 (map Finite (wbc l)) /\
  (exists base, blanked 300 (int_cells (glucose l)) base /\
     h !! glucose_m ms = Some (FloatArr (set_nan_where (mar_mask ms) base))) /\
  base_rule h (sodium_m ms) 96 (int_cells (sodium l)) /\
  base_rule h (potassium_m ms) 146 (map Finite (potassium l)) /\
  base_rule h (bun_m ms) 199 (int_cells (bun l)) /\
  base_rule h (platelet_m ms) 84 (int_cells (platelet l)) /\
  base_rule h (num_meds_m ms) 60 (int_cells (num_medications m)) /\
  (exists u, length u = N /\ mar_mask ms = and_mask (eq0 dx_diabetes) (below u 0.05)).

(** *** Section 9 and the whole script *)

(** The nine columns with missing cells, as the table holds them. *)
Record MissingColumns : Type := {
  c_creatinine : list float64;
  c_hemoglobin : list float64;
  c_wbc : list float64;
  c_glucose_base : list float64;
  c_sodium : list float64;
  c_potassium : list float64;
  c_bun : list float64;
  c_platelet : list float64;
  c_num_medications : list float64
}.

Definition missing_columns_ok (l : Labs) (m : Medications) (mc : MissingColumns) : Prop :=
  blanked 108 (map Finite (creatinine l)) (c_creatinine mc) /\
  blanked 172 (map Finite (hemoglobin l)) (c_hemoglobin mc) /\
  blanked 139 (map Finite (wbc l)) (c_wbc mc) /\
  blanked 300 (int_cells (glucose l)) (c_glucose_base mc) /\
  blanked 96 (int_cells (sodium l)) (c_sodium mc) /\
  blanked 146 (map Finite (potassium l)) (c_potassium mc) /\
  blanked 199 (int_cells (bun l)) (c_bun mc) /\
  blanked 84 (int_cells (platelet l)) (c_platelet mc) /\
  blanked 60 (int_cells (num_medications m)) (c_num_medications mc).

(** The table in terms of the arrays of the script: the glucose column is
    the base-rule column with the MAR mask applied on top. *)
Definition table (g : Globals) (mc : MissingColumns) : DataFrame :=
  columns (g_demographics g) (g_admission g) (g_utilization g) (g_diagnoses g)
          (g_medications g) (g_outcome g)
          (FloatCol (c_creatinine mc)) (FloatCol (c_hemoglobin mc)) (FloatCol (c_wbc mc))
          (FloatCol (set_nan_where (mar_mask (g_missing g)) (c_glucose_base mc)))
          (FloatCol (c_sodium mc)) (FloatCol (c_potassium mc)) (FloatCol (c_bun mc))
          (FloatCol (c_platelet mc)) (FloatCol (c_num_medications mc)).

Definition script_ok (g : Globals) : Prop :=
  demographics_ok (g_demographics g) /\ admission_ok (g_admission g) /\
  utilization_ok (g_utilization g) /\ diagnoses_ok (g_diagnoses g) /\
  labs_ok (dx_diabetes (g_diagnoses g)) (dx_ckd (g_diagnoses g)) (g_labs g) /\
  medications_ok (g_medications g) /\ outcome_ok (g_outcome g) /\
  (exists u, length u = N /\
     mar_mask (g_missing g) = and_mask (eq0 (dx_diabetes (g_diagnoses g))) (below u 0.05)) /\
  Forall (fun kc => col_len kc.2 = N) (df g) /\
  exists mc, missing_columns_ok (g_labs g) (g_medications g) mc /\ df g = table g mc.

(** ** The stream at the start of a section

    Sections 1 to 4 take no argument, so the state in which section 5
    starts is a closed term; section 8 starts where sections 5 to 7 leave
    the stream on the arrays of the run. *)

Definition state_after {RS : RandomState} {A} (m : M A) (st : state) : state :=
  match m st with
  | Ok (_, st') => st'
  | Raise _ => st
  end.

Definition labs_start {RS : RandomState} : state :=
  state_after diagnoses
    (state_after utilization
       (state_after admission (state_after demographics (State (seed 2025) [])))).

Definition missingness_start {RS : RandomState} {LM : Libm} (g : Globals) : state :=
  let d := g_demographics g in
  let dx := g_diagnoses g in
  state_after (outcome d (g_admission g) (g_utilization g) dx (g_labs g) (g_medications g))
    (state_after (medications (dx_diabetes dx) (dx_epilepsy dx))
       (state_after (labs (gender d) (dx_diabetes dx) (dx_ckd dx)) labs_start)).

(** The base draws of section 5, as the stream serves them from state [s]
    at the start of the section: the first draw, the second and third, and
    the fifth. *)
Definition creatinine_draw {RS : RandomState} (s : rng) : list Q :=
  (lognormal 0.1 0.35 N s).1.

Definition hemoglobin_draws {RS : RandomState} (s : rng) : list Q * list Q :=
  let s1 := (lognormal 0.1 0.35 N s).2 in
  let (female, s2) := normal 12.2 1.8 N s1 in
  let (male, _) := normal 13.8 2.0 N s2 in
  (female, male).

Definition glucose_draw {RS : RandomState} (s : rng) : list Q :=
  let s1 := (lognormal 0.1 0.35 N s).2 in
  let s2 := (normal 12.2 1.8 N s1).2 in
  let s3 := (normal 13.8 2.0 N s2).2 in
  let s4 := (lognormal 2.1 0.35 N s3).2 in
  (lognormal 4.8 0.25 N s4).1.

(** The draws of section 8, from state [s] at the start of the section:
    the rows [np.random.choice] returns in the nine calls of [add_missing],
    in the order of the calls, and the uniform draw of the MAR mask that
    follows them. *)
Definition base_counts : list nat := [108; 172; 139; 300; 96; 146; 199; 84; 60]%nat.

Fixpoint base_rows {RS : RandomState} (counts : list nat) (s : rng) : list (list nat) * rng :=
  match counts with
  | [] => ([], s)
  | n :: counts' =>
      let (idx, s1) := choice_without_replacement N n s in
      let (rows, s2) := base_rows counts' s1 in
      (idx :: rows, s2)
  end.

(** The rows of call [k], counted from 0. *)
Definition rows_of_call {RS : RandomState} (k : nat) (s : rng) : list nat :=
  nth k (base_rows base_counts s).1 [].

Definition glucose_rows {RS : RandomState} (s : rng) : list nat := rows_of_call 3 s.

Definition mar_uniform {RS : RandomState} (s : rng) : list Q :=
  (random N (base_rows base_counts s).2).1.

(** [rows] are [n] distinct rows of the arrays. *)
Definition call_rows (rows : list nat) (n : nat) : Prop :=
  NoDup rows /\ length rows = n /\ Forall (fun i => (i < N)%nat) rows.

(** What section 8 leaves in the store [h], from the stream state [s] at
    its start: each array is its source with the rows of its own call
    blanked, the glucose array with the MAR mask on top, and the mask is
    the non-diabetic rows whose uniform draw is below 0.05. *)
Definition section8_leaves {RS : RandomState} (dx_diabetes : list Z) (l : Labs)
    (m : Medications) (s : rng) (ms : Missing) (h : list ndarray) : Prop :=
  call_rows (rows_of_call 0 s) 108 /\ call_rows (rows_of_call 1 s) 172 /\
  call_rows (rows_of_call 2 s) 139 /\ call_rows (glucose_rows s) 300 /\
  call_rows (rows_of_call 4 s) 96 /\ call_rows (rows_of_call 5 s) 146 /\
  call_rows (rows_of_call 6 s) 199 /\ call_rows (rows_of_call 7 s) 84 /\
  call_rows (rows_of_call 8 s) 60 /\
  length (mar_uniform s) = N /\
  mar_mask ms = and_mask (eq0 dx_diabetes) (below (mar_uniform s) 0.05) /\
  h !! creatinine_m ms =
    Some (FloatArr (set_nan_at (rows_of_call 0 s) (map Finite (creatinine l)))) /\
  h !! hemoglobin_m ms =
    Some (FloatArr (set_nan_at (rows_of_call 1 s) (map Finite (hemoglobin l)))) /\
  h !! wbc_m ms = Some (FloatArr (set_nan_at (rows_of_call 2 s) (map Finite (wbc l)))) /\
  h !! glucose_m ms =
    Some (FloatArr (set_nan_where (mar_mask ms)
                      (set_nan_at (glucose_rows s) (int_cells (glucose l))))) /\
  h !! sodium_m ms = Some (FloatArr (set_nan_at (rows_of_call 4 s) (int_cells (sodium l)))) /\
  h !! potassium_m ms =
    Some (FloatArr (set_nan_at (rows_of_call 5 s) (map Finite (potassium l)))) /\
  h !! bun_m ms = Some (FloatArr (set_nan_at (rows_of_call 6 s) (int_cells (bun l)))) /\
  h !! platelet_m ms =
    Some (FloatArr (set_nan_at (rows_of_call 7 s) (int_cells (platelet l)))) /\
  h !! num_meds_m ms =
    Some (FloatArr (set_nan_at (rows_of_call 8 s) (int_cells (num_medications m)))).

(** ** Properties claimed of a run *)

(** *** Ranges (C1) and the ICU columns (C9) *)

(** A cell of a table column lies in a closed range; a missing cell holds
    no value. *)
Definition cell_between (lo hi : Q) (x : float64) : Prop :=
  match x with
  | Finite q => betweenQ lo hi q
  | NaN => True
  end.

Definition col_between (lo hi : Q) (c : column) : Prop :=
  match c with
  | IntCol l => Forall (fun v => betweenQ lo hi (inject_Z v)) l
  | FloatCol l => Forall (cell_between lo hi) l
  | StrCol _ => False
  end.

(** The column [name] of the table has all its values in [[lo, hi]]. *)
Definition field_between (t : DataFrame) (name : string) (lo hi : Q) : Prop :=
  exists c, df_col t name = Some c /\ col_between lo hi c.

(** The arrays as computed, before any cell is blanked. *)
Definition arrays_in_range (g : Globals) : Prop :=
  Forall (betweenZ 18 99) (age_at_admit (g_demographics g)) /\
  Forall (betweenQ 1.0 60.0) (los_days (g_admission g)) /\
  Forall (betweenZ 1 20) (num_diagnoses (g_diagnoses g)) /\
  Forall (betweenQ 0.3 8.0) (creatinine (g_labs g)) /\
  Forall (betweenQ 5.0 19.0) (hemoglobin (g_labs g)) /\
  Forall (betweenQ 1.5 35.0) (wbc (g_labs g)) /\
  Forall (betweenZ 50 500) (glucose (g_labs g)) /\
  Forall (betweenZ 118 158) (sodium (g_labs g)) /\
  Forall (betweenQ 2.5 6.5) (potassium (g_labs g)) /\
  Forall (betweenZ 5 80) (bun (g_labs g)) /\
  Forall (betweenZ 30 600) (platelet (g_labs g)) /\
  Forall (betweenZ 1 25) (num_medications (g_medications g)).

(** The same twelve fields as columns of the assembled table. *)
Definition table_in_range (t : DataFrame) : Prop :=
  field_between t "age_at_admit" 18 99 /\
  field_between t "los_days" 1.0 60.0 /\
  field_between t "num_diagnoses" 1 20 /\
  field_between t "creatinine" 0.3 8.0 /\
  field_between t "hemoglobin" 5.0 19.0 /\
  field_between t "wbc" 1.5 35.0 /\
  field_between t "glucose" 50 500 /\
  field_between t "sodium" 118 158 /\
  field_between t "potassium" 2.5 6.5 /\
  field_between t "bun" 5 80 /\
  field_between t "platelet" 30 600 /\
  field_between t "num_medications" 1 25.

Definition clipped_fields_in_range (g : Globals) : Prop :=
  arrays_in_range g /\ table_in_range (df g).

(** ICU stay length against the ICU flag, row by row. *)
Definition icu_consistent (g : Globals) : Prop :=
  let u := g_utilization g in
  length (had_icu_stay u) = N /\ length (icu_los_days u) = N /\
  df_col (df g) "had_icu_stay" = Some (IntCol (had_icu_stay u)) /\
  df_col (df g) "icu_los_days" = Some (float_col (icu_los_days u)) /\
  forall (i : nat) (flag : Z) (v : Q),
    had_icu_stay u !! i = Some flag -> icu_los_days u !! i = Some v ->
    (flag = 0%Z \/ flag = 1%Z) /\
    (flag = 0%Z -> v = 0.0) /\
    (flag = 1%Z -> betweenQ 0.5 30.0 v) /\
    (0 < v <-> flag = 1%Z).

(** *** Shape of the table (C6) *)

(** The documented column order. *)
Definition column_order : list string :=
  [ "subject_id"; "hadm_id"; "readmit_30d"; "age_at_admit"; "gender"; "race"; "insurance";
    "marital_status"; "los_days"; "admission_type"; "prior_admits_12m"; "had_icu_stay";
    "icu_los_days"; "num_diagnoses"; "dx_cerebral_infarction"; "dx_ich"; "dx_epilepsy";
    "dx_parkinson"; "dx_alzheimer"; "dx_ms"; "dx_diabetes"; "dx_chf"; "dx_copd"; "dx_ckd";
    "creatinine"; "hemoglobin"; "wbc"; "glucose"; "sodium"; "potassium"; "bun"; "platelet";
    "num_medications"; "on_anticoagulant"; "on_statin"; "on_insulin"; "on_antiepileptic" ].

Definition consecutive_from (start : Z) (x : list Z) : Prop :=
  length x = N /\ forall i : nat, (i < N)%nat -> x !! i = Some (start + Z.of_nat i)%Z.

Definition strictly_increasing (x : list Z) : Prop :=
  forall (i j : nat) (a b : Z), (i < j)%nat -> x !! i = Some a -> x !! j = Some b -> (a < b)%Z.

Definition table_shape (g : Globals) : Prop :=
  N = 2400%nat /\
  length (df g) = 37%nat /\
  map fst (df g) = column_order /\
  Forall (fun kc => col_len kc.2 = N) (df g) /\
  df_col (df g) "subject_id" = Some (IntCol (subject_id (g_demographics g))) /\
  df_col (df g) "hadm_id" = Some (IntCol (hadm_id (g_admission g))) /\
  consecutive_from 100001 (subject_id (g_demographics g)) /\
  strictly_increasing (subject_id (g_demographics g)) /\
  NoDup (subject_id (g_demographics g)) /\
  consecutive_from 200001 (hadm_id (g_admission g)) /\
  strictly_increasing (hadm_id (g_admission g)) /\
  NoDup (hadm_id (g_admission g)).

(** *** Comorbidity adjustments (C5) *)

(** Pre-clip lab values, row by row, against the comorbidity flag. *)
Definition adjusted_by (flags : list Z) (base adj : list Q) (f : Q -> Q) : Prop :=
  length flags = N /\ length base = N /\ length adj = N /\ Forall (betweenZ 0 1) flags /\
  forall (i : nat) (flag : Z) (b : Q),
    flags !! i = Some flag -> base !! i = Some b ->
    (flag = 1%Z -> adj !! i = Some (f b)) /\ (flag = 0%Z -> adj !! i = Some b).

Definition adjusted_labs (g : Globals) : Prop :=
  let dx := g_diagnoses g in
  let l := g_labs g in
  adjusted_by (dx_ckd dx) (creatinine_base l)
              (creatinine_adj (dx_ckd dx) (creatinine_base l)) (fun b => b * 1.8) /\
  adjusted_by (dx_ckd dx) (hgb_base l)
              (hemoglobin_adj (dx_ckd dx) (hgb_base l)) (fun b => b - 1.5) /\
  adjusted_by (dx_diabetes dx) (glucose_base l)
              (glucose_adj (dx_diabetes dx) (glucose_base l)) (fun b => b * 1.3) /\
  creatinine l = map (np_round 2) (map (clipQ 0.3 8.0)
                   (creatinine_adj (dx_ckd dx) (creatinine_base l))) /\
  hemoglobin l = map (np_round 1) (map (clipQ 5.0 19.0)
                   (hemoglobin_adj (dx_ckd dx) (hgb_base l))) /\
  glucose l = map truncQ (map (np_round 0) (map (clipQ 50 500)
                   (glucose_adj (dx_diabetes dx) (glucose_base l)))).

(** The base arrays are the draws of the stream: creatinine and glucose
    their log-normal draws, hemoglobin the female or the male normal draw
    by gender. *)
Definition lab_bases {RS : RandomState} (s : rng) (gender : list string) (l : Labs) : Prop :=
  creatinine_base l = creatinine_draw s /\
  hgb_base l = np_where (eqs gender "F") (hemoglobin_draws s).1 (hemoglobin_draws s).2 /\
  glucose_base l = glucose_draw s.

(** The final value of a row against its flag and its base draw. *)
Definition final_by {A} (flags : list Z) (base : list Q) (final : list A)
    (f : Q -> Q) (finish : Q -> A) : Prop :=
  length final = N /\
  forall (i : nat) (flag : Z) (b : Q),
    flags !! i = Some flag -> base !! i = Some b ->
    (flag = 1%Z -> final !! i = Some (finish (f b))) /\
    (flag = 0%Z -> final !! i = Some (finish b)).

Definition adjustments_by_flag {RS : RandomState} (g : Globals) : Prop :=
  let dx := g_diagnoses g in
  let l := g_labs g in
  lab_bases (st_rng labs_start) (gender (g_demographics g)) l /\
  adjusted_labs g /\
  final_by (dx_ckd dx) (creatinine_draw (st_rng labs_start)) (creatinine l)
           (fun b => b * 1.8) (fun v => np_round 2 (clipQ 0.3 8.0 v)) /\
  final_by (dx_ckd dx) (hgb_base l) (hemoglobin l)
           (fun b => b - 1.5) (fun v => np_round 1 (clipQ 5.0 19.0 v)) /\
  final_by (dx_diabetes dx) (glucose_draw (st_rng labs_start)) (glucose l)
           (fun b => b * 1.3) (fun v => truncQ (np_round 0 (clipQ 50 500 v))).

(** *** The store around [add_missing] (C10) *)

(** What a call that returns [result] in state [st'] did to the store of
    [st]: the argument array [a] and every other array object are as they
    were, and [result] is a new array object holding [a] cast to float with
    the cells at [idx] blanked. *)
Definition add_missing_frame {RS : RandomState} (st : state) (arr result : loc) (st' : state)
    (a : ndarray) (idx : list nat) (res : list float64) : Prop :=
  st_heap st !! arr = Some a /\
  st_heap st' !! arr = Some a /\
  (forall l b, st_heap st !! l = Some b -> st_heap st' !! l = Some b) /\
  st_heap st !! result = None /\ result <> arr /\
  st_heap st' !! result = Some (FloatArr res) /\
  length res = len a /\
  (forall i, i ∉ idx -> res !! i = as_float a !! i) /\
  (forall i, i ∈ idx -> res !! i = Some NaN).

(** The rows [np.random.choice] hands to a call of [add_missing] on the
    array [a] from state [st]: as many as [int(len(a) * pct / 100)],
    drawn from the stream of [st]. *)
Definition chosen_rows {RS : RandomState} (st : state) (a : ndarray) (pct : float) : list nat :=
  match py_int (n_miss_float (len a) pct) with
  | Some n_miss => (choice_without_replacement (len a) (Z.to_nat n_miss) (st_rng st)).1
  | None => []
  end.

(** A call on a 40-element integer array with 12.5 percent. *)
Definition frame_before : state (RS := Lcg.lcg) :=
  State (RS := Lcg.lcg) (seed (RandomState := Lcg.lcg) 2025) [IntArr (arange 50 40)].

Definition frame_after : state (RS := Lcg.lcg) :=
  Eval vm_compute in
    match add_missing (RS := Lcg.lcg) 0%nat 12.5%float "glucose" frame_before with
    | Ok (_, st') => st'
    | Raise _ => frame_before
    end.

(** *** Missing cells (C2, C3, C4) *)

Definition no_nan (l : list float64) : Prop := Forall (fun x => is_nan x = false) l.

(** The base rule on one field: [pct] is the float literal of the call and
    [p] the declared decimal percentage.  The count computed in binary64 is
    [floor (N * p / 100)], that many distinct rows are chosen, and exactly
    their cells are blanked. *)
Definition base_rule_marks (pct : float) (p : Q) (src res : list float64) : Prop :=
  let n := Qfloor (inject_Z (Z.of_nat N) * p / 100) in
  py_int (n_miss_float N pct) = Some n /\
  exists idx : list nat,
    NoDup idx /\ Z.of_nat (length idx) = n /\ Forall (fun i => (i < N)%nat) idx /\
    res = set_nan_at idx src /\
    (forall i, res !! i = Some NaN <-> i ∈ idx) /\
    Z.of_nat (count_nan res) = n.

Definition base_rule_counts (g : Globals) : Prop :=
  let l := g_labs g in
  exists mc : MissingColumns,
    df g = table g mc /\
    base_rule_marks 4.5%float 4.5 (map Finite (creatinine l)) (c_creatinine mc) /\
    base_rule_marks 7.2%float 7.2 (map Finite (hemoglobin l)) (c_hemoglobin mc) /\
    base_rule_marks 5.8%float 5.8 (map Finite (wbc l)) (c_wbc mc) /\
    base_rule_marks 12.5%float 12.5 (int_cells (glucose l)) (c_glucose_base mc) /\
    base_rule_marks 4.0%float 4.0 (int_cells (sodium l)) (c_sodium mc) /\
    base_rule_marks 6.1%float 6.1 (map Finite (potassium l)) (c_potassium mc) /\
    base_rule_marks 8.3%float 8.3 (int_cells (bun l)) (c_bun mc) /\
    base_rule_marks 3.5%float 3.5 (int_cells (platelet l)) (c_platelet mc) /\
    base_rule_marks 2.5%float 2.5 (int_cells (num_medications (g_medications g)))
                    (c_num_medications mc).

(** The glucose column: the base rule, then the MAR mask on top. *)
Definition glucose_missingness (g : Globals) : Prop :=
  let dm := dx_diabetes (g_diagnoses g) in
  let mask := mar_mask (g_missing g) in
  exists (idx : list nat) (u : list Q) (col : list float64),
    NoDup idx /\
    Z.of_nat (length idx) = Qfloor (inject_Z (Z.of_nat N) * 12.5 / 100) /\
    length u = N /\ mask = and_mask (eq0 dm) (below u 0.05) /\
    col = set_nan_where mask (set_nan_at idx (int_cells (glucose (g_labs g)))) /\
    df_col (df g) "glucose" = Some (FloatCol col) /\
    (forall i, mask !! i = Some true <->
               dm !! i = Some 0%Z /\ exists x, u !! i = Some x /\ x < 0.05) /\
    (forall i, (i < N)%nat ->
               col !! i = Some NaN <-> i ∈ idx \/ mask !! i = Some true) /\
    count_nan col =
      (length idx +
       length (filter (fun i => mask !! i = Some true /\ i ∉ idx) (seq 0 N)))%nat /\
    (forall i, dm !! i = Some 1%Z -> col !! i = Some NaN -> i ∈ idx).

(** A column of the table that is its source array with the rows of one
    call of [add_missing] blanked, [n] distinct rows, and nothing else. *)
Definition base_rule_only (t : DataFrame) (name : string) (rows : list nat) (n : nat)
    (src : list float64) : Prop :=
  call_rows rows n /\ df_col t name = Some (FloatCol (set_nan_at rows src)).

Definition only_glucose_has_mar {RS : RandomState} {LM : Libm} (g : Globals) : Prop :=
  let l := g_labs g in
  let s := st_rng (missingness_start g) in
  base_rule_only (df g) "creatinine" (rows_of_call 0 s) 108 (map Finite (creatinine l)) /\
  base_rule_only (df g) "hemoglobin" (rows_of_call 1 s) 172 (map Finite (hemoglobin l)) /\
  base_rule_only (df g) "wbc" (rows_of_call 2 s) 139 (map Finite (wbc l)) /\
  base_rule_only (df g) "sodium" (rows_of_call 4 s) 96 (int_cells (sodium l)) /\
  base_rule_only (df g) "potassium" (rows_of_call 5 s) 146 (map Finite (potassium l)) /\
  base_rule_only (df g) "bun" (rows_of_call 6 s) 199 (int_cells (bun l)) /\
  base_rule_only (df g) "platelet" (rows_of_call 7 s) 84 (int_cells (platelet l)) /\
  base_rule_only (df g) "num_medications" (rows_of_call 8 s) 60
                 (int_cells (num_medications (g_medications g))).

(** The column [name] of the table has [n] missing cells. *)
Definition has_missing (t : DataFrame) (name : string) (n : nat) : Prop :=
  exists c, df_col t name = Some c /\ col_missing c = n.

(** The fields [add_missing] is called on. *)
Definition nine_fields : list string :=
  [ "creatinine"; "hemoglobin"; "wbc"; "glucose"; "sodium"; "potassium"; "bun"; "platelet";
    "num_medications" ].

(** [mar_mask.sum()]. *)
Definition mar_rows (mask : list bool) : nat :=
  length (filter (fun i => mask !! i = Some true) (seq 0 N)).

Definition missing_counts (g : Globals) : Prop :=
  let t := df g in
  has_missing t "creatinine" 108 /\ has_missing t "hemoglobin" 172 /\
  has_missing t "wbc" 139 /\ has_missing t "sodium" 96 /\
  has_missing t "potassium" 146 /\ has_missing t "bun" 199 /\
  has_missing t "platelet" 84 /\ has_missing t "num_medications" 60 /\
  (exists extra : nat, has_missing t "glucose" (300 + extra) /\
                       (extra <= mar_rows (mar_mask (g_missing g)))%nat) /\
  (forall name c, df_col t name = Some c -> name ∉ nine_fields -> col_missing c = O) /\
  length (filter (fun kc => col_missing kc.2 <> O) t) = 9%nat.

(** The glucose column against the stream: the base rule on the rows that
    [np.random.choice] returned in the glucose call, then the MAR mask of
    the uniform draw on top.  A row is in the mask exactly when it is
    non-diabetic and its uniform draw is below 0.05; a cell is missing
    exactly on the rows of either set; the count is 300 plus the MAR rows
    outside the base set, which is [mar_mask.sum()] less the rows in both;
    a diabetic row is missing only through the base rule. *)
Definition glucose_rule {RS : RandomState} {LM : Libm} (g : Globals) : Prop :=
  let dm := dx_diabetes (g_diagnoses g) in
  let mask := mar_mask (g_missing g) in
  let idx := glucose_rows (st_rng (missingness_start g)) in
  let u := mar_uniform (st_rng (missingness_start g)) in
  let col := set_nan_where mask (set_nan_at idx (int_cells (glucose (g_labs g)))) in
  NoDup idx /\
  Z.of_nat (length idx) = Qfloor (inject_Z (Z.of_nat N) * 12.5 / 100) /\
  Forall (fun i => (i < N)%nat) idx /\
  length u = N /\
  mask = and_mask (eq0 dm) (below u 0.05) /\
  df_col (df g) "glucose" = Some (FloatCol col) /\
  (forall i, mask !! i = Some true <->
             dm !! i = Some 0%Z /\ exists x, u !! i = Some x /\ x < 0.05) /\
  (forall i, (i < N)%nat ->
             col !! i = Some NaN <-> i ∈ idx \/ mask !! i = Some true) /\
  count_nan col =
    (300 + length (filter (fun i => mask !! i = Some true /\ i ∉ idx) (seq 0 N)))%nat /\
  (count_nan col + length (filter (fun i => mask !! i = Some true /\ i ∈ idx) (seq 0 N)) =
   300 + mar_rows mask)%nat /\
  (forall i, dm !! i = Some 1%Z -> col !! i = Some NaN -> i ∈ idx).

(** A cohort of identical non-diabetic rows to run section 8 on, and the
    two figures of the glucose array it leaves: the number of missing
    cells and [mar_mask.sum()]. *)
Definition uniform_labs : Labs :=
  {| creatinine_base := full N 1.0; creatinine := full N 1.0; hgb_base := full N 12.0;
     hemoglobin := full N 12.0; wbc := full N 8.0; glucose_base := full N 100;
     glucose := full N 130%Z; sodium := full N 139%Z; potassium := full N 4.1;
     bun := full N 17%Z; platelet := full N 220%Z |}.

Definition uniform_medications : Medications :=
  {| num_medications := full N 8%Z; on_anticoagulant := full N 0%Z; on_statin := full N 1%Z;
     on_insulin := full N 1%Z; on_antiepileptic := full N 0%Z |}.

Definition glucose_figures {RS : RandomState} (r : result (Missing * state)) :
    option (nat * nat) :=
  match r with
  | Ok (ms, st') =>
      match st_heap st' !! glucose_m ms with
      | Some a => Some (count_nan (as_float a), mar_rows (mar_mask ms))
      | None => None
      end
  | Raise _ => None
  end.

(** Some eight field names cover all the columns that have missing cells:
    what the count of eight fields would mean for the table. *)
Definition eight_fields_cover (t : DataFrame) : Prop :=
  exists eight : list string,
    length eight = 8%nat /\
    forall name c, df_col t name = Some c -> name ∉ eight -> col_missing c = O.

(** ** Further properties of the code *)

(** *** Sections 3, 5 and 6: values selected by a mask *)

(** The two draws behind [prior_admits_12m], as the stream serves them from
    state [s] at the start of section 3. *)
Definition prior_admits_draws {RS : RandomState} (s : rng) : list Q * list Z :=
  let (uniform, s1) := random N s in
  let (counts, _) := poisson 1.8 N s1 in
  (uniform, counts).

(** [prior] is 0 on the rows whose uniform draw is below 0.45 and the
    Poisson count of the row, clipped to [[1, 8]], on the others. *)
Definition zero_inflated (uni : list Q) (counts prior : list Z) : Prop :=
  forall (i : nat) (x : Q) (k v : Z),
    uni !! i = Some x -> counts !! i = Some k -> prior !! i = Some v ->
    (x < 0.45 -> v = 0%Z) /\ (~ x < 0.45 -> v = clipZ 1 8 k /\ betweenZ 1 8 v) /\
    (v = 0%Z <-> x < 0.45).

(** [out] takes the row of [yes] where [cond] holds of the key and the row
    of [no] elsewhere. *)
Definition selected_by {K A} (cond : K -> Prop) (keys : list K) (yes no out : list A) : Prop :=
  forall (i : nat) (k : K) (v : A),
    keys !! i = Some k -> out !! i = Some v ->
    (cond k -> yes !! i = Some v) /\ (~ cond k -> no !! i = Some v).

(** The four conditional Bernoulli draws of section 6, as the stream serves
    them from state [s] at the start of the section. *)
Definition medication_draws {RS : RandomState} (s : rng) :
    (list Z * list Z) * (list Z * list Z) :=
  let s1 := (poisson 8 N s).2 in
  let s2 := (binomial 1 0.32 N s1).2 in
  let s3 := (binomial 1 0.38 N s2).2 in
  let (insulin_yes, s4) := binomial 1 0.55 N s3 in
  let (insulin_no, s5) := binomial 1 0.03 N s4 in
  let (aed_yes, s6) := binomial 1 0.85 N s5 in
  let (aed_no, _) := binomial 1 0.12 N s6 in
  ((insulin_yes, insulin_no), (aed_yes, aed_no)).

Definition medication_flags {RS : RandomState} (dx_diabetes dx_epilepsy : list Z) (s : rng)
    (m : Medications) : Prop :=
  flags (on_anticoagulant m) /\ flags (on_statin m) /\
  flags (on_insulin m) /\ flags (on_antiepileptic m) /\
  selected_by (fun flag => flag = 1%Z) dx_diabetes
              (medication_draws s).1.1 (medication_draws s).1.2 (on_insulin m) /\
  selected_by (fun flag => flag = 1%Z) dx_epilepsy
              (medication_draws s).2.1 (medication_draws s).2.2 (on_antiepileptic m).

(** The sixteen 0/1 columns of the table. *)
Definition binary_fields : list string :=
  [ "readmit_30d"; "had_icu_stay"; "dx_cerebral_infarction"; "dx_ich"; "dx_epilepsy";
    "dx_parkinson"; "dx_alzheimer"; "dx_ms"; "dx_diabetes"; "dx_chf"; "dx_copd"; "dx_ckd";
    "on_anticoagulant"; "on_statin"; "on_insulin"; "on_antiepileptic" ].

Definition binary_column (t : DataFrame) (name : string) : Prop :=
  exists l, df_col t name = Some (IntCol l) /\ flags l.

(** *** [add_missing] outside the script's calls *)

(** Cell [i] of [l] is missing. *)
Definition nan_at (l : list float64) (i : nat) : Prop := is_nan <$> l !! i = Some true.

#[export] Instance nan_at_dec (l : list float64) (i : nat) : Decision (nan_at l i) :=
  decide (is_nan <$> l !! i = Some true).

(** What a returning call of [add_missing] on the array [a] with count
    [n] leaves at the returned location: no missing cell of the input is
    filled again, and the number of missing cells is bounded on both
    sides. *)
Definition blanked_over (a : ndarray) (n : nat) (xs : list float64) : Prop :=
  length xs = len a /\
  (forall i, nan_at (as_float a) i -> nan_at xs i) /\
  (n <= count_nan xs)%nat /\
  (count_nan (as_float a) <= count_nan xs)%nat /\
  (count_nan xs <= count_nan (as_float a) + n)%nat.

(** A two-cell array with one cell missing already. *)
Definition half_missing : state (RS := Lcg.lcg) :=
  State (RS := Lcg.lcg) (seed (RandomState := Lcg.lcg) 2025) [FloatArr [NaN; Finite 7.5]].

Definition half_missing_after : state (RS := Lcg.lcg) :=
  Eval vm_compute in
    match add_missing (RS := Lcg.lcg) 0%nat 50%float "glucose" half_missing with
    | Ok (_, st') => st'
    | Raise _ => half_missing
    end.

(** *** Value domains of the table *)

(** What numpy documents of [np.random.choice] on a list of labels: every
    drawn value is one of the labels. *)
Class ChoiceLaws (RS : RandomState) : Prop := {
  choice_range :
    forall (a : list string) (n : nat) (p : list Q) (s : rng),
      a <> [] -> Forall (fun v => v ∈ a) (choice a n p s).1
}.

(** The five label columns with the labels the script draws them from. *)
Definition categorical_fields : list (string * list string) :=
  [ ("gender", ["M"; "F"]);
    ("race", ["WHITE"; "BLACK/AFRICAN AMERICAN"; "HISPANIC/LATINO"; "ASIAN"; "OTHER";
              "UNKNOWN"]);
    ("insurance", ["Medicare"; "Medicaid"; "Other"]);
    ("marital_status", ["MARRIED"; "SINGLE"; "DIVORCED"; "WIDOWED"; "UNKNOWN"]);
    ("admission_type", ["URGENT"; "EMERGENCY"; "OBSERVATION"]) ].

Definition categorical_column (t : DataFrame) (kc : string * list string) : Prop :=
  exists l, df_col t kc.1 = Some (StrCol l) /\ length l = N /\ Forall (fun v => v ∈ kc.2) l.

Definition demographics_labels (d : Demographics) : Prop :=
  Forall (fun v => v ∈ ["M"; "F"]) (gender d) /\
  Forall (fun v => v ∈ ["WHITE"; "BLACK/AFRICAN AMERICAN"; "HISPANIC/LATINO"; "ASIAN";
                        "OTHER"; "UNKNOWN"]) (race d) /\
  Forall (fun v => v ∈ ["Medicare"; "Medicaid"; "Other"]) (insurance d) /\
  Forall (fun v => v ∈ ["MARRIED"; "SINGLE"; "DIVORCED"; "WIDOWED"; "UNKNOWN"])
         (marital_status d).

Definition admission_labels (a : Admission) : Prop :=
  Forall (fun v => v ∈ ["URGENT"; "EMERGENCY"; "OBSERVATION"]) (admission_type a).

(** *** The printed readmission figures *)



End Spec.
Export Spec.

(** * Proofs *)

(** ** The scalar operations on examples *)

Example rint_half_even : (rint (5 # 2), rint (7 # 2), rint (-5 # 2), rint (26 # 10)) = (2, 4, -2, 3).
Proof. reflexivity. Qed.

Example np_round_2 : np_round 2 (12345 # 10000) = (123 # 100)%Q.
Proof. reflexivity. Qed.

Example truncQ_toward_zero : (truncQ (-37 # 10), truncQ (37 # 10)) = (-3, 3).
Proof. reflexivity. Qed.

Example py_int_hemoglobin : py_int (PrimFloat.div (PrimFloat.mul (py_float 2400) 7.2%float) (py_float 100)) = Some 172.
Proof. reflexivity. Qed.

(** ** Rounding and clipping *)

Module ScalarFacts.

Local Open Scope Q_scope.

(** Turn the outcome of a [Qcompare] into the order it stands for. *)
Ltac qcompare_in H :=
  first [ apply (proj2 (Qeq_alt _ _)) in H
        | apply (proj2 (Qlt_alt _ _)) in H
        | apply (proj2 (Qgt_alt _ _)) in H ].

Lemma Qfloor_frac_lo (x : Q) : 0 <= x - inject_Z (Qfloor x).
Proof. pose proof (Qfloor_le x). lra. Qed.

Lemma Qfloor_frac_hi (x : Q) : x - inject_Z (Qfloor x) < 1.
Proof.
  pose proof (Qlt_floor x) as H. rewrite inject_Z_plus in H.
  change (inject_Z 1) with 1 in H. lra.
Qed.

(** [rint] is one of the two neighbouring integers. *)
Lemma rint_cases (x : Q) :
  (rint x = Qfloor x /\ x - inject_Z (Qfloor x) <= 1 # 2) \/
  (rint x = (Qfloor x + 1)%Z /\ 1 # 2 <= x - inject_Z (Qfloor x)).
Proof.
  unfold rint.
  destruct (Qcompare (x - inject_Z (Qfloor x)) (1 # 2)) eqn:E.
  - qcompare_in E. destruct (Z.even (Qfloor x)); [left | right]; split; auto; lra.
  - qcompare_in E. left; split; auto; lra.
  - qcompare_in E. right; split; auto; lra.
Qed.

Lemma rint_lower (x : Q) : x - (1 # 2) <= inject_Z (rint x).
Proof.
  pose proof (Qfloor_frac_hi x).
  destruct (rint_cases x) as [[-> ?] | [-> ?]]; [| rewrite inject_Z_plus; change (inject_Z 1) with 1]; lra.
Qed.

Lemma rint_upper (x : Q) : inject_Z (rint x) <= x + (1 # 2).
Proof.
  pose proof (Qfloor_frac_lo x).
  destruct (rint_cases x) as [[-> ?] | [-> ?]]; [| rewrite inject_Z_plus; change (inject_Z 1) with 1]; lra.
Qed.

Lemma rint_inject_Z (k : Z) : rint (inject_Z k) = k.
Proof.
  unfold rint. rewrite Qfloor_Z.
  assert (E : Qcompare (inject_Z k - inject_Z k) (1 # 2) = Lt) by (apply (proj1 (Qlt_alt _ _)); lra).
  now rewrite E.
Qed.

Lemma Qfloor_eq_frac_le (x y : Q) :
  x <= y -> Qfloor x = Qfloor y -> x - inject_Z (Qfloor x) <= y - inject_Z (Qfloor y).
Proof. intros Hxy ->. lra. Qed.

Lemma rint_mono (x y : Q) : x <= y -> (rint x <= rint y)%Z.
Proof.
  intros Hxy.
  pose proof (Qfloor_resp_le _ _ Hxy) as Hf.
  destruct (Z.eq_dec (Qfloor x) (Qfloor y)) as [E | NE].
  - pose proof (Qfloor_eq_frac_le _ _ Hxy E) as Hfrac.
    unfold rint. rewrite <- E.
    destruct (Qcompare (x - inject_Z (Qfloor x)) (1 # 2)) eqn:Ex;
      destruct (Qcompare (y - inject_Z (Qfloor x)) (1 # 2)) eqn:Ey;
      rewrite ?E in *;
      qcompare_in Ex; qcompare_in Ey;
      try (destruct (Z.even (Qfloor y))); try lia; exfalso; lra.
  - assert (Qfloor x + 1 <= Qfloor y)%Z by lia.
    destruct (rint_cases x) as [[-> _] | [-> _]], (rint_cases y) as [[-> _] | [-> _]]; lia.
Qed.

Lemma rint_ge (k : Z) (x : Q) : inject_Z k <= x -> (k <= rint x)%Z.
Proof. intros H. rewrite <- (rint_inject_Z k). now apply rint_mono. Qed.

Lemma rint_le (k : Z) (x : Q) : x <= inject_Z k -> (rint x <= k)%Z.
Proof. intros H. rewrite <- (rint_inject_Z k). now apply rint_mono. Qed.

Lemma power_of_ten_pos (d : nat) : 0 < power_of_ten d.
Proof.
  unfold power_of_ten. change 0 with (inject_Z 0). rewrite <- Zlt_Qlt.
  apply Z.pow_pos_nonneg; lia.
Qed.

Lemma np_round_mono (d : nat) (x y : Q) : x <= y -> np_round d x <= np_round d y.
Proof.
  intros Hxy. pose proof (power_of_ten_pos d) as Hp.
  destruct d as [| d]; simpl.
  - rewrite <- Zle_Qle. now apply rint_mono.
  - apply Qle_shift_div_l; [exact Hp |].
    unfold Qdiv. rewrite <- Qmult_assoc, (Qmult_comm (/ _)), Qmult_inv_r, Qmult_1_r by lra.
    rewrite <- Zle_Qle. apply rint_mono. apply Qmult_le_compat_r; lra.
Qed.

Lemma rint_comp (x y : Q) : x == y -> rint x = rint y.
Proof. intros E. apply Z.le_antisymm; apply rint_mono; rewrite E; apply Qle_refl. Qed.

(** A value that is a whole number of units of [10 ** -d] is left alone. *)
Lemma np_round_grid (d : nat) (k : Z) :
  np_round d (inject_Z k / power_of_ten d) == inject_Z k / power_of_ten d.
Proof.
  pose proof (power_of_ten_pos d) as Hp.
  destruct d as [| d].
  - simpl. change (power_of_ten 0) with 1.
    assert (E : inject_Z k / 1 == inject_Z k) by (field; lra).
    rewrite (rint_comp _ _ E), rint_inject_Z, E. reflexivity.
  - unfold np_round.
    assert (E : inject_Z k / power_of_ten (S d) * power_of_ten (S d) == inject_Z k)
      by (field; lra).
    rewrite (rint_comp _ _ E), rint_inject_Z. reflexivity.
Qed.

Lemma clipQ_between (lo hi x : Q) : lo <= hi -> betweenQ lo hi (clipQ lo hi x).
Proof.
  intros H. unfold betweenQ, clipQ. split.
  - apply Q.min_glb; [apply Q.le_max_r | exact H].
  - apply Q.le_min_r.
Qed.

Lemma clipQ_mono (lo hi x y : Q) : x <= y -> clipQ lo hi x <= clipQ lo hi y.
Proof.
  intros H. unfold clipQ.
  apply Q.min_le_compat_r, Q.max_le_compat_r, H.
Qed.

Lemma clipZ_between (lo hi x : Z) : (lo <= hi)%Z -> betweenZ lo hi (clipZ lo hi x).
Proof. unfold betweenZ, clipZ. lia. Qed.

(** Rounding keeps a value between two grid points. *)
Lemma np_round_between (d : nat) (a b : Z) (lo hi x : Q) :
  lo == inject_Z a / power_of_ten d -> hi == inject_Z b / power_of_ten d ->
  betweenQ lo hi x -> betweenQ lo hi (np_round d x).
Proof.
  intros Elo Ehi [H1 H2]. split.
  - apply Qle_trans with (np_round d (inject_Z a / power_of_ten d)).
    + rewrite np_round_grid, Elo. apply Qle_refl.
    + apply np_round_mono. rewrite <- Elo. exact H1.
  - apply Qle_trans with (np_round d (inject_Z b / power_of_ten d)).
    + apply np_round_mono. rewrite <- Ehi. exact H2.
    + rewrite np_round_grid, Ehi. apply Qle_refl.
Qed.

Lemma truncQ_inject_Z (k : Z) : truncQ (inject_Z k) = k.
Proof. unfold truncQ. simpl. apply Z.quot_1_r. Qed.

End ScalarFacts.

(** ** Arrays *)

Module ArrayFacts.

Lemma length_arange (start : Z) (n : nat) : length (arange start n) = n.
Proof. unfold arange. now rewrite length_map, length_seq. Qed.

Lemma lookup_arange (start : Z) (n i : nat) :
  (i < n)%nat -> arange start n !! i = Some (start + Z.of_nat i).
Proof.
  intros H. unfold arange. rewrite list_lookup_fmap, lookup_seq_lt by exact H. reflexivity.
Qed.

Lemma length_full {A} (n : nat) (v : A) : length (full n v) = n.
Proof. apply repeat_length. Qed.

Lemma lookup_full {A} (n i : nat) (v x : A) : full n v !! i = Some x -> x = v.
Proof.
  unfold full. revert i. induction n as [| n IH]; intros [| i]; simpl; try discriminate.
  - now intros [= <-].
  - apply IH.
Qed.

Lemma length_np_where {A} (n : nat) (c : list bool) (a b : list A) :
  length c = n -> length a = n -> length b = n -> length (np_where c a b) = n.
Proof.
  revert c a b. induction n as [| n IH]; intros [| c0 c] [| a0 a] [| b0 b]; simpl;
    try discriminate; auto.
  all: intros [= Hc] [= Ha] [= Hb]; f_equal; now apply IH.
Qed.

Lemma lookup_np_where {A} (c : list bool) (a b : list A) (i : nat) (cb : bool) (x y : A) :
  c !! i = Some cb -> a !! i = Some x -> b !! i = Some y ->
  np_where c a b !! i = Some (if cb then x else y).
Proof.
  revert c a b. induction i as [| i IH]; intros [| c0 c] [| a0 a] [| b0 b]; simpl;
    try discriminate.
  - now intros [= ->] [= ->] [= ->].
  - apply IH.
Qed.

Lemma np_where_inv {A} (c : list bool) (a b : list A) (i : nat) (v : A) :
  np_where c a b !! i = Some v ->
  exists (cb : bool) (x y : A),
    c !! i = Some cb /\ a !! i = Some x /\ b !! i = Some y /\ v = if cb then x else y.
Proof.
  revert c a b. induction i as [| i IH]; intros [| c0 c] [| a0 a] [| b0 b]; simpl;
    try discriminate.
  - intros [= <-]. now exists c0, a0, b0.
  - apply IH.
Qed.

Lemma Forall_np_where {A} (P : A -> Prop) (c : list bool) (a b : list A) :
  Forall P a -> Forall P b -> Forall P (np_where c a b).
Proof.
  intros Ha. revert c b. induction Ha as [| x a Hx Ha IH]; intros [| c0 c] b Hb; simpl;
    try constructor; destruct Hb as [| y b Hy Hb]; constructor.
  - now destruct c0.
  - now apply IH.
Qed.

Lemma length_zip_with_Q (f : Q -> Q -> Q) (n : nat) (x y : list Q) :
  length x = n -> length y = n -> length (zip_with_Q f x y) = n.
Proof.
  revert x y. induction n as [| n IH]; intros [| a x] [| b y]; simpl; try discriminate; auto.
  all: intros [= Hx] [= Hy]; f_equal; now apply IH.
Qed.

(** *** Missing cells *)

Lemma count_nan_cons (x : float64) (l : list float64) :
  count_nan (x :: l) = ((if is_nan x then 1 else 0) + count_nan l)%nat.
Proof.
  unfold count_nan. rewrite filter_cons. destruct (is_nan x) eqn:E.
  - rewrite decide_True by reflexivity. reflexivity.
  - rewrite decide_False by discriminate. reflexivity.
Qed.

Lemma count_nan_finite (x : list Q) : count_nan (map Finite x) = O.
Proof. induction x as [| q x IH]; [reflexivity |]. simpl map. now rewrite count_nan_cons. Qed.

Lemma count_nan_as_float_int (x : list Z) : count_nan (as_float (IntArr x)) = O.
Proof. induction x as [| q x IH]; [reflexivity |]. simpl. now rewrite count_nan_cons. Qed.

Lemma length_set_nan_at (idx : list nat) (l : list float64) :
  length (set_nan_at idx l) = length l.
Proof. induction idx as [| i idx IH]; simpl; [reflexivity |]. now rewrite length_insert. Qed.

Lemma lookup_set_nan_at_in (idx : list nat) (l : list float64) (i : nat) :
  i ∈ idx -> (i < length l)%nat -> set_nan_at idx l !! i = Some NaN.
Proof.
  intros Hin Hlt. induction idx as [| j idx IH]; [now apply elem_of_nil in Hin |].
  simpl. destruct (decide (j = i)) as [-> | Hne].
  - apply list_lookup_insert_eq. now rewrite length_set_nan_at.
  - rewrite list_lookup_insert_ne by exact Hne. apply IH.
    apply elem_of_cons in Hin as [-> | Hin]; [congruence | exact Hin].
Qed.

Lemma lookup_set_nan_at_notin (idx : list nat) (l : list float64) (i : nat) :
  i ∉ idx -> set_nan_at idx l !! i = l !! i.
Proof.
  intros Hnotin. induction idx as [| j idx IH]; [reflexivity |].
  apply not_elem_of_cons in Hnotin as [Hne Hnotin].
  simpl. rewrite list_lookup_insert_ne by congruence. now apply IH.
Qed.

Lemma length_set_nan_where (n : nat) (mask : list bool) (l : list float64) :
  length mask = n -> length l = n -> length (set_nan_where mask l) = n.
Proof.
  revert mask l. induction n as [| n IH]; intros [| m mask] [| x l]; simpl;
    try discriminate; auto.
  all: intros [= Hm] [= Hl]; f_equal; now apply IH.
Qed.

Lemma lookup_set_nan_where (mask : list bool) (l : list float64) (i : nat) (m : bool) (x : float64) :
  mask !! i = Some m -> l !! i = Some x ->
  set_nan_where mask l !! i = Some (if m then NaN else x).
Proof.
  revert mask l. induction i as [| i IH]; intros [| m0 mask] [| x0 l]; simpl; try discriminate.
  - now intros [= ->] [= ->].
  - apply IH.
Qed.

(** Counting the missing cells of a column through a predicate on row
    numbers that says which cells are missing. *)
Lemma count_nan_filter_from (P : nat -> Prop) `{!forall i, Decision (P i)}
    (l : list float64) (k : nat) :
  (forall i, (i < length l)%nat -> l !! i = Some NaN <-> P (k + i)%nat) ->
  count_nan l = length (filter P (seq k (length l))).
Proof.
  revert k. induction l as [| x l IH]; intros k Hs; [reflexivity |].
  rewrite count_nan_cons. simpl length. simpl seq. rewrite filter_cons.
  rewrite (IH (S k)).
  2: { intros i Hi. specialize (Hs (S i)). simpl in Hs.
       replace (S k + i)%nat with (k + S i)%nat by lia. apply Hs. lia. }
  specialize (Hs O). simpl in Hs. rewrite Nat.add_0_r in Hs.
  destruct x as [q |]; simpl.
  - rewrite decide_False; [reflexivity |]. intros HP. apply Hs in HP; [discriminate | lia].
  - rewrite decide_True; [reflexivity |]. apply Hs; [lia | reflexivity].
Qed.

Lemma count_nan_filter (P : nat -> Prop) `{!forall i, Decision (P i)} (l : list float64) :
  (forall i, (i < length l)%nat -> l !! i = Some NaN <-> P i) ->
  count_nan l = length (filter P (seq 0 (length l))).
Proof. intros Hs. apply count_nan_filter_from. exact Hs. Qed.

(** Distinct in-range row numbers are counted once each. *)
Lemma length_filter_elem_of (idx : list nat) (n : nat) :
  NoDup idx -> Forall (fun i => (i < n)%nat) idx ->
  length (filter (fun i => i ∈ idx) (seq 0 n)) = length idx.
Proof.
  intros Hnd Hlt. apply Permutation_length, NoDup_Permutation.
  - apply NoDup_filter, NoDup_seq.
  - exact Hnd.
  - intros i. rewrite list_elem_of_filter, elem_of_seq. split; [tauto |].
    intros Hi. split; [exact Hi |]. rewrite Forall_forall in Hlt. specialize (Hlt i Hi). lia.
Qed.

(** Splitting a union of two row sets into the first and what the second adds. *)
Lemma length_filter_or (P R : nat -> Prop) `{!forall i, Decision (P i)} `{!forall i, Decision (R i)}
    (l : list nat) :
  length (filter (fun i => P i \/ R i) l) =
  (length (filter P l) + length (filter (fun i => R i /\ ~ P i) l))%nat.
Proof.
  induction l as [| i l IH]; [reflexivity |].
  rewrite !filter_cons.
  destruct (decide (P i)) as [HP | HP], (decide (R i)) as [HR | HR].
  - rewrite decide_True by tauto. rewrite decide_False by tauto. simpl. now rewrite IH.
  - rewrite decide_True by tauto. rewrite decide_False by tauto. simpl. now rewrite IH.
  - rewrite decide_True by tauto. rewrite decide_True by tauto. simpl. rewrite IH. lia.
  - rewrite decide_False by tauto. rewrite decide_False by tauto. exact IH.
Qed.

End ArrayFacts.

(** ** A total-correctness logic for the interpreter monad *)

Section WP.
Context {RS : RandomState}.

Lemma wp_ret {A} (a : A) st (Post : A -> state -> Prop) : Post a st -> wp (ret a) st Post.
Proof. intros H. exact H. Qed.

Lemma wp_bind {A B} (m : M A) (k : A -> M B) st (Post : B -> state -> Prop) :
  wp m st (fun a st' => wp (k a) st' Post) -> wp (bind m k) st Post.
Proof. unfold wp, bind. destruct (m st) as [[a st'] | e]; auto. Qed.

Lemma wp_mono {A} (m : M A) st (P Post : A -> state -> Prop) :
  (forall a st', P a st' -> Post a st') -> wp m st P -> wp m st Post.
Proof. unfold wp. intros H. destruct (m st) as [[a st'] | e]; auto. Qed.

Lemma wp_returns {A} (m : M A) st (Post : A -> state -> Prop) :
  wp m st Post -> exists a st', m st = Ok (a, st') /\ Post a st'.
Proof. unfold wp. destruct (m st) as [[a st'] | e]; [eauto | tauto]. Qed.

Lemma wp_of_returns {A} (m : M A) st a st' (Post : A -> state -> Prop) :
  m st = Ok (a, st') -> Post a st' -> wp m st Post.
Proof. unfold wp. now intros ->. Qed.

Lemma wp_draw {A} (f : rng -> A * rng) st (Post : A -> state -> Prop) :
  Post (f (st_rng st)).1 (State (f (st_rng st)).2 (st_heap st)) -> wp (draw f) st Post.
Proof. unfold wp, draw. now destruct (f (st_rng st)). Qed.

Lemma wp_ref (a : ndarray) st (Post : loc -> state -> Prop) :
  Post (length (st_heap st)) (State (st_rng st) (st_heap st ++ [a])) -> wp (ref a) st Post.
Proof. intros H. exact H. Qed.

Lemma wp_load (l : loc) (a : ndarray) st (Post : ndarray -> state -> Prop) :
  st_heap st !! l = Some a -> Post a st -> wp (load l) st Post.
Proof. unfold wp, load. now intros ->. Qed.

Lemma wp_store (l : loc) (a b : ndarray) st (Post : unit -> state -> Prop) :
  st_heap st !! l = Some b ->
  Post tt (State (st_rng st) (<[l := a]> (st_heap st))) -> wp (store l a) st Post.
Proof. unfold wp, store. now intros ->. Qed.

Context {HL : RandomStateLaws RS}.

Lemma wp_normal mu sigma n st (Post : list Q -> state -> Prop) :
  (forall v r, length v = n -> Post v (State r (st_heap st))) ->
  wp (draw (normal mu sigma n)) st Post.
Proof using HL. intros H. apply wp_draw, H, normal_length. Qed.

Lemma wp_lognormal mu sigma n st (Post : list Q -> state -> Prop) :
  (forall v r, length v = n -> Post v (State r (st_heap st))) ->
  wp (draw (lognormal mu sigma n)) st Post.
Proof using HL. intros H. apply wp_draw, H, lognormal_length. Qed.

Lemma wp_poisson lam n st (Post : list Z -> state -> Prop) :
  (forall v r, length v = n -> Post v (State r (st_heap st))) ->
  wp (draw (poisson lam n)) st Post.
Proof using HL. intros H. apply wp_draw, H, poisson_length. Qed.

Lemma wp_random n st (Post : list Q -> state -> Prop) :
  (forall v r, length v = n -> Post v (State r (st_heap st))) ->
  wp (draw (random n)) st Post.
Proof using HL. intros H. apply wp_draw, H, random_length. Qed.

Lemma wp_choice a n p st (Post : list string -> state -> Prop) :
  (forall v r, length v = n -> Post v (State r (st_heap st))) ->
  wp (draw (choice a n p)) st Post.
Proof using HL. intros H. apply wp_draw, H, choice_length. Qed.

Lemma wp_binomial k p n st (Post : list Z -> state -> Prop) :
  0 <= k ->
  (forall v r, length v = n -> Forall (betweenZ 0 k) v -> Post v (State r (st_heap st))) ->
  wp (draw (binomial k p n)) st Post.
Proof using HL.
  intros Hk H. apply wp_draw, H; [apply binomial_length | now apply binomial_range].
Qed.

Lemma wp_binomial_each k p n st (Post : list Z -> state -> Prop) :
  0 <= k ->
  (forall v r, length v = n -> Forall (betweenZ 0 k) v -> Post v (State r (st_heap st))) ->
  wp (draw (binomial_each k p n)) st Post.
Proof using HL.
  intros Hk H. apply wp_draw, H; [apply binomial_each_length | now apply binomial_each_range].
Qed.

Lemma wp_choice_without_replacement a size st (Post : list nat -> state -> Prop) :
  (size <= a)%nat ->
  (forall idx r, length idx = size -> NoDup idx -> Forall (fun i => (i < a)%nat) idx ->
                 Post idx (State r (st_heap st))) ->
  wp (draw (choice_without_replacement a size)) st Post.
Proof using HL.
  intros Hs H. apply wp_draw, H.
  - now apply choice_without_replacement_length.
  - now apply choice_without_replacement_distinct.
  - now apply choice_without_replacement_range.
Qed.

End WP.

(** One sampler call of the script: bind its result and keep what the
    contract says of it. *)
Ltac wp_sample :=
  apply wp_bind;
  first [ apply wp_normal | apply wp_lognormal | apply wp_poisson | apply wp_random
        | apply wp_choice
        | apply wp_binomial; [lia |]
        | apply wp_binomial_each; [lia |] ];
  intros; cbn [st_heap st_rng].

(** ** What each section of the script establishes *)

Module CohortFacts.
Import Cohort ScalarFacts ArrayFacts.

Local Open Scope Q_scope.

Arguments N : simpl never.

Lemma length_clip_round lo hi d x : length (clip_round lo hi d x) = length x.
Proof. unfold clip_round. now rewrite !length_map. Qed.

Lemma length_clip_round_int lo hi x : length (clip_round_int lo hi x) = length x.
Proof. unfold clip_round_int. now rewrite length_map, length_clip_round. Qed.

Lemma Forall_clip_round (d : nat) (a b : Z) (lo hi : Q) (x : list Q) :
  lo == inject_Z a / power_of_ten d -> hi == inject_Z b / power_of_ten d -> lo <= hi ->
  Forall (betweenQ lo hi) (clip_round lo hi d x).
Proof.
  intros Elo Ehi Hle. unfold clip_round.
  apply Forall_map, Forall_map, Forall_forall. intros v _.
  apply (np_round_between d a b); auto. now apply clipQ_between.
Qed.

Lemma Forall_clip_round_int (a b : Z) (x : list Q) :
  (a <= b)%Z -> Forall (betweenZ a b) (clip_round_int (inject_Z a) (inject_Z b) x).
Proof.
  intros Hle. unfold clip_round_int, clip_round.
  apply Forall_map, Forall_map, Forall_map, Forall_forall. intros v _.
  simpl. rewrite truncQ_inject_Z.
  destruct (clipQ_between (inject_Z a) (inject_Z b) v) as [H1 H2]; [now rewrite <- Zle_Qle |].
  split; [now apply rint_ge | now apply rint_le].
Qed.

Lemma Forall_clipZ (lo hi : Z) (x : list Z) :
  (lo <= hi)%Z -> Forall (betweenZ lo hi) (map (clipZ lo hi) x).
Proof. intros H. apply Forall_map, Forall_forall. intros v _. now apply clipZ_between. Qed.

Lemma length_eq1 x : length (eq1 x) = length x.
Proof. apply length_map. Qed.

Lemma length_eq0 x : length (eq0 x) = length x.
Proof. apply length_map. Qed.

Lemma length_below x c : length (below x c) = length x.
Proof. apply length_map. Qed.

Lemma length_eqs x c : length (eqs x c) = length x.
Proof. apply length_map. Qed.

Lemma length_and_mask (n : nat) (x y : list bool) :
  length x = n -> length y = n -> length (and_mask x y) = n.
Proof.
  revert x y. induction n as [| n IH]; intros [| a x] [| b y]; simpl; try discriminate; auto.
Qed.

Lemma lookup_and_mask (x y : list bool) (i : nat) (m : bool) :
  and_mask x y !! i = Some m ->
  exists a b : bool, x !! i = Some a /\ y !! i = Some b /\ m = a && b.
Proof.
  revert x y. induction i as [| i IH]; intros [| a x] [| b y]; simpl; try discriminate.
  - intros [= <-]. now exists a, b.
  - apply IH.
Qed.

Lemma lookup_eq1 (x : list Z) (i : nat) (v : Z) : x !! i = Some v -> eq1 x !! i = Some (v =? 1)%Z.
Proof. intros H. unfold eq1. now rewrite list_lookup_fmap, H. Qed.

Lemma lookup_eq0 (x : list Z) (i : nat) (v : Z) : x !! i = Some v -> eq0 x !! i = Some (v =? 0)%Z.
Proof. intros H. unfold eq0. now rewrite list_lookup_fmap, H. Qed.

(** *** Sections 1 to 7 *)

(** Reading a field of a record that was just built. *)
Ltac fields :=
  cbn [subject_id age_at_admit gender race insurance marital_status
       los_days admission_type hadm_id
       prior_admits_12m had_icu_stay icu_los_days
       num_diagnoses dx_cerebral_infarction dx_ich dx_epilepsy dx_parkinson dx_alzheimer
       dx_ms dx_diabetes dx_chf dx_copd dx_ckd
       creatinine_base creatinine hgb_base hemoglobin wbc glucose_base glucose sodium
       potassium bun platelet
       num_medications on_anticoagulant on_statin on_insulin on_antiepileptic
       logit prob_readmit readmit_30d
       creatinine_m hemoglobin_m wbc_m glucose_m sodium_m potassium_m bun_m platelet_m
       num_meds_m mar_mask].

(** Lengths of the arrays the script builds. *)
Ltac solve_length :=
  unfold creatinine_adj, hemoglobin_adj, glucose_adj, arr_mul, arr_add, arr_sub, scal, offs, to_float;
  repeat first
    [ assumption
    | rewrite length_clip_round_int | rewrite length_clip_round | rewrite length_map
    | rewrite length_eq1 | rewrite length_eq0 | rewrite length_below | rewrite length_eqs
    | apply length_full | apply length_arange
    | apply length_np_where | apply length_zip_with_Q | apply length_and_mask ].

Section Sections.
Context {RS : RandomState} {HL : RandomStateLaws RS} {LM : Libm}.

Lemma demographics_wp st (Post : Demographics -> state -> Prop) :
  (forall d r, demographics_ok d -> Post d (State r (st_heap st))) -> wp demographics st Post.
Proof using HL.
  intros HQ. unfold demographics. do 5 wp_sample. apply wp_ret, HQ.
  repeat split; fields; auto.
  - now rewrite !length_map.
  - now apply Forall_clipZ.
Qed.

Lemma admission_wp st (Post : Admission -> state -> Prop) :
  (forall a r, admission_ok a -> Post a (State r (st_heap st))) -> wp admission st Post.
Proof using HL.
  intros HQ. unfold admission. do 2 wp_sample. apply wp_ret, HQ.
  repeat split; fields; auto.
  - now rewrite length_clip_round.
  - apply (Forall_clip_round 1 10 600); [reflexivity | reflexivity | discriminate].
Qed.

Lemma utilization_wp st (Post : Utilization -> state -> Prop) :
  (forall u r, utilization_ok u -> Post u (State r (st_heap st))) -> wp utilization st Post.
Proof using HL.
  intros HQ. unfold utilization. do 4 wp_sample. apply wp_ret, HQ.
  unfold utilization_ok, flags, icu_rows. fields. split_and!; try solve_length; auto.
  intros i flag x Hflag Hx.
  apply np_where_inv in Hx as (cb & a & b & Hcb & Ha & Hb & ->).
  rewrite (lookup_eq1 _ _ _ Hflag) in Hcb. injection Hcb as <-.
  split; intros ->; cbn [Z.eqb Pos.eqb].
  - now apply lookup_full in Hb.
  - eapply Forall_lookup_1; [| exact Ha].
    apply (Forall_clip_round 1 5 300); [reflexivity | reflexivity | discriminate].
Qed.

Lemma diagnoses_wp st (Post : Diagnoses -> state -> Prop) :
  (forall dx r, diagnoses_ok dx -> Post dx (State r (st_heap st))) -> wp diagnoses st Post.
Proof using HL.
  intros HQ. unfold diagnoses. do 11 wp_sample. apply wp_ret, HQ.
  unfold diagnoses_ok, flags. fields. split_and!; try solve_length; auto.
  now apply Forall_clipZ.
Qed.

Lemma labs_wp gender dx_diabetes dx_ckd st (Post : Labs -> state -> Prop) :
  length gender = N -> length dx_diabetes = N -> length dx_ckd = N ->
  (forall l r, labs_ok dx_diabetes dx_ckd l -> Post l (State r (st_heap st))) ->
  wp (labs gender dx_diabetes dx_ckd) st Post.
Proof using HL.
  intros Hg Hd Hc HQ. unfold labs. do 9 wp_sample. apply wp_ret, HQ.
  unfold labs_ok, labs_lengths, labs_ranges, labs_adjusted. fields.
  split_and!; try solve_length; try reflexivity.
  - apply (Forall_clip_round 2 30 800); [reflexivity | reflexivity | discriminate].
  - apply (Forall_clip_round 1 50 190); [reflexivity | reflexivity | discriminate].
  - apply (Forall_clip_round 1 15 350); [reflexivity | reflexivity | discriminate].
  - apply (Forall_clip_round_int 50 500). lia.
  - apply (Forall_clip_round_int 118 158). lia.
  - apply (Forall_clip_round 1 25 65); [reflexivity | reflexivity | discriminate].
  - apply (Forall_clip_round_int 5 80). lia.
  - apply (Forall_clip_round_int 30 600). lia.
Qed.

Lemma medications_wp dx_diabetes dx_epilepsy st (Post : Medications -> state -> Prop) :
  length dx_diabetes = N -> length dx_epilepsy = N ->
  (forall m r, medications_ok m -> Post m (State r (st_heap st))) ->
  wp (medications dx_diabetes dx_epilepsy) st Post.
Proof using HL.
  intros Hd He HQ. unfold medications. do 7 wp_sample. apply wp_ret, HQ.
  unfold medications_ok. fields. split_and!; try solve_length.
  now apply Forall_clipZ.
Qed.

Lemma outcome_wp d a u dx l m st (Post : Outcome -> state -> Prop) :
  (forall o r, outcome_ok o -> Post o (State r (st_heap st))) ->
  wp (outcome d a u dx l m) st Post.
Proof using HL.
  intros HQ. unfold outcome. do 2 wp_sample. apply wp_ret, HQ.
  unfold outcome_ok. fields. split; assumption.
Qed.

(** *** [add_missing] *)

Lemma length_as_float (a : ndarray) : length (as_float a) = len a.
Proof. destruct a; simpl; [apply length_map | reflexivity]. Qed.

(** [add_missing] in closed form. *)
Lemma add_missing_unfold st arr pct name :
  add_missing arr pct name st =
  match st_heap st !! arr with
  | None => Raise TypeError
  | Some a =>
      match py_int (n_miss_float (len a) pct) with
      | None => Raise OverflowError
      | Some n_miss =>
          if (n_miss <? 0)%Z then Raise ValueError
          else if (Z.of_nat (len a) <? n_miss)%Z then Raise ValueError
          else
            let (idx, r) := choice_without_replacement (len a) (Z.to_nat n_miss) (st_rng st) in
            if forallb (fun i => i <? len a)%nat idx
            then Ok (S (length (st_heap st)),
                     State r (st_heap st ++ add_missing_allocs a idx))
            else Raise IndexError
      end
  end.
Proof.
  unfold add_missing, n_miss_float, bind at 1, load at 1.
  destruct (st_heap st !! arr) as [a |] eqn:Ha; [| reflexivity].
  unfold bind at 1, int_of.
  destruct (py_int _) as [n_miss |]; [| reflexivity].
  unfold ret at 1, bind at 1, np_random_choice.
  destruct (n_miss <? 0)%Z; [reflexivity |].
  destruct (Z.of_nat (len a) <? n_miss)%Z; [reflexivity |].
  unfold draw at 1.
  destruct (choice_without_replacement _ _ _) as [idx r].
  unfold bind, astype_float, copy, setitem_nan, load, ref, store, ret, raise, bind.
  cbn [st_heap st_rng]. rewrite Ha.
  cbn [st_heap st_rng]. rewrite list_lookup_middle by reflexivity.
  cbn [st_heap st_rng]. rewrite list_lookup_middle by reflexivity.
  rewrite length_as_float.
  destruct (forallb _ idx); [| reflexivity].
  cbn [st_heap st_rng]. rewrite list_lookup_middle by reflexivity.
  rewrite insert_app_r_alt by reflexivity. rewrite Nat.sub_diag.
  rewrite length_app, Nat.add_1_r, <- app_assoc. reflexivity.
Qed.

Lemma add_missing_wp st arr a k pct name n (Post : loc -> state -> Prop) :
  st_heap st !! arr = Some a -> len a = k ->
  py_int (n_miss_float k pct) = Some (Z.of_nat n) -> (n <= k)%nat ->
  (forall idx r, length idx = n -> NoDup idx -> Forall (fun i => (i < k)%nat) idx ->
     Post (S (length (st_heap st))) (State r (st_heap st ++ add_missing_allocs a idx))) ->
  wp (add_missing arr pct name) st Post.
Proof using HL.
  intros Ha Hk Hn Hle HPost. unfold wp. rewrite add_missing_unfold, Ha, Hk, Hn.
  destruct (Z.ltb_spec (Z.of_nat n) 0) as [? | _]; [lia |].
  destruct (Z.ltb_spec (Z.of_nat k) (Z.of_nat n)) as [? | _]; [lia |].
  rewrite Nat2Z.id.
  pose proof (choice_without_replacement_length k n (st_rng st) Hle) as Hlen.
  pose proof (choice_without_replacement_distinct k n (st_rng st) Hle) as Hnd.
  pose proof (choice_without_replacement_range k n (st_rng st) Hle) as Hrange.
  destruct (choice_without_replacement k n (st_rng st)) as [idx r]. simpl in Hlen, Hnd, Hrange.
  replace (forallb (fun i => i <? k)%nat idx) with true; [now apply HPost |].
  symmetry. apply forallb_forall. intros i Hi.
  apply Nat.ltb_lt. rewrite Forall_forall in Hrange. apply Hrange. now apply list_elem_of_In.
Qed.

(** *** Section 8 *)

Lemma blanked_intro (n k : nat) (src : list float64) (idx : list nat) :
  length src = k -> length idx = n -> NoDup idx -> Forall (fun i => (i < k)%nat) idx ->
  blanked n src (set_nan_at idx src).
Proof. intros <- ? ? ?. now exists idx. Qed.

(** One [add_missing] call of section 8 on a fresh array object. *)
Ltac wp_add_missing n :=
  apply wp_bind, wp_ref; cbn [st_heap st_rng app length];
  apply wp_bind;
  eapply (add_missing_wp _ _ _ N _ _ n);
  [ reflexivity
  | unfold float_array; cbn [len as_float]; rewrite length_map; assumption
  | vm_compute; reflexivity
  | unfold N; lia
  | ];
  intros ? ? ? ? ?; cbn [st_heap st_rng app length add_missing_allocs].

Lemma missingness_wp dx_diabetes l m st (Post : Missing -> state -> Prop) :
  st_heap st = [] -> length dx_diabetes = N -> labs_lengths l -> medications_ok m ->
  (forall ms st', missing_ok dx_diabetes l m ms (st_heap st') -> Post ms st') ->
  wp (missingness dx_diabetes l m) st Post.
Proof using HL.
  intros Hh Hd (_ & _ & _ & Hcr & Hhg & Hwb & Hgl & Hso & Hpo & Hbu & Hpl) (Hnm & _) HPost.
  destruct st as [r0 h0]. simpl in Hh. subst h0.
  unfold missingness.
  wp_add_missing 108%nat. wp_add_missing 172%nat. wp_add_missing 139%nat.
  wp_add_missing 300%nat. wp_add_missing 96%nat. wp_add_missing 146%nat.
  wp_add_missing 199%nat. wp_add_missing 84%nat. wp_add_missing 60%nat.
  wp_sample.
  apply wp_bind. unfold setitem_nan_mask. apply wp_bind.
  eapply wp_load; [reflexivity |].
  rewrite (length_and_mask N), length_set_nan_at
    by (try rewrite length_eq0; try rewrite length_below; assumption).
  repeat (rewrite length_as_float; cbn [len]). rewrite Hgl, Nat.eqb_refl.
  eapply wp_store; [reflexivity |].
  apply wp_ret, HPost. cbn [st_heap].
  unfold missing_ok, base_rule, float_array. fields. cbn [as_float].
  assert (Hlen : forall x : list Z, length x = N -> length (int_cells x) = N)
    by (intros x Hx; unfold int_cells; cbn [as_float]; now rewrite length_map).
  split_and!;
    try (eexists; split; [reflexivity |]; apply (blanked_intro _ N);
         first [assumption | rewrite length_map; assumption | apply Hlen; assumption]).
  - eexists. split; [| reflexivity].
    apply (blanked_intro _ N); first [assumption | apply Hlen; assumption].
  - eexists. split; [eassumption | reflexivity].
Qed.

(** *** Section 9 and the whole script *)

Lemma float_col_of_wp l c st (Post : column -> state -> Prop) :
  st_heap st !! l = Some (FloatArr c) -> Post (FloatCol c) st -> wp (float_col_of l) st Post.
Proof.
  intros Hl HPost. unfold float_col_of. apply wp_bind. eapply wp_load; [exact Hl |].
  apply wp_ret. exact HPost.
Qed.

Lemma pd_DataFrame_wp cols n st (Post : DataFrame -> state -> Prop) :
  Forall (fun kc => col_len kc.2 = n) cols -> Post cols st -> wp (pd_DataFrame cols) st Post.
Proof.
  intros Hlen HPost. destruct cols as [| [k c] rest]; [exact HPost |].
  unfold wp, pd_DataFrame. apply Forall_cons in Hlen as [Hc Hrest]. simpl in Hc.
  replace (forallb (fun kc => col_len kc.2 =? col_len c)%nat rest) with true; [exact HPost |].
  symmetry. apply forallb_forall. intros kc Hin. apply Nat.eqb_eq.
  rewrite Forall_forall in Hrest. rewrite Hc. apply Hrest. now apply list_elem_of_In.
Qed.

Lemma length_blanked n src res : blanked n src res -> length res = length src.
Proof. intros (idx & _ & _ & _ & ->). apply length_set_nan_at. Qed.

Lemma length_int_cells x : length (int_cells x) = length x.
Proof. unfold int_cells. cbn [as_float]. apply length_map. Qed.

Lemma length_mar_mask dx_diabetes u :
  length dx_diabetes = N -> length u = N ->
  length (and_mask (eq0 dx_diabetes) (below u 0.05)) = N.
Proof. intros. solve_length. Qed.

Lemma script_wp :
  wp script (State (seed 2025) []) (fun g _ => script_ok g).
Proof using HL.
  unfold script.
  apply wp_bind, demographics_wp. intros d r1 Hd. cbn [st_heap].
  apply wp_bind, admission_wp. intros a r2 Ha. cbn [st_heap].
  apply wp_bind, utilization_wp. intros u r3 Hu. cbn [st_heap].
  apply wp_bind, diagnoses_wp. intros dx r4 Hdx. cbn [st_heap].
  pose proof Hd as (_ & _ & _ & Hgender & _).
  pose proof Hdx as (_ & _ & _ & _ & [Hep _] & _ & _ & _ & [Hdm _] & _ & _ & [Hck _]).
  apply wp_bind, labs_wp; try assumption. intros l r5 Hl. cbn [st_heap].
  apply wp_bind, medications_wp; try assumption. intros m r6 Hm. cbn [st_heap].
  apply wp_bind, outcome_wp. intros o r7 Ho. cbn [st_heap].
  pose proof Hl as (Hll & _ & _).
  apply wp_bind, missingness_wp; try assumption; try reflexivity.
  intros ms st' Hms.
  destruct Hms as ((c1 & L1 & B1) & (c2 & L2 & B2) & (c3 & L3 & B3) & (c4 & B4 & L4) &
                   (c5 & L5 & B5) & (c6 & L6 & B6) & (c7 & L7 & B7) & (c8 & L8 & B8) &
                   (c9 & L9 & B9) & (w & Hw & Hmask)).
  apply wp_bind. unfold assemble.
  do 9 (apply wp_bind; eapply float_col_of_wp; [eassumption |]).
  pose proof Ha as (_ & ? & _ & ?).
  pose proof Hu as (? & [? _] & ? & _).
  pose proof Hd as (Hsid & ? & _ & _ & ? & ? & ?).
  pose proof Ha as (Hhid & _).
  pose proof Hdx as (? & _ & [? _] & [? _] & _ & [? _] & [? _] & [? _] & _ & [? _] & [? _] & _).
  pose proof Hm as (? & _ & ? & ? & ? & ?).
  pose proof Ho as (? & _).
  destruct Hll as (_ & _ & _ & ? & ? & ? & ? & ? & ? & ? & ?).
  match goal with |- wp (pd_DataFrame ?cols) _ _ =>
    assert (Hcols : Forall (fun kc => col_len kc.2 = N) cols) end.
  { unfold columns, float_col.
    repeat (apply Forall_cons; split); try apply Forall_nil; try exact I; cbn [snd col_len];
      rewrite ?length_map; try assumption;
      try (rewrite Hsid; apply length_arange); try (rewrite Hhid; apply length_arange);
      try (erewrite length_blanked by eassumption;
           rewrite ?length_map, ?length_int_cells; assumption).
    apply (length_set_nan_where N).
    - rewrite Hmask. now apply length_mar_mask.
    - erewrite length_blanked by eassumption. now rewrite length_int_cells. }
  apply (pd_DataFrame_wp _ N); [exact Hcols |]. apply wp_ret.
  unfold script_ok. cbn [g_demographics g_admission g_utilization g_diagnoses g_labs
                          g_medications g_outcome g_missing df].
  split_and!; try assumption.
  - now exists w.
  - exists {| c_creatinine := c1; c_hemoglobin := c2; c_wbc := c3; c_glucose_base := c4;
              c_sodium := c5; c_potassium := c6; c_bun := c7; c_platelet := c8;
              c_num_medications := c9 |}.
    split; [| reflexivity].
    unfold missing_columns_ok. cbn. now split_and!.
Qed.

(** The script runs to completion, and its globals are as described. *)
Lemma script_returns : exists g st, run = Ok (g, st) /\ script_ok g.
Proof using HL. apply (wp_returns _ _ _ script_wp). Qed.

End Sections.
End CohortFacts.

(** ** The concrete random stream meets the contracts *)

Module LcgFacts.
Import Lcg.

Local Open Scope Q_scope.

Lemma length_lcg_take (n : nat) (s : Z) : length (lcg_take n s).1 = n.
Proof.
  revert s. induction n as [| n IH]; intros s; [reflexivity |].
  simpl. specialize (IH (lcg_next s)). destruct (lcg_take n (lcg_next s)). simpl in *. now f_equal.
Qed.

Lemma length_lcg_map {A} (f : Z -> A) (n : nat) (s : Z) : length (lcg_map f n s).1 = n.
Proof.
  unfold lcg_map. pose proof (length_lcg_take n s) as H.
  destruct (lcg_take n s). simpl in *. now rewrite length_map.
Qed.

Lemma Forall_lcg_map {A} (P : A -> Prop) (f : Z -> A) (n : nat) (s : Z) :
  (forall v, P (f v)) -> Forall P (lcg_map f n s).1.
Proof.
  intros H. unfold lcg_map. destruct (lcg_take n s) as [l s']. simpl.
  apply Forall_map, Forall_forall. intros v _. apply H.
Qed.

Section Rotation.
Variables a k : nat.
Hypothesis k_le : (k <= a)%nat.

Lemma rotation_length : length (seq k (a - k) ++ seq 0 k) = a.
Proof using k_le. rewrite length_app, !length_seq. lia. Qed.

Lemma rotation_NoDup : NoDup (seq k (a - k) ++ seq 0 k).
Proof.
  apply NoDup_app. split_and!; [apply NoDup_seq | | apply NoDup_seq].
  intros x. rewrite !elem_of_seq. lia.
Qed.

Lemma rotation_range : Forall (fun i => (i < a)%nat) (seq k (a - k) ++ seq 0 k).
Proof using k_le.
  apply Forall_app. split; apply Forall_seq; intros; lia.
Qed.

End Rotation.

Lemma lcg_offset_le (a : nat) (s : Z) :
  ((if (a =? 0)%nat then O else Z.to_nat (s mod Z.of_nat a)) <= a)%nat.
Proof.
  destruct (Nat.eqb_spec a 0) as [-> | Hne]; [lia |].
  pose proof (Z.mod_pos_bound s (Z.of_nat a)). lia.
Qed.

Lemma lcg_indices_ok (a size : nat) (s : Z) :
  (size <= a)%nat ->
  length (lcg_indices a size s).1 = size /\ NoDup (lcg_indices a size s).1 /\
  Forall (fun i => (i < a)%nat) (lcg_indices a size s).1.
Proof.
  intros Hsize. unfold lcg_indices. cbn [fst].
  pose proof (lcg_offset_le a (lcg_next s)) as Hk.
  set (k := if (a =? 0)%nat then O else Z.to_nat (lcg_next s mod Z.of_nat a)) in *.
  split_and!.
  - apply length_take_le. now rewrite rotation_length.
  - apply (sublist_NoDup (take size (seq k (a - k) ++ seq 0 k)) (seq k (a - k) ++ seq 0 k)).
    + now apply rotation_NoDup.
    + apply sublist_take.
  - now apply Forall_take, rotation_range.
Qed.

#[export] Instance lcg_laws : RandomStateLaws lcg.
Proof.
  split; simpl; intros.
  - apply length_lcg_map.
  - apply length_lcg_map.
  - apply length_lcg_map.
  - apply length_lcg_map.
  - apply length_lcg_map.
  - apply length_lcg_map.
  - apply length_lcg_map.
  - apply Forall_lcg_map. intros v. unfold betweenZ.
    pose proof (Z.mod_pos_bound v (k + 1)). lia.
  - apply Forall_lcg_map. intros v. unfold betweenZ.
    pose proof (Z.mod_pos_bound v (k + 1)). lia.
  - now apply lcg_indices_ok.
  - now apply lcg_indices_ok.
  - now apply lcg_indices_ok.
Qed.

End LcgFacts.

(** * The claims *)

Import Cohort ScalarFacts ArrayFacts CohortFacts.

Local Open Scope Q_scope.
Local Open Scope string_scope.

(** ** Following the run section by section *)

Lemma wp_inv {RS : RandomState} {A} (m : M A) st a st' (Post : A -> state -> Prop) :
  wp m st Post -> m st = Ok (a, st') -> Post a st'.
Proof. unfold wp. intros H E. now rewrite E in H. Qed.

Lemma state_after_returns {RS : RandomState} {A} (m : M A) st a st' :
  m st = Ok (a, st') -> state_after m st = st'.
Proof. unfold state_after. now intros ->. Qed.

(** Split every sampler call of a section that only draws. *)
Ltac split_draws :=
  unfold bind, draw, ret; cbn [st_rng st_heap];
  repeat (match goal with
          | |- context [match ?p with pair _ _ => _ end] => destruct p
          end; cbn [st_rng st_heap]).

Section Trace.
Context {RS : RandomState} {LM : Libm}.

(** A returning run went through the nine sections in order, each from the
    state the one before left. *)
Lemma run_sections (g : Globals) (st : state) :
  run = Ok (g, st) ->
  exists s1 s2 s3 s4 s5 s6 s7 s8,
    demographics (State (seed 2025) []) = Ok (g_demographics g, s1) /\
    admission s1 = Ok (g_admission g, s2) /\
    utilization s2 = Ok (g_utilization g, s3) /\
    diagnoses s3 = Ok (g_diagnoses g, s4) /\
    labs (gender (g_demographics g)) (dx_diabetes (g_diagnoses g)) (dx_ckd (g_diagnoses g)) s4 =
      Ok (g_labs g, s5) /\
    medications (dx_diabetes (g_diagnoses g)) (dx_epilepsy (g_diagnoses g)) s5 =
      Ok (g_medications g, s6) /\
    outcome (g_demographics g) (g_admission g) (g_utilization g) (g_diagnoses g) (g_labs g)
            (g_medications g) s6 = Ok (g_outcome g, s7) /\
    missingness (dx_diabetes (g_diagnoses g)) (g_labs g) (g_medications g) s7 =
      Ok (g_missing g, s8) /\
    assemble (g_demographics g) (g_admission g) (g_utilization g) (g_diagnoses g)
             (g_medications g) (g_outcome g) (g_missing g) s8 = Ok (df g, st).
Proof.
  unfold run, script. unfold bind at 1.
  destruct (demographics _) as [[d s1] | e] eqn:E1; [| discriminate]. unfold bind at 1.
  destruct (admission s1) as [[a s2] | e] eqn:E2; [| discriminate]. unfold bind at 1.
  destruct (utilization s2) as [[u s3] | e] eqn:E3; [| discriminate]. unfold bind at 1.
  destruct (diagnoses s3) as [[dx s4] | e] eqn:E4; [| discriminate]. unfold bind at 1.
  destruct (labs _ _ _ s4) as [[l s5] | e] eqn:E5; [| discriminate]. unfold bind at 1.
  destruct (medications _ _ s5) as [[m s6] | e] eqn:E6; [| discriminate]. unfold bind at 1.
  destruct (outcome _ _ _ _ _ _ s6) as [[o s7] | e] eqn:E7; [| discriminate]. unfold bind at 1.
  destruct (missingness _ _ _ s7) as [[ms s8] | e] eqn:E8; [| discriminate]. unfold bind at 1.
  destruct (assemble _ _ _ _ _ _ _ s8) as [[t s9] | e] eqn:E9; [| discriminate].
  unfold ret. intros [= <- <-].
  cbn [g_demographics g_admission g_utilization g_diagnoses g_labs g_medications g_outcome
       g_missing df].
  now exists s1, s2, s3, s4, s5, s6, s7, s8.
Qed.

(** Sections 1 to 7 only draw: they leave the store as it is. *)
Lemma demographics_store st d st' : demographics st = Ok (d, st') -> st_heap st' = st_heap st.
Proof. unfold demographics. split_draws. now intros [= _ <-]. Qed.

Lemma admission_store st a st' : admission st = Ok (a, st') -> st_heap st' = st_heap st.
Proof. unfold admission. split_draws. now intros [= _ <-]. Qed.

Lemma utilization_store st u st' : utilization st = Ok (u, st') -> st_heap st' = st_heap st.
Proof. unfold utilization. split_draws. now intros [= _ <-]. Qed.

Lemma diagnoses_store st dx st' : diagnoses st = Ok (dx, st') -> st_heap st' = st_heap st.
Proof. unfold diagnoses. split_draws. now intros [= _ <-]. Qed.

Lemma labs_store gd dd dc st l st' :
  labs gd dd dc st = Ok (l, st') -> st_heap st' = st_heap st.
Proof. unfold labs. split_draws. now intros [= _ <-]. Qed.

Lemma medications_store dd de st m st' :
  medications dd de st = Ok (m, st') -> st_heap st' = st_heap st.
Proof. unfold medications. split_draws. now intros [= _ <-]. Qed.

Lemma outcome_store d a u dx l m st o st' :
  outcome d a u dx l m st = Ok (o, st') -> st_heap st' = st_heap st.
Proof.
  unfold outcome. cbv zeta.
  match goal with |- context [arr_add ?x _] => generalize x end. intros det.
  split_draws. now intros [= _ <-].
Qed.

(** Section 5 of a returning run starts in [labs_start], section 8 in
    [missingness_start], on an empty store. *)
Lemma run_labs (g : Globals) (st : state) :
  run = Ok (g, st) ->
  exists s5,
    labs (gender (g_demographics g)) (dx_diabetes (g_diagnoses g)) (dx_ckd (g_diagnoses g))
         labs_start = Ok (g_labs g, s5).
Proof.
  intros Hrun.
  destruct (run_sections g st Hrun) as (s1 & s2 & s3 & s4 & s5 & s6 & s7 & s8 & Hs).
  destruct Hs as (H1 & H2 & H3 & H4 & H5 & _).
  exists s5. unfold labs_start.
  now rewrite (state_after_returns _ _ _ _ H1), (state_after_returns _ _ _ _ H2),
    (state_after_returns _ _ _ _ H3), (state_after_returns _ _ _ _ H4).
Qed.

Lemma run_missingness (g : Globals) (st : state) :
  run = Ok (g, st) ->
  st_heap (missingness_start g) = [] /\
  exists s8,
    missingness (dx_diabetes (g_diagnoses g)) (g_labs g) (g_medications g)
                (missingness_start g) = Ok (g_missing g, s8) /\
    assemble (g_demographics g) (g_admission g) (g_utilization g) (g_diagnoses g)
             (g_medications g) (g_outcome g) (g_missing g) s8 = Ok (df g, st).
Proof.
  intros Hrun.
  destruct (run_sections g st Hrun) as (s1 & s2 & s3 & s4 & s5 & s6 & s7 & s8 & Hs).
  destruct Hs as (H1 & H2 & H3 & H4 & H5 & H6 & H7 & H8 & H9).
  assert (E : missingness_start g = s7).
  { unfold missingness_start, labs_start. cbv zeta.
    now rewrite (state_after_returns _ _ _ _ H1), (state_after_returns _ _ _ _ H2),
      (state_after_returns _ _ _ _ H3), (state_after_returns _ _ _ _ H4),
      (state_after_returns _ _ _ _ H5), (state_after_returns _ _ _ _ H6),
      (state_after_returns _ _ _ _ H7). }
  rewrite E. split; [| now exists s8].
  rewrite (outcome_store _ _ _ _ _ _ _ _ _ H7), (medications_store _ _ _ _ _ H6),
    (labs_store _ _ _ _ _ _ H5), (diagnoses_store _ _ _ H4), (utilization_store _ _ _ H3),
    (admission_store _ _ _ H2), (demographics_store _ _ _ H1).
  reflexivity.
Qed.

(** The base arrays of section 5 are the draws of the stream. *)
Lemma labs_bases gd dd dc st l st' :
  labs gd dd dc st = Ok (l, st') -> lab_bases (st_rng st) gd l.
Proof.
  unfold labs, lab_bases, creatinine_draw, hemoglobin_draws, glucose_draw, bind, draw, ret.
  cbn [st_rng st_heap].
  destruct (lognormal 0.1 0.35 N (st_rng st)) as [cb r1]. cbn [fst snd st_rng st_heap].
  destruct (normal 12.2 1.8 N r1) as [hf r2]. cbn [fst snd st_rng st_heap].
  destruct (normal 13.8 2.0 N r2) as [hm r3]. cbn [fst snd st_rng st_heap].
  destruct (lognormal 2.1 0.35 N r3) as [w r4]. cbn [fst snd st_rng st_heap].
  destruct (lognormal 4.8 0.25 N r4) as [gb r5]. cbn [fst snd st_rng st_heap].
  destruct (normal 139 3.5 N r5) as [so r6]. cbn [fst snd st_rng st_heap].
  destruct (normal 4.1 0.5 N r6) as [po r7]. cbn [fst snd st_rng st_heap].
  destruct (normal 12 3 N r7) as [bu r8]. cbn [fst snd st_rng st_heap].
  destruct (normal 220 75 N r8) as [pl r9]. cbn [fst snd st_rng st_heap].
  intros [= <- _]. fields. now split_and!.
Qed.

End Trace.

Section TraceMissing.
Context {RS : RandomState} {HL : RandomStateLaws RS} {LM : Libm}.

(** [add_missing] on the rows the stream serves. *)
Lemma add_missing_wp_rows st arr a k pct name n (Post : loc -> state -> Prop) :
  st_heap st !! arr = Some a -> len a = k ->
  py_int (n_miss_float k pct) = Some (Z.of_nat n) -> (n <= k)%nat ->
  (forall idx r, choice_without_replacement k n (st_rng st) = (idx, r) ->
     length idx = n -> NoDup idx -> Forall (fun i => (i < k)%nat) idx ->
     Post (S (length (st_heap st))) (State r (st_heap st ++ add_missing_allocs a idx))) ->
  wp (add_missing arr pct name) st Post.
Proof using HL.
  intros Ha Hk Hn Hle HPost. unfold wp. rewrite add_missing_unfold, Ha, Hk, Hn.
  destruct (Z.ltb_spec (Z.of_nat n) 0) as [? | _]; [lia |].
  destruct (Z.ltb_spec (Z.of_nat k) (Z.of_nat n)) as [? | _]; [lia |].
  rewrite Nat2Z.id.
  pose proof (choice_without_replacement_length k n (st_rng st) Hle) as Hlen.
  pose proof (choice_without_replacement_distinct k n (st_rng st) Hle) as Hnd.
  pose proof (choice_without_replacement_range k n (st_rng st) Hle) as Hrange.
  destruct (choice_without_replacement k n (st_rng st)) as [idx r] eqn:E.
  simpl in Hlen, Hnd, Hrange.
  replace (forallb (fun i => i <? k)%nat idx) with true; [now apply HPost |].
  symmetry. apply forallb_forall. intros i Hi.
  apply Nat.ltb_lt. rewrite Forall_forall in Hrange. apply Hrange. now apply list_elem_of_In.
Qed.

(** One [add_missing] call of section 8, the postcondition following the
    stream. *)
Ltac wp_add_missing_rows n :=
  apply wp_bind, wp_ref; cbn [st_heap st_rng app length];
  apply wp_bind;
  eapply (add_missing_wp_rows _ _ _ N _ _ n);
  [ reflexivity
  | unfold float_array; cbn [len as_float]; rewrite length_map; assumption
  | vm_compute; reflexivity
  | unfold N; lia
  | ];
  let E := fresh "E" in
  intros ? ? E ? ? ?; cbn [st_heap st_rng app length add_missing_allocs];
  cbn [st_rng] in E; rewrite ?E; cbn [fst snd nth]; clear E.

(** The arrays and the MAR mask that section 8 leaves, in terms of the
    stream at its start. *)
Lemma missingness_rows dx_diabetes l m st ms st' :
  st_heap st = [] -> length dx_diabetes = N -> labs_lengths l -> medications_ok m ->
  missingness dx_diabetes l m st = Ok (ms, st') ->
  section8_leaves dx_diabetes l m (st_rng st) ms (st_heap st').
Proof using HL.
  intros Hh Hd (_ & _ & _ & Hcr & Hhg & Hwb & Hgl & Hso & Hpo & Hbu & Hpl) (Hnm & _) Hrun.
  pattern ms, st'. refine (wp_inv _ _ _ _ _ _ Hrun). clear Hrun.
  destruct st as [r0 h0]. simpl in Hh. subst h0. cbn [st_rng].
  unfold missingness, section8_leaves, call_rows, mar_uniform, glucose_rows, rows_of_call.
  cbn [base_rows base_counts].
  wp_add_missing_rows 108%nat. wp_add_missing_rows 172%nat. wp_add_missing_rows 139%nat.
  wp_add_missing_rows 300%nat. wp_add_missing_rows 96%nat. wp_add_missing_rows 146%nat.
  wp_add_missing_rows 199%nat. wp_add_missing_rows 84%nat. wp_add_missing_rows 60%nat.
  apply wp_bind, wp_draw. cbn [st_heap st_rng].
  match goal with |- context [random N ?r] => pose proof (random_length N r) as Hu end.
  apply wp_bind. unfold setitem_nan_mask. apply wp_bind.
  eapply wp_load; [reflexivity |].
  rewrite (length_and_mask N), length_set_nan_at
    by (try rewrite length_eq0; try rewrite length_below; assumption).
  repeat (rewrite length_as_float; cbn [len]). rewrite Hgl, Nat.eqb_refl.
  eapply wp_store; [reflexivity |].
  apply wp_ret. cbn [st_heap]. fields. unfold float_array, int_cells. cbn [as_float].
  split_and!; try assumption; reflexivity.
Qed.

(** The nine columns with missing cells are the arrays that section 8
    left. *)
Lemma assemble_columns d a u dx m o ms st t st' :
  assemble d a u dx m o ms st = Ok (t, st') ->
  exists x1 x2 x3 x4 x5 x6 x7 x8 x9,
    st_heap st !! creatinine_m ms = Some x1 /\ st_heap st !! hemoglobin_m ms = Some x2 /\
    st_heap st !! wbc_m ms = Some x3 /\ st_heap st !! glucose_m ms = Some x4 /\
    st_heap st !! sodium_m ms = Some x5 /\ st_heap st !! potassium_m ms = Some x6 /\
    st_heap st !! bun_m ms = Some x7 /\ st_heap st !! platelet_m ms = Some x8 /\
    st_heap st !! num_meds_m ms = Some x9 /\
    t = columns d a u dx m o (FloatCol (as_float x1)) (FloatCol (as_float x2))
                (FloatCol (as_float x3)) (FloatCol (as_float x4)) (FloatCol (as_float x5))
                (FloatCol (as_float x6)) (FloatCol (as_float x7)) (FloatCol (as_float x8))
                (FloatCol (as_float x9)).
Proof.
  unfold assemble, float_col_of, bind, load, ret.
  destruct (st_heap st !! creatinine_m ms) as [x1 |]; [| discriminate]. cbv beta iota.
  destruct (st_heap st !! hemoglobin_m ms) as [x2 |]; [| discriminate]. cbv beta iota.
  destruct (st_heap st !! wbc_m ms) as [x3 |]; [| discriminate]. cbv beta iota.
  destruct (st_heap st !! glucose_m ms) as [x4 |]; [| discriminate]. cbv beta iota.
  destruct (st_heap st !! sodium_m ms) as [x5 |]; [| discriminate]. cbv beta iota.
  destruct (st_heap st !! potassium_m ms) as [x6 |]; [| discriminate]. cbv beta iota.
  destruct (st_heap st !! bun_m ms) as [x7 |]; [| discriminate]. cbv beta iota.
  destruct (st_heap st !! platelet_m ms) as [x8 |]; [| discriminate]. cbv beta iota.
  destruct (st_heap st !! num_meds_m ms) as [x9 |]; [| discriminate]. cbv beta iota.
  unfold pd_DataFrame, columns, raise.
  match goal with |- context [forallb ?f ?l] => destruct (forallb f l) end;
    [| discriminate].
  intros [= <- _]. exists x1, x2, x3, x4, x5, x6, x7, x8, x9. now split_and!.
Qed.

End TraceMissing.

(** ** From the postcondition of the script to the claimed properties *)

(** Blanking keeps a property that NaN has. *)
Lemma Forall_set_nan_at (P : float64 -> Prop) (idx : list nat) (l : list float64) :
  P NaN -> Forall P l -> Forall P (set_nan_at idx l).
Proof.
  intros HN Hl. induction idx as [| i idx IH]; [exact Hl |].
  simpl. now apply Forall_insert.
Qed.

Lemma Forall_set_nan_where (P : float64 -> Prop) (mask : list bool) (l : list float64) :
  P NaN -> Forall P l -> Forall P (set_nan_where mask l).
Proof.
  intros HN Hl. revert mask. induction Hl as [| x l Hx Hl IH]; intros [| m mask]; simpl;
    try constructor; [now destruct m | apply IH].
Qed.

Lemma Forall_blanked (P : float64 -> Prop) n src res :
  P NaN -> Forall P src -> blanked n src res -> Forall P res.
Proof. intros HN Hsrc (idx & _ & _ & _ & ->). now apply Forall_set_nan_at. Qed.

Lemma cells_of_floats lo hi (x : list Q) :
  Forall (betweenQ lo hi) x -> Forall (cell_between lo hi) (map Finite x).
Proof. intros H. apply Forall_map. exact H. Qed.

Lemma cells_of_ints (lo hi : Z) (x : list Z) :
  Forall (betweenZ lo hi) x -> Forall (cell_between (inject_Z lo) (inject_Z hi)) (int_cells x).
Proof.
  intros H. unfold int_cells. cbn [as_float]. apply Forall_map.
  eapply Forall_impl; [exact H |]. intros v [H1 H2]. simpl. split; now rewrite <- Zle_Qle.
Qed.

Lemma ints_between (lo hi : Z) (x : list Z) :
  Forall (betweenZ lo hi) x ->
  Forall (fun v => betweenQ (inject_Z lo) (inject_Z hi) (inject_Z v)) x.
Proof.
  intros H. eapply Forall_impl; [exact H |]. intros v [H1 H2]. split; now rewrite <- Zle_Qle.
Qed.

Lemma script_ok_fields_in_range (g : Globals) : script_ok g -> clipped_fields_in_range g.
Proof.
  intros (Hd & Ha & Hu & Hdx & (_ & Hr & _) & Hm & _ & _ & _ & mc & Hmc & Hdf).
  destruct Hd as (_ & _ & Hage & _). destruct Ha as (_ & _ & Hlos & _).
  destruct Hdx as (_ & Hnd & _). destruct Hm as (_ & Hnm & _).
  destruct Hr as (Hcr & Hhg & Hwb & Hgl & Hso & Hpo & Hbu & Hpl).
  destruct Hmc as (B1 & B2 & B3 & B4 & B5 & B6 & B7 & B8 & B9).
  split; [unfold arrays_in_range; now split_and! |].
  unfold table_in_range, field_between. rewrite Hdf.
  split_and!; (eexists; split; [reflexivity |]); cbn [col_between float_col].
  - now apply (ints_between 18 99).
  - now apply cells_of_floats.
  - now apply (ints_between 1 20).
  - eapply Forall_blanked; [exact I | | exact B1]. now apply cells_of_floats.
  - eapply Forall_blanked; [exact I | | exact B2]. now apply cells_of_floats.
  - eapply Forall_blanked; [exact I | | exact B3]. now apply cells_of_floats.
  - apply Forall_set_nan_where; [exact I |].
    eapply Forall_blanked; [exact I | | exact B4]. now apply (cells_of_ints 50 500).
  - eapply Forall_blanked; [exact I | | exact B5]. now apply (cells_of_ints 118 158).
  - eapply Forall_blanked; [exact I | | exact B6]. now apply cells_of_floats.
  - eapply Forall_blanked; [exact I | | exact B7]. now apply (cells_of_ints 5 80).
  - eapply Forall_blanked; [exact I | | exact B8]. now apply (cells_of_ints 30 600).
  - eapply Forall_blanked; [exact I | | exact B9]. now apply (cells_of_ints 1 25).
Qed.

Lemma script_ok_icu_consistent (g : Globals) : script_ok g -> icu_consistent g.
Proof.
  intros (_ & _ & (_ & [Hlen Hflag] & Hlen' & Hrows) & _ & _ & _ & _ & _ & _ & mc & _ & Hdf).
  unfold icu_consistent. rewrite Hdf. split_and!; try assumption; try reflexivity.
  intros i flag v Hf Hv. destruct (Hrows i flag v Hf Hv) as [H0 H1].
  assert (Hb : flag = 0%Z \/ flag = 1%Z).
  { pose proof (Forall_lookup_1 _ _ _ _ Hflag Hf) as Hb. unfold betweenZ in Hb. lia. }
  split_and!; auto.
  split.
  - intros Hpos. destruct Hb as [-> | ->]; [| reflexivity].
    rewrite (H0 eq_refl) in Hpos. discriminate.
  - intros ->. destruct (H1 eq_refl) as [Hlo _]. lra.
Qed.

Lemma arange_consecutive (start : Z) : consecutive_from start (arange start N).
Proof. split; [apply length_arange | intros i Hi; now apply lookup_arange]. Qed.

Lemma arange_lookup_inv (start : Z) (n i : nat) (a : Z) :
  arange start n !! i = Some a -> a = (start + Z.of_nat i)%Z.
Proof.
  intros H. pose proof (lookup_lt_Some _ _ _ H) as Hi. rewrite length_arange in Hi.
  rewrite lookup_arange in H by exact Hi. congruence.
Qed.

Lemma arange_increasing (start : Z) (n : nat) : strictly_increasing (arange start n).
Proof.
  intros i j a b Hij Ha Hb.
  apply arange_lookup_inv in Ha, Hb. lia.
Qed.

Lemma strictly_increasing_NoDup (x : list Z) : strictly_increasing x -> NoDup x.
Proof.
  intros Hinc. apply NoDup_alt. intros i j a Hi Hj.
  destruct (Nat.lt_trichotomy i j) as [Hlt | [-> | Hgt]]; [| reflexivity |].
  - pose proof (Hinc i j a a Hlt Hi Hj). lia.
  - pose proof (Hinc j i a a Hgt Hj Hi). lia.
Qed.

Lemma script_ok_table_shape (g : Globals) : script_ok g -> table_shape g.
Proof.
  intros ((Hsid & _) & (Hhid & _) & _ & _ & _ & _ & _ & _ & Hcols & mc & _ & Hdf).
  unfold table_shape.
  split_and!; try exact Hcols; try (rewrite Hdf; reflexivity);
    rewrite ?Hsid, ?Hhid;
    auto using arange_consecutive, arange_increasing, strictly_increasing_NoDup.
Qed.

Lemma np_where_adjusted (flags : list Z) (base : list Q) (f : Q -> Q) :
  length flags = N -> length base = N -> Forall (betweenZ 0 1) flags ->
  adjusted_by flags base (np_where (eq1 flags) (map f base) base) f.
Proof.
  intros Hf Hb Hflags. split_and!; [exact Hf | exact Hb | solve_length | exact Hflags |].
  intros i flag b Hflag Hbase.
  rewrite (lookup_np_where _ _ _ i (flag =? 1)%Z (f b) b).
  - split; now intros ->.
  - now apply lookup_eq1.
  - now rewrite list_lookup_fmap, Hbase.
  - exact Hbase.
Qed.

Lemma final_of_adjusted {A} (flags : list Z) (base adj : list Q) (final : list A)
    (f : Q -> Q) (finish : Q -> A) :
  adjusted_by flags base adj f -> final = map finish adj -> final_by flags base final f finish.
Proof.
  intros (Hf & Hb & Ha & _ & Hrows) ->. split; [now rewrite length_map |].
  intros i flag b Hflag Hbase. rewrite list_lookup_fmap.
  destruct (Hrows i flag b Hflag Hbase) as [H1 H0].
  split; intros E; [rewrite (H1 E) | rewrite (H0 E)]; reflexivity.
Qed.

Lemma script_ok_adjustments (g : Globals) : script_ok g -> adjusted_labs g.
Proof.
  intros (_ & _ & _ & Hdx & (Hlen & _ & Hadj) & _).
  destruct Hdx as (_ & _ & _ & _ & _ & _ & _ & _ & [Hdm Fdm] & _ & _ & [Hck Fck]).
  destruct Hlen as (Hcb & Hhb & Hgb & _). destruct Hadj as (Ecr & Ehg & Egl).
  unfold adjusted_labs. cbv zeta.
  split_and!; try assumption; now apply np_where_adjusted.
Qed.

(** ** Claims about the run *)

Section Run.
Context {RS : RandomState} {HL : RandomStateLaws RS} {LM : Libm}.

Lemma run_satisfies (P : Globals -> Prop) :
  (forall g, script_ok g -> P g) -> exists g st, run = Ok (g, st) /\ P g.
Proof using HL.
  intros H. destruct script_returns as (g & st & Hrun & Hok).
  exists g, st. split; [exact Hrun | now apply H].
Qed.

(** C1. The script runs to completion and, in every row, age_at_admit is in
    [18, 99], los_days in [1.0, 60.0], num_diagnoses in [1, 20], creatinine
    in [0.3, 8.0], hemoglobin in [5.0, 19.0], wbc in [1.5, 35.0], glucose in
    [50, 500], sodium in [118, 158], potassium in [2.5, 6.5], bun in
    [5, 80], platelet in [30, 600] and num_medications in [1, 25]: this
    holds of every entry of the arrays as computed (after rounding), and of
    every cell of the table columns that is not missing. *)
Theorem C1_clipped_fields_in_range :
  exists g st, run = Ok (g, st) /\ clipped_fields_in_range g.
Proof using HL. apply run_satisfies, script_ok_fields_in_range. Qed.

(** C5. In the run the base arrays of section 5 are the draws of the
    stream (creatinine and glucose their log-normal draws, hemoglobin the
    female or male normal draw by gender); the pre-clip creatinine of a row
    is the base draw times 1.8 and the pre-clip hemoglobin the base draw
    minus 1.5 when dx_ckd is 1, the pre-clip glucose is the base draw times
    1.3 when dx_diabetes is 1, each is the unmodified base draw when the
    flag is 0 (the flags are 0 or 1); and the final columns are the
    clipped, then rounded, adjusted values, row by row. *)
Theorem C5_adjustments_follow_flags :
  exists g st, run = Ok (g, st) /\ adjustments_by_flag g.
Proof using HL.
  destruct script_returns as (g & st & Hrun & Hok). exists g, st. split; [exact Hrun |].
  destruct (run_labs g st Hrun) as (s5 & Hl). apply labs_bases in Hl.
  pose proof (script_ok_adjustments g Hok) as Hadj.
  unfold adjustments_by_flag. cbv zeta. split; [exact Hl |]. split; [exact Hadj |].
  destruct Hl as (Ecb & _ & Egb). rewrite <- Ecb, <- Egb.
  destruct Hadj as (A1 & A2 & A3 & F1 & F2 & F3).
  split_and!.
  - apply (final_of_adjusted _ _ _ _ _ _ A1). rewrite F1. apply map_map.
  - apply (final_of_adjusted _ _ _ _ _ _ A2). rewrite F2. apply map_map.
  - apply (final_of_adjusted _ _ _ _ _ _ A3). rewrite F3. now rewrite !map_map.
Qed.

(** C6. The table has 37 columns in the documented order, each of N = 2400
    rows; subject_id and hadm_id are the consecutive integers from 100001
    and 200001, strictly increasing and without repeats. *)
Theorem C6_table_shape :
  exists g st, run = Ok (g, st) /\ table_shape g.
Proof using HL. apply run_satisfies, script_ok_table_shape. Qed.

(** C9. In every row icu_los_days is 0.0 when had_icu_stay is 0 and lies in
    [0.5, 30.0] when had_icu_stay is 1; the flag is 0 or 1, so icu_los_days
    is positive exactly on the flagged rows. *)
Theorem C9_icu_los_matches_flag :
  exists g st, run = Ok (g, st) /\ icu_consistent g.
Proof using HL. apply run_satisfies, script_ok_icu_consistent. Qed.

End Run.

Lemma C1_witness :
  exists g st, @run Lcg.lcg Lcg.libm = Ok (g, st) /\ clipped_fields_in_range g.
Proof. exact (C1_clipped_fields_in_range (HL := LcgFacts.lcg_laws)). Defined.

Lemma C5_witness :
  exists g st, @run Lcg.lcg Lcg.libm = Ok (g, st) /\ adjustments_by_flag (RS := Lcg.lcg) g.
Proof. exact (C5_adjustments_follow_flags (HL := LcgFacts.lcg_laws)). Defined.

Lemma C6_witness :
  exists g st, @run Lcg.lcg Lcg.libm = Ok (g, st) /\ table_shape g.
Proof. exact (C6_table_shape (HL := LcgFacts.lcg_laws)). Defined.

Lemma C9_witness :
  exists g st, @run Lcg.lcg Lcg.libm = Ok (g, st) /\ icu_consistent g.
Proof. exact (C9_icu_los_matches_flag (HL := LcgFacts.lcg_laws)). Defined.

(** ** The hemoglobin shift (C7) *)

Lemma clipQ_id (lo hi x : Q) : lo <= x -> x <= hi -> clipQ lo hi x == x.
Proof. intros H1 H2. unfold clipQ. rewrite Q.max_l by exact H1. now apply Q.min_l. Qed.

Lemma clipQ_top (lo hi x : Q) : hi <= x -> clipQ lo hi x == hi.
Proof.
  intros H. unfold clipQ. apply Q.min_r.
  apply Qle_trans with x; [exact H | apply Q.le_max_l].
Qed.

Lemma np_round_1_unfold (x : Q) : np_round 1 x = inject_Z (rint (x * 10)) / 10.
Proof. reflexivity. Qed.

(** A value below [k - 1/2] rounds below [k]. *)
Lemma rint_lt (k : Z) (x : Q) : x < inject_Z k - (1 # 2) -> (rint x < k)%Z.
Proof.
  intros H. pose proof (rint_upper x) as Hu.
  rewrite Zlt_Qlt. lra.
Qed.

Lemma lookup_clip_round lo hi d (x : list Q) (i : nat) (v : Q) :
  clip_round lo hi d x !! i = Some v ->
  exists y, x !! i = Some y /\ v = np_round d (clipQ lo hi y).
Proof.
  unfold clip_round. rewrite !list_lookup_fmap.
  destruct (x !! i) as [y |]; simpl; [| discriminate].
  intros [= <-]. now exists y.
Qed.

Lemma lookup_hemoglobin_adj (flags : list Z) (base : list Q) (i : nat) (flag : Z) (h y : Q) :
  flags !! i = Some flag -> base !! i = Some h -> hemoglobin_adj flags base !! i = Some y ->
  y = if (flag =? 1)%Z then h - 1.5 else h.
Proof.
  intros Hflag Hbase Hy. unfold hemoglobin_adj in Hy.
  rewrite (lookup_np_where _ _ _ i (flag =? 1)%Z (h - 1.5) h) in Hy.
  - congruence.
  - now apply lookup_eq1.
  - now rewrite list_lookup_fmap, Hbase.
  - exact Hbase.
Qed.

(** The final value of a shifted draw against that of the same draw
    unshifted. *)
Lemma shifted_le (h : Q) :
  np_round 1 (clipQ 5.0 19.0 (h - 1.5)) <= np_round 1 (clipQ 5.0 19.0 h).
Proof. apply np_round_mono, clipQ_mono. lra. Qed.

Lemma shifted_lt (h : Q) :
  5.0 <= h - 1.5 -> h - 1.5 < 18.95 ->
  np_round 1 (clipQ 5.0 19.0 (h - 1.5)) < np_round 1 (clipQ 5.0 19.0 h).
Proof.
  intros Hlo Hhi. rewrite !np_round_1_unfold.
  assert (E1 : clipQ 5.0 19.0 (h - 1.5) * 10 == (h - 1.5) * 10)
    by (rewrite clipQ_id by lra; reflexivity).
  rewrite (rint_comp _ _ E1).
  pose proof (rint_upper ((h - 1.5) * 10)) as Hu.
  destruct (Qlt_le_dec 19.0 h) as [Hbig | Hsmall].
  - assert (E0 : clipQ 5.0 19.0 h * 10 == inject_Z 190)
      by (rewrite clipQ_top by lra; reflexivity).
    rewrite (rint_comp _ _ E0), rint_inject_Z.
    assert (Hlt : (rint ((h - 1.5) * 10) < 190)%Z) by (apply rint_lt; change (inject_Z 190) with 190; lra).
    rewrite Zlt_Qlt in Hlt. apply Qmult_lt_compat_r; [reflexivity | exact Hlt].
  - assert (E0 : clipQ 5.0 19.0 h * 10 == h * 10)
      by (rewrite clipQ_id by lra; reflexivity).
    rewrite (rint_comp _ _ E0).
    pose proof (rint_lower (h * 10)) as Hl.
    apply Qmult_lt_compat_r; [reflexivity | lra].
Qed.

(** C7, as amended.  For one base draw [h] at a row, the final hemoglobin
    with the kidney-disease flag set is at most the final hemoglobin the
    same draw gives with the flag unset, and strictly lower whenever the
    shifted value [h - 1.5] is at least 5.0 (not clipped at the lower
    bound) and at most 18.94 (neither clipped at the upper bound 19.0 nor
    rounded up to it, with exact scaling as with the binary64 product). *)
Theorem C7_ckd_shift_never_raises
    (base : list Q) (ckd nockd : list Z) (i : nat) (h v1 v0 : Q) :
  base !! i = Some h -> ckd !! i = Some 1%Z -> nockd !! i = Some 0%Z ->
  clip_round 5.0 19.0 1 (hemoglobin_adj ckd base) !! i = Some v1 ->
  clip_round 5.0 19.0 1 (hemoglobin_adj nockd base) !! i = Some v0 ->
  v1 <= v0 /\ (5.0 <= h - 1.5 -> h - 1.5 <= 18.94 -> v1 < v0).
Proof.
  intros Hbase Hckd Hnockd H1 H0.
  apply lookup_clip_round in H1 as (y1 & Hy1 & ->).
  apply lookup_clip_round in H0 as (y0 & Hy0 & ->).
  rewrite (lookup_hemoglobin_adj _ _ _ _ _ _ Hckd Hbase Hy1).
  rewrite (lookup_hemoglobin_adj _ _ _ _ _ _ Hnockd Hbase Hy0).
  cbn [Z.eqb Pos.eqb]. split; [apply shifted_le |].
  intros Hlo Hhi. apply shifted_lt; [exact Hlo | lra].
Qed.

Lemma C7_witness :
  (123 # 10) <= (138 # 10) /\
  (5.0 <= 13.8 - 1.5 -> 13.8 - 1.5 <= 18.94 -> (123 # 10) < (138 # 10)).
Proof.
  apply (C7_ckd_shift_never_raises [13.8] [1%Z] [0%Z] 0 13.8); reflexivity.
Defined.

(** C7 as stated fails: the draw 21 gives a shifted value 19.5, which is not
    clipped at the lower bound, yet both final values are 19.0. *)
Lemma C7_counterexample :
  clip_round 5.0 19.0 1 (hemoglobin_adj [1%Z] [21]) = [19.0] /\
  clip_round 5.0 19.0 1 (hemoglobin_adj [0%Z] [21]) = [19.0] /\
  5.0 <= 21 - 1.5 /\ ~ (19.0 < 19.0).
Proof. split_and!; [reflexivity | reflexivity | discriminate | apply Qlt_irrefl]. Qed.

(** The same happens below 20.5 once the shifted value rounds up to 19.0;
    in binary64 already at the double 20.45, whose shifted value times 10
    is rounded to 189.5 and from there to 190. *)
Example C7_rounded_up_to_bound :
  clip_round 5.0 19.0 1 (hemoglobin_adj [1%Z] [20.46]) = [19.0] /\
  clip_round 5.0 19.0 1 (hemoglobin_adj [0%Z] [20.46]) = [19.0] /\
  20.46 - 1.5 < 19.0.
Proof. split_and!; reflexivity. Qed.

Example C7_binary64_product :
  PrimFloat.mul (PrimFloat.sub 20.45%float 1.5%float) 10%float = 189.5%float.
Proof. reflexivity. Qed.

(** ** [add_missing] leaves its argument alone (C10) *)

(** C10. When [add_missing] returns, its result is a new array of the
    length of the input, equal to the input cast to float at every index
    that [np.random.choice] did not return in this call and NaN at the
    indices it returned, all of them rows of the array; the input array,
    and every other array of the store, is unchanged. *)
Theorem C10_add_missing_frame {RS : RandomState}
    (st : state) (arr : loc) (pct : float) (name : string) (result : loc) (st' : state) :
  add_missing arr pct name st = Ok (result, st') ->
  exists a res,
    add_missing_frame st arr result st' a (chosen_rows st a pct) res /\
    Forall (fun i => (i < len a)%nat) (chosen_rows st a pct).
Proof.
  rewrite add_missing_unfold. unfold chosen_rows.
  destruct (st_heap st !! arr) as [a |] eqn:Ha; [| discriminate].
  destruct (py_int (n_miss_float (len a) pct)) as [n_miss |] eqn:Hn; [| discriminate].
  destruct (n_miss <? 0)%Z; [discriminate |].
  destruct (Z.of_nat (len a) <? n_miss)%Z; [discriminate |].
  destruct (choice_without_replacement _ _ _) as [idx r] eqn:Ec.
  destruct (forallb _ idx) eqn:Hidx; [| discriminate].
  intros [= <- <-]. exists a, (set_nan_at idx (as_float a)).
  rewrite Hn, Ec. cbn [fst].
  assert (Hrange : Forall (fun i => (i < len a)%nat) idx).
  { apply Forall_forall. intros i Hi. apply Nat.ltb_lt.
    rewrite forallb_forall in Hidx. apply Hidx. now apply list_elem_of_In. }
  split; [| exact Hrange].
  pose proof (lookup_lt_Some _ _ _ Ha) as Harr.
  unfold add_missing_frame, add_missing_allocs. cbn [st_heap].
  split_and!.
  - exact Ha.
  - rewrite lookup_app_l by exact Harr. exact Ha.
  - intros l b Hl. rewrite lookup_app_l by exact (lookup_lt_Some _ _ _ Hl). exact Hl.
  - apply lookup_ge_None_2. lia.
  - lia.
  - rewrite lookup_app_r by lia.
    replace (S (length (st_heap st)) - length (st_heap st))%nat with 1%nat by lia.
    reflexivity.
  - now rewrite length_set_nan_at, length_as_float.
  - intros i Hi. now apply lookup_set_nan_at_notin.
  - intros i Hi. apply lookup_set_nan_at_in; [exact Hi |].
    rewrite length_as_float. rewrite Forall_forall in Hrange. now apply Hrange.
Qed.

Lemma C10_witness :
  exists a res,
    add_missing_frame frame_before 0%nat 2%nat frame_after a
                      (chosen_rows frame_before a 12.5%float) res /\
    Forall (fun i => (i < len a)%nat) (chosen_rows frame_before a 12.5%float).
Proof.
  apply (C10_add_missing_frame frame_before 0%nat 12.5%float "glucose" 2%nat frame_after).
  reflexivity.
Defined.

Example frame_after_blanked :
  chosen_rows frame_before (IntArr (arange 50 40)) 12.5%float = [30; 31; 32; 33; 34]%nat /\
  st_heap frame_after !! 2%nat =
  Some (FloatArr (set_nan_at [30; 31; 32; 33; 34]%nat (as_float (IntArr (arange 50 40))))) /\
  st_heap frame_after !! 0%nat = Some (IntArr (arange 50 40)).
Proof. split_and!; reflexivity. Qed.

(** ** Missing cells (C2, C3, C4) *)

Lemma no_nan_finite (x : list Q) : no_nan (map Finite x).
Proof. apply Forall_map, Forall_forall. reflexivity. Qed.

Lemma no_nan_int_cells (x : list Z) : no_nan (int_cells x).
Proof. unfold int_cells. cbn [as_float]. apply Forall_map, Forall_forall. reflexivity. Qed.

Lemma no_nan_lookup (l : list float64) (i : nat) : no_nan l -> l !! i <> Some NaN.
Proof. intros Hl Hi. pose proof (Forall_lookup_1 _ _ _ _ Hl Hi). discriminate. Qed.

(** Which cells of a blanked array are missing. *)
Lemma lookup_set_nan_at_nan (idx : list nat) (l : list float64) (i : nat) :
  no_nan l -> Forall (fun j => (j < length l)%nat) idx ->
  set_nan_at idx l !! i = Some NaN <-> i ∈ idx.
Proof.
  intros Hl Hidx. split.
  - intros Hi. destruct (decide (i ∈ idx)) as [Hin | Hout]; [exact Hin |].
    rewrite lookup_set_nan_at_notin in Hi by exact Hout. now apply no_nan_lookup in Hi.
  - intros Hin. apply lookup_set_nan_at_in; [exact Hin |].
    rewrite Forall_forall in Hidx. now apply Hidx.
Qed.

Lemma count_nan_set_nan_at (idx : list nat) (l : list float64) :
  no_nan l -> NoDup idx -> Forall (fun j => (j < length l)%nat) idx ->
  count_nan (set_nan_at idx l) = length idx.
Proof.
  intros Hl Hnd Hidx.
  rewrite (count_nan_filter (fun i => i ∈ idx)).
  - rewrite length_set_nan_at. now apply length_filter_elem_of.
  - intros i _. now apply lookup_set_nan_at_nan.
Qed.

Lemma count_nan_blanked (n : nat) (src res : list float64) :
  no_nan src -> blanked n src res -> count_nan res = n.
Proof. intros Hsrc (idx & <- & Hnd & Hidx & ->). now apply count_nan_set_nan_at. Qed.

Example hemoglobin_count : Qfloor (inject_Z (Z.of_nat N) * 7.2 / 100) = 172%Z.
Proof. reflexivity. Qed.

Lemma blanked_marks (pct : float) (p : Q) (n : nat) (src res : list float64) :
  py_int (n_miss_float N pct) = Some (Z.of_nat n) ->
  Qfloor (inject_Z (Z.of_nat N) * p / 100) = Z.of_nat n ->
  length src = N -> no_nan src -> blanked n src res ->
  base_rule_marks pct p src res.
Proof.
  intros Hpy Hfloor Hlen Hsrc Hb. unfold base_rule_marks. cbv zeta. rewrite Hfloor.
  split; [exact Hpy |].
  pose proof (count_nan_blanked _ _ _ Hsrc Hb) as Hcount.
  destruct Hb as (idx & <- & Hnd & Hidx & ->). rewrite Hlen in Hidx.
  exists idx. split_and!; try assumption; try reflexivity.
  - intros i. apply lookup_set_nan_at_nan; [exact Hsrc | now rewrite Hlen].
  - now rewrite Hcount.
Qed.

Lemma script_ok_base_rule_counts (g : Globals) : script_ok g -> base_rule_counts g.
Proof.
  intros (_ & _ & _ & _ & (Hlen & _) & (Hnm & _) & _ & _ & _ & mc & Hmc & Hdf).
  destruct Hlen as (_ & _ & _ & Hcr & Hhg & Hwb & Hgl & Hso & Hpo & Hbu & Hpl).
  destruct Hmc as (B1 & B2 & B3 & B4 & B5 & B6 & B7 & B8 & B9).
  exists mc. split; [exact Hdf |].
  split_and!.
  - apply (blanked_marks _ _ 108); auto using no_nan_finite; now rewrite length_map.
  - apply (blanked_marks _ _ 172); auto using no_nan_finite; now rewrite length_map.
  - apply (blanked_marks _ _ 139); auto using no_nan_finite; now rewrite length_map.
  - apply (blanked_marks _ _ 300); auto using no_nan_int_cells; now rewrite length_int_cells.
  - apply (blanked_marks _ _ 96); auto using no_nan_int_cells; now rewrite length_int_cells.
  - apply (blanked_marks _ _ 146); auto using no_nan_finite; now rewrite length_map.
  - apply (blanked_marks _ _ 199); auto using no_nan_int_cells; now rewrite length_int_cells.
  - apply (blanked_marks _ _ 84); auto using no_nan_int_cells; now rewrite length_int_cells.
  - apply (blanked_marks _ _ 60); auto using no_nan_int_cells; now rewrite length_int_cells.
Qed.

Lemma lookup_and_mask_Some (x y : list bool) (i : nat) (a b : bool) :
  x !! i = Some a -> y !! i = Some b -> and_mask x y !! i = Some (a && b).
Proof.
  revert x y. induction i as [| i IH]; intros [| a0 x] [| b0 y]; simpl; try discriminate.
  - now intros [= ->] [= ->].
  - apply IH.
Qed.

Lemma Qltb_lt (x y : Q) : Qltb x y = true <-> x < y.
Proof.
  unfold Qltb. rewrite negb_true_iff. split.
  - intros H. apply Qnot_le_lt. intros Hle. apply Qle_bool_iff in Hle. congruence.
  - intros H. destruct (Qle_bool y x) eqn:E; [| reflexivity].
    apply Qle_bool_iff in E. exfalso. lra.
Qed.

(** A row is in the MAR mask exactly when it is non-diabetic and its
    uniform draw is below 0.05. *)
Lemma lookup_mar_mask (dm : list Z) (u : list Q) (i : nat) :
  and_mask (eq0 dm) (below u 0.05) !! i = Some true <->
  dm !! i = Some 0%Z /\ exists x, u !! i = Some x /\ x < 0.05.
Proof.
  split.
  - intros H. apply lookup_and_mask in H as (a & b & Ha & Hb & Hab).
    symmetry in Hab. apply andb_true_iff in Hab as [-> ->].
    unfold eq0 in Ha. unfold below in Hb.
    rewrite list_lookup_fmap in Ha. rewrite list_lookup_fmap in Hb.
    destruct (dm !! i) as [v |]; [| discriminate].
    destruct (u !! i) as [x |]; [| discriminate].
    simpl in Ha, Hb. injection Ha as Ha. injection Hb as Hb.
    apply Z.eqb_eq in Ha as ->. apply Qltb_lt in Hb. eauto.
  - intros (Hd & x & Hu & Hx).
    rewrite (lookup_and_mask_Some _ _ i true true); [reflexivity | |].
    + now apply lookup_eq0 in Hd.
    + unfold below. rewrite list_lookup_fmap, Hu. simpl. f_equal. now apply Qltb_lt.
Qed.

Lemma lookup_masked_nan (mask : list bool) (idx : list nat) (src : list float64) (i : nat) :
  no_nan src -> Forall (fun j => (j < length src)%nat) idx ->
  length mask = length src -> (i < length src)%nat ->
  set_nan_where mask (set_nan_at idx src) !! i = Some NaN <->
  i ∈ idx \/ mask !! i = Some true.
Proof.
  intros Hsrc Hidx Hmask Hi.
  destruct (lookup_lt_is_Some_2 mask i) as [m Hm]; [lia |].
  destruct (lookup_lt_is_Some_2 (set_nan_at idx src) i) as [x Hx];
    [now rewrite length_set_nan_at |].
  rewrite (lookup_set_nan_where _ _ _ _ _ Hm Hx), Hm.
  rewrite <- (lookup_set_nan_at_nan idx src i Hsrc Hidx), Hx.
  destruct m.
  - split; [right | ]; reflexivity.
  - split; [now left | intros [H | H]; [exact H | discriminate]].
Qed.

Lemma script_ok_glucose_missingness (g : Globals) : script_ok g -> glucose_missingness g.
Proof.
  intros (_ & _ & _ & Hdx & (Hlen & _) & _ & _ & (u & Hu & Hmask) & _ & mc & Hmc & Hdf).
  destruct Hdx as (_ & _ & _ & _ & _ & _ & _ & _ & [Hdm _] & _).
  destruct Hlen as (_ & _ & _ & _ & _ & _ & Hgl & _).
  destruct Hmc as (_ & _ & _ & (idx & Hn & Hnd & Hidx & Hbase) & _).
  unfold glucose_missingness. cbv zeta.
  rewrite length_int_cells, Hgl in Hidx.
  assert (Hsrc : length (int_cells (glucose (g_labs g))) = N) by now rewrite length_int_cells.
  assert (Hm : length (mar_mask (g_missing g)) = N)
    by (rewrite Hmask; now apply length_mar_mask).
  assert (Hrows : forall i, (i < N)%nat ->
            set_nan_where (mar_mask (g_missing g))
              (set_nan_at idx (int_cells (glucose (g_labs g)))) !! i = Some NaN <->
            i ∈ idx \/ mar_mask (g_missing g) !! i = Some true).
  { intros i Hi. apply lookup_masked_nan; rewrite ?Hsrc; auto using no_nan_int_cells. }
  exists idx, u, (set_nan_where (mar_mask (g_missing g))
                    (set_nan_at idx (int_cells (glucose (g_labs g))))).
  split_and!; try assumption; try reflexivity.
  - now rewrite Hn.
  - rewrite Hdf, <- Hbase. reflexivity.
  - intros i. rewrite Hmask. apply lookup_mar_mask.
  - rewrite (count_nan_filter
               (fun i => i ∈ idx \/ mar_mask (g_missing g) !! i = Some true)).
    + rewrite (length_set_nan_where N), length_filter_or, length_filter_elem_of;
        auto; rewrite ?length_set_nan_at; rewrite ?Hgl; auto.
    + intros i Hi. apply Hrows.
      rewrite (length_set_nan_where N) in Hi; auto. now rewrite length_set_nan_at.
  - intros i Hflag Hnan.
    pose proof (lookup_lt_Some _ _ _ Hflag) as Hi. rewrite Hdm in Hi.
    apply (Hrows i Hi) in Hnan as [Hin | Hmar]; [exact Hin |].
    rewrite Hmask in Hmar. apply lookup_mar_mask in Hmar as [Hzero _]. congruence.
Qed.

Lemma length_filter_split (P R : nat -> Prop) `{!forall i, Decision (P i)}
    `{!forall i, Decision (R i)} (l : list nat) :
  length (filter R l) =
  (length (filter (fun i => R i /\ P i) l) + length (filter (fun i => R i /\ ~ P i) l))%nat.
Proof.
  induction l as [| x l IH]; [reflexivity |].
  rewrite !filter_cons. repeat case_decide; simpl; try lia; exfalso; tauto.
Qed.

(** The rows and the count of a column blanked by the base rule on [idx]
    and then by the MAR mask of [u]. *)
Lemma glucose_column_facts (dm : list Z) (cells : list float64) (idx : list nat) (u : list Q) :
  length dm = N -> length cells = N -> no_nan cells ->
  NoDup idx -> length idx = 300%nat -> Forall (fun i => (i < N)%nat) idx -> length u = N ->
  let mask := and_mask (eq0 dm) (below u 0.05) in
  let col := set_nan_where mask (set_nan_at idx cells) in
  (forall i, (i < N)%nat -> col !! i = Some NaN <-> i ∈ idx \/ mask !! i = Some true) /\
  count_nan col =
    (300 + length (filter (fun i => mask !! i = Some true /\ i ∉ idx) (seq 0 N)))%nat /\
  (count_nan col + length (filter (fun i => mask !! i = Some true /\ i ∈ idx) (seq 0 N)) =
   300 + mar_rows mask)%nat /\
  (forall i, dm !! i = Some 1%Z -> col !! i = Some NaN -> i ∈ idx).
Proof.
  intros Hdm Hcells Hnan Hnd Hlen Hidx Hu mask col.
  assert (Hm : length mask = N) by now apply length_mar_mask.
  assert (Hrows : forall i, (i < N)%nat ->
            col !! i = Some NaN <-> i ∈ idx \/ mask !! i = Some true).
  { intros i Hi. apply lookup_masked_nan; rewrite ?Hcells; auto. }
  assert (Hcount : count_nan col =
    (300 + length (filter (fun i => mask !! i = Some true /\ i ∉ idx) (seq 0 N)))%nat).
  { rewrite (count_nan_filter (fun i => i ∈ idx \/ mask !! i = Some true)).
    - unfold col. rewrite (length_set_nan_where N), length_filter_or, length_filter_elem_of;
        auto; rewrite ?length_set_nan_at; auto.
    - intros i Hi. apply Hrows. unfold col in Hi.
      rewrite (length_set_nan_where N) in Hi; auto. now rewrite length_set_nan_at. }
  split_and!.
  - exact Hrows.
  - exact Hcount.
  - rewrite Hcount. unfold mar_rows.
    rewrite (length_filter_split (fun i => i ∈ idx) (fun i => mask !! i = Some true)). lia.
  - intros i Hflag Hcell.
    pose proof (lookup_lt_Some _ _ _ Hflag) as Hi. rewrite Hdm in Hi.
    apply (Hrows i Hi) in Hcell as [Hin | Hmar]; [exact Hin |].
    apply lookup_mar_mask in Hmar as [Hzero _]. congruence.
Qed.

Lemma length_filter_impl {A} (P R : A -> Prop) `{!forall x, Decision (P x)}
    `{!forall x, Decision (R x)} (l : list A) :
  (forall x, P x -> R x) -> (length (filter P l) <= length (filter R l))%nat.
Proof.
  intros HPR. induction l as [| x l IH]; [reflexivity |].
  rewrite !filter_cons. destruct (decide (P x)) as [HP | HP].
  - rewrite decide_True by now apply HPR. simpl. lia.
  - destruct (decide (R x)); simpl; lia.
Qed.

Lemma df_col_elem_of (t : DataFrame) (name : string) (c : column) :
  df_col t name = Some c -> (name, c) ∈ t.
Proof.
  induction t as [| [k c'] t IH]; simpl; [discriminate |].
  destruct (String.eqb_spec k name) as [-> | _].
  - intros [= ->]. apply list_elem_of_here.
  - intros H. apply list_elem_of_further, IH, H.
Qed.

Lemma script_ok_missing_counts (g : Globals) : script_ok g -> missing_counts g.
Proof.
  intros Hok. pose proof (script_ok_glucose_missingness g Hok) as Hglu.
  destruct Hok as (_ & _ & _ & _ & _ & _ & _ & _ & _ & mc & Hmc & Hdf).
  destruct Hmc as (B1 & B2 & B3 & B4 & B5 & B6 & B7 & B8 & B9).
  apply count_nan_blanked in B1, B2, B3, B5, B6, B7, B8, B9;
    auto using no_nan_finite, no_nan_int_cells.
  destruct Hglu as (idx & u & col & _ & Hn & _ & _ & Hcol & Hlook & _ & _ & Hcount & _).
  cbv zeta in Hn, Hcol, Hlook, Hcount.
  assert (Hidx : length idx = 300%nat)
    by (apply Nat2Z.inj; rewrite Hn; reflexivity).
  rewrite Hidx in Hcount.
  assert (Hg : count_nan (set_nan_where (mar_mask (g_missing g)) (c_glucose_base mc)) =
               count_nan col).
  { rewrite Hdf in Hlook. cbn in Hlook. now injection Hlook as <-. }
  rewrite Hcount in Hg.
  unfold missing_counts, has_missing. cbv zeta. rewrite Hdf.
  split_and!; try (eexists; split; [reflexivity | assumption]).
  - eexists. split; [eexists; split; [reflexivity | exact Hg] |].
    apply length_filter_impl. tauto.
  - intros name c Hc Hname. apply df_col_elem_of in Hc.
    assert (Hall : Forall (fun kc => kc.1 ∈ nine_fields \/ col_missing kc.2 = O) (table g mc)).
    { unfold table, columns, nine_fields, float_col.
      repeat (apply Forall_cons; split); try apply Forall_nil; try exact I; cbn [fst snd];
        first [ right; reflexivity | right; apply count_nan_finite
              | left; solve [repeat first [apply list_elem_of_here | apply list_elem_of_further]] ]. }
    rewrite Forall_forall in Hall. destruct (Hall _ Hc) as [Hin | Hzero]; [| exact Hzero].
    now destruct Hname.
  - unfold table, columns, float_col, DataFrame.
    repeat first
      [ rewrite filter_cons_False
          by (intros H; apply H; first [reflexivity | apply count_nan_finite])
      | rewrite filter_cons_True
          by (cbn [snd col_missing]; rewrite ?B1, ?B2, ?B3, ?B5, ?B6, ?B7, ?B8, ?B9, ?Hg; lia) ].
    reflexivity.
Qed.

Lemma nine_fields_NoDup : NoDup nine_fields.
Proof.
  unfold nine_fields.
  repeat (apply NoDup_cons; split;
          [ intros H; repeat (apply elem_of_cons in H as [H | H]; [discriminate |]);
            now apply elem_of_nil in H | ]).
  now apply NoDup_nil.
Qed.

Lemma missing_counts_not_eight (g : Globals) : missing_counts g -> ~ eight_fields_cover (df g).
Proof.
  intros (H1 & H2 & H3 & H4 & H5 & H6 & H7 & H8 & (extra & H9 & _) & _) (eight & Hlen & Hcover).
  assert (Hin : forall name n, has_missing (df g) name n -> n <> O -> name ∈ eight).
  { intros name n (c & Hc & Hn) Hpos.
    destruct (in_dec string_dec name eight) as [Hin | Hout]; [now apply list_elem_of_In |].
    exfalso. apply Hpos. rewrite <- Hn. apply (Hcover name c Hc).
    intros Hin. apply Hout. now apply list_elem_of_In. }
  assert (Hsub : forall x, x ∈ nine_fields -> x ∈ eight).
  { intros x Hx. unfold nine_fields in Hx.
    repeat (apply elem_of_cons in Hx as [-> | Hx]; [eapply Hin; [eassumption | lia] |]).
    now apply elem_of_nil in Hx. }
  pose proof (submseteq_length _ _ (NoDup_submseteq _ _ nine_fields_NoDup Hsub)) as Hle.
  rewrite Hlen in Hle. simpl in Hle. lia.
Qed.

Section Missingness.
Context {RS : RandomState} {HL : RandomStateLaws RS} {LM : Libm}.

(** C2, as amended.  Exactly nine fields have the base rule applied: the
    eight labs and num_medications.  Their columns hold 108, 172, 139, 96,
    146, 199, 84 and 60 missing cells, and glucose 300 plus at most the
    number of rows of the MAR mask; every other column of the table has no
    missing cell, so nine columns have missing cells. *)
Theorem C2_nine_fields_have_missing :
  exists g st, run = Ok (g, st) /\ missing_counts g.
Proof using HL. apply run_satisfies, script_ok_missing_counts. Qed.

(** C3. For each field given to [add_missing] with declared percentage p,
    the count computed by the call is floor(N * p / 100) (172 for
    hemoglobin), the rows chosen are that many distinct rows, and exactly
    their cells are missing after the call. *)
Theorem C3_base_rule_counts :
  exists g st, run = Ok (g, st) /\ base_rule_counts g.
Proof using HL. apply run_satisfies, script_ok_base_rule_counts. Qed.

(** The table of a returning run against the stream at the start of
    section 8. *)
Lemma run_section8 (g : Globals) (st : state) :
  run = Ok (g, st) -> script_ok g ->
  exists h x1 x2 x3 x4 x5 x6 x7 x8 x9,
    section8_leaves (dx_diabetes (g_diagnoses g)) (g_labs g) (g_medications g)
                    (st_rng (missingness_start g)) (g_missing g) h /\
    h !! creatinine_m (g_missing g) = Some x1 /\ h !! hemoglobin_m (g_missing g) = Some x2 /\
    h !! wbc_m (g_missing g) = Some x3 /\ h !! glucose_m (g_missing g) = Some x4 /\
    h !! sodium_m (g_missing g) = Some x5 /\ h !! potassium_m (g_missing g) = Some x6 /\
    h !! bun_m (g_missing g) = Some x7 /\ h !! platelet_m (g_missing g) = Some x8 /\
    h !! num_meds_m (g_missing g) = Some x9 /\
    df g = columns (g_demographics g) (g_admission g) (g_utilization g) (g_diagnoses g)
                   (g_medications g) (g_outcome g)
                   (FloatCol (as_float x1)) (FloatCol (as_float x2)) (FloatCol (as_float x3))
                   (FloatCol (as_float x4)) (FloatCol (as_float x5)) (FloatCol (as_float x6))
                   (FloatCol (as_float x7)) (FloatCol (as_float x8)) (FloatCol (as_float x9)).
Proof using HL.
  intros Hrun Hok.
  destruct (run_missingness g st Hrun) as (Hheap & s8 & Hmiss & Hasm).
  pose proof Hok as (_ & _ & _ & Hdx & (Hlen & _) & Hmed & _).
  destruct Hdx as (_ & _ & _ & _ & _ & _ & _ & _ & [Hdm _] & _).
  pose proof (missingness_rows _ _ _ _ _ _ Hheap Hdm Hlen Hmed Hmiss) as Hleaves.
  destruct (assemble_columns _ _ _ _ _ _ _ _ _ _ Hasm)
    as (x1 & x2 & x3 & x4 & x5 & x6 & x7 & x8 & x9 & Hcols).
  exists (st_heap s8), x1, x2, x3, x4, x5, x6, x7, x8, x9. split; [exact Hleaves | exact Hcols].
Qed.

Lemma run_glucose_rule (g : Globals) (st : state) :
  run = Ok (g, st) -> script_ok g -> glucose_rule g.
Proof using HL.
  intros Hrun Hok.
  destruct (run_section8 g st Hrun Hok)
    as (h & x1 & x2 & x3 & x4 & x5 & x6 & x7 & x8 & x9 & Hleaves & Hx).
  destruct Hx as (_ & _ & _ & Hx4 & _ & _ & _ & _ & _ & Hdf).
  destruct Hleaves as (_ & _ & _ & (Hnd & Hn & Hidx) & _ & _ & _ & _ & _ & Hu & Emask &
                       _ & _ & _ & Hcell & _).
  rewrite Hx4 in Hcell. injection Hcell as ->.
  pose proof Hok as (_ & _ & _ & Hdx & (Hlen & _) & _).
  destruct Hdx as (_ & _ & _ & _ & _ & _ & _ & _ & [Hdm _] & _).
  destruct Hlen as (_ & _ & _ & _ & _ & _ & Hgl & _).
  assert (Hcells : length (int_cells (glucose (g_labs g))) = N)
    by now rewrite length_int_cells.
  pose proof (glucose_column_facts _ _ _ _ Hdm Hcells (no_nan_int_cells _) Hnd Hn Hidx Hu)
    as Hfacts.
  cbv zeta in Hfacts. rewrite <- Emask in Hfacts.
  destruct Hfacts as (Hrows & Hcount & Hboth & Hdiab).
  unfold glucose_rule. cbv zeta.
  split_and!; try assumption.
  - now rewrite Hn.
  - rewrite Hdf. reflexivity.
  - intros i. rewrite Emask. apply lookup_mar_mask.
Qed.

Lemma run_only_glucose_has_mar (g : Globals) (st : state) :
  run = Ok (g, st) -> script_ok g -> only_glucose_has_mar g.
Proof using HL.
  intros Hrun Hok.
  destruct (run_section8 g st Hrun Hok)
    as (h & x1 & x2 & x3 & x4 & x5 & x6 & x7 & x8 & x9 & Hleaves & Hx).
  destruct Hx as (H1 & H2 & H3 & _ & H5 & H6 & H7 & H8 & H9 & Hdf).
  destruct Hleaves as (R1 & R2 & R3 & _ & R5 & R6 & R7 & R8 & R9 & _ & _ &
                       L1 & L2 & L3 & _ & L5 & L6 & L7 & L8 & L9).
  rewrite H1 in L1. rewrite H2 in L2. rewrite H3 in L3. rewrite H5 in L5. rewrite H6 in L6.
  rewrite H7 in L7. rewrite H8 in L8. rewrite H9 in L9.
  injection L1 as ->. injection L2 as ->. injection L3 as ->. injection L5 as ->.
  injection L6 as ->. injection L7 as ->. injection L8 as ->. injection L9 as ->.
  unfold only_glucose_has_mar, base_rule_only, call_rows in *. cbv zeta. rewrite Hdf.
  split_and!; first [apply R1 | apply R2 | apply R3 | apply R5 | apply R6 | apply R7
                    | apply R8 | apply R9 | reflexivity].
Qed.

(** C4, as amended.  The glucose column is missing exactly on the rows
    that [np.random.choice] returned in the glucose call of the base rule
    (floor(N * 12.5 / 100) = 300 distinct rows) or that the MAR mask
    selects (the non-diabetic rows whose uniform draw, the one taken after
    the nine calls, is below 0.05); its count of missing cells is 300 plus
    the MAR rows outside the base set, that is 300 plus [mar_mask.sum()]
    less the rows in both sets; a diabetic row is missing only through
    the base rule; and each of the other eight columns with missing cells
    is its source array with the rows of its own call blanked and nothing
    else. *)
Theorem C4_glucose_missingness :
  exists g st, run = Ok (g, st) /\ glucose_rule g /\ only_glucose_has_mar g.
Proof using HL.
  destruct script_returns as (g & st & Hrun & Hok). exists g, st.
  split; [exact Hrun |]. split; [now apply (run_glucose_rule g st) |].
  now apply (run_only_glucose_has_mar g st).
Qed.

End Missingness.

Lemma C2_witness :
  exists g st, @run Lcg.lcg Lcg.libm = Ok (g, st) /\ missing_counts g.
Proof. exact (C2_nine_fields_have_missing (HL := LcgFacts.lcg_laws)). Defined.

Lemma C3_witness :
  exists g st, @run Lcg.lcg Lcg.libm = Ok (g, st) /\ base_rule_counts g.
Proof. exact (C3_base_rule_counts (HL := LcgFacts.lcg_laws)). Defined.

Lemma C4_witness :
  exists g st, @run Lcg.lcg Lcg.libm = Ok (g, st) /\
               glucose_rule (RS := Lcg.lcg) (LM := Lcg.libm) g /\
               only_glucose_has_mar (RS := Lcg.lcg) (LM := Lcg.libm) g.
Proof. exact (C4_glucose_missingness (HL := LcgFacts.lcg_laws)). Defined.

(** C4 as stated fails: section 8 on 2400 non-diabetic rows and the
    concrete stream leaves a glucose array with 394 missing cells where the
    MAR mask selects 112 rows, 18 of them rows the base rule had blanked
    already: the count is not 300 plus the rows matching the MAR
    condition. *)
Lemma C4_counterexample :
  glucose_figures (missingness (RS := Lcg.lcg) (full N 0%Z) uniform_labs uniform_medications
                               (State (seed 2025) [])) = Some (394%nat, 112%nat) /\
  (394 <> 300 + 112)%nat.
Proof. split; [vm_compute; reflexivity | lia]. Qed.

(** C2 as stated fails: in the run on the concrete stream the
    num_medications column has 60 missing cells beside the eight labs, nine
    columns have missing cells, and no choice of eight fields leaves every
    other column without missing cells. *)
Lemma C2_counterexample :
  exists g st, @run Lcg.lcg Lcg.libm = Ok (g, st) /\
    has_missing (df g) "num_medications" 60 /\
    length (filter (fun kc => col_missing kc.2 <> O) (df g)) = 9%nat /\
    ~ eight_fields_cover (df g).
Proof.
  destruct (script_returns (HL := LcgFacts.lcg_laws) (LM := Lcg.libm)) as (g & st & Hrun & Hok).
  apply script_ok_missing_counts in Hok.
  exists g, st. split; [exact Hrun |].
  split_and!; [apply Hok | apply Hok | now apply missing_counts_not_eight].
Qed.

(** * Further properties of the code *)

(** ** Sums of arrays *)



(** ** Values selected by a mask (sections 3, 5 and 6) *)

Lemma lookup_below (x : list Q) (c : Q) (i : nat) (v : Q) :
  x !! i = Some v -> below x c !! i = Some (Qltb v c).
Proof. intros H. unfold below. now rewrite list_lookup_fmap, H. Qed.

Lemma lookup_eqs (x : list string) (c : string) (i : nat) (v : string) :
  x !! i = Some v -> eqs x c !! i = Some (String.eqb v c).
Proof. intros H. unfold eqs. now rewrite list_lookup_fmap, H. Qed.

Lemma np_where_selected_flag {A} (keys : list Z) (yes no : list A) :
  selected_by (fun flag => flag = 1%Z) keys yes no (np_where (eq1 keys) yes no).
Proof.
  intros i k v Hk Hv.
  apply np_where_inv in Hv as (cb & a & b & Hcb & Ha & Hb & ->).
  rewrite (lookup_eq1 _ _ _ Hk) in Hcb. injection Hcb as <-.
  destruct (Z.eqb_spec k 1); split; intros; congruence.
Qed.

Lemma np_where_selected_string (c : string) (keys : list string) (yes no : list Q) :
  selected_by (fun g => g = c) keys yes no (np_where (eqs keys c) yes no).
Proof.
  intros i k v Hk Hv.
  apply np_where_inv in Hv as (cb & a & b & Hcb & Ha & Hb & ->).
  rewrite (lookup_eqs _ _ _ _ Hk) in Hcb. injection Hcb as <-.
  destruct (String.eqb_spec k c); split; intros; congruence.
Qed.

Section Selection.
Context {RS : RandomState} {HL : RandomStateLaws RS} {LM : Libm}.

(** X4.  Hemoglobin base draws follow gender: for gender and flag arrays
    of [N] rows section 5 returns, [hgb_base] has [N] rows, and it holds on
    each row the draw from normal(12.2, 1.8) where gender is F and the draw
    from normal(13.8, 2.0) on every other row, both draws of [N] rows. *)
Theorem labs_hgb_base_by_gender (gender : list string) (dx_diabetes dx_ckd : list Z)
    (st : state) :
  length gender = N -> length dx_diabetes = N -> length dx_ckd = N ->
  exists l st',
    labs gender dx_diabetes dx_ckd st = Ok (l, st') /\
    length (hgb_base l) = N /\
    length (hemoglobin_draws (st_rng st)).1 = N /\
    length (hemoglobin_draws (st_rng st)).2 = N /\
    selected_by (fun g => g = "F") gender
                (hemoglobin_draws (st_rng st)).1 (hemoglobin_draws (st_rng st)).2
                (hgb_base l).
Proof using HL.
  intros Hg Hd Hc.
  destruct (wp_returns _ _ _ (labs_wp gender dx_diabetes dx_ckd st (fun l _ => labs_lengths l)
                                Hg Hd Hc (fun l _ H => proj1 H)))
    as (l & st' & Hrun & Hlen).
  exists l, st'. split; [exact Hrun |].
  destruct (labs_bases _ _ _ _ _ _ Hrun) as (_ & Ehb & _).
  split; [apply Hlen |]. rewrite Ehb. unfold hemoglobin_draws.
  pose proof (normal_length 12.2 1.8 N (lognormal 0.1 0.35 N (st_rng st)).2) as Hf.
  destruct (normal 12.2 1.8 N (lognormal 0.1 0.35 N (st_rng st)).2) as [hf r2].
  pose proof (normal_length 13.8 2.0 N r2) as Hm.
  destruct (normal 13.8 2.0 N r2) as [hm r3]. cbn [fst snd] in *.
  split_and!; [exact Hf | exact Hm | apply np_where_selected_string].
Qed.

(** X5.  Prior admissions are zero-inflated by the uniform draw: from any
    stream state section 3 returns an array of [N] counts, and row by row
    the count is 0 exactly where the uniform draw of that row is below 0.45
    and the Poisson draw of that row clipped to [[1, 8]] elsewhere, both
    draws of [N] rows. *)
Theorem utilization_prior_admits_zero_inflated (st : state) :
  exists u st',
    utilization st = Ok (u, st') /\
    length (prior_admits_12m u) = N /\
    length (prior_admits_draws (st_rng st)).1 = N /\
    length (prior_admits_draws (st_rng st)).2 = N /\
    zero_inflated (prior_admits_draws (st_rng st)).1 (prior_admits_draws (st_rng st)).2
                  (prior_admits_12m u).
Proof using HL.
  unfold utilization, prior_admits_draws, bind, draw, ret. cbn [st_rng st_heap].
  pose proof (random_length N (st_rng st)) as Hu.
  destruct (random N (st_rng st)) as [uni r1]. cbn [fst snd st_rng st_heap] in *.
  pose proof (poisson_length 1.8 N r1) as Hk.
  destruct (poisson 1.8 N r1) as [k r2]. cbn [fst snd st_rng st_heap] in *.
  destruct (binomial 1 0.25 N r2) as [icu r3]. cbn [fst snd st_rng st_heap].
  destruct (lognormal 0.8 0.6 N r3) as [los r4]. cbn [fst snd st_rng st_heap].
  eexists _, _. split; [reflexivity |]. fields.
  split_and!; [solve_length | exact Hu | exact Hk |].
  intros i x kv v Hx Hkv Hv.
  apply np_where_inv in Hv as (cb & a & b & Hcb & Ha & Hb & ->).
  rewrite (lookup_below _ _ _ _ Hx) in Hcb. injection Hcb as <-.
  apply lookup_full in Ha as ->.
  rewrite list_lookup_fmap, Hkv in Hb. injection Hb as <-.
  pose proof (clipZ_between 1 8 kv ltac:(lia)) as Hc. unfold betweenZ in *.
  destruct (Qltb x 0.45) eqn:E.
  - apply Qltb_lt in E. split_and!; [reflexivity | tauto | tauto].
  - assert (Hn : ~ x < 0.45) by (rewrite <- Qltb_lt, E; discriminate).
    split_and!; [tauto | intros _; split; [reflexivity | exact Hc] | split; [lia | tauto]].
Qed.

Lemma medications_inv (dx_diabetes dx_epilepsy : list Z) (st st' : state) (m : Medications) :
  length dx_diabetes = N -> length dx_epilepsy = N ->
  medications dx_diabetes dx_epilepsy st = Ok (m, st') ->
  medication_flags dx_diabetes dx_epilepsy (st_rng st) m.
Proof using HL.
  intros Hd He. unfold medications, medication_flags, medication_draws, bind, draw, ret.
  cbn [st_rng st_heap].
  destruct (poisson 8 N (st_rng st)) as [md r1]. cbn [fst snd st_rng st_heap].
  pose proof (binomial_length 1 0.32 N r1) as Hac.
  pose proof (binomial_range 1 0.32 N r1 ltac:(lia)) as Rac.
  destruct (binomial 1 0.32 N r1) as [ac r2]. cbn [fst snd st_rng st_heap] in *.
  pose proof (binomial_length 1 0.38 N r2) as Hsn.
  pose proof (binomial_range 1 0.38 N r2 ltac:(lia)) as Rsn.
  destruct (binomial 1 0.38 N r2) as [sn r3]. cbn [fst snd st_rng st_heap] in *.
  pose proof (binomial_length 1 0.55 N r3) as Hiy.
  pose proof (binomial_range 1 0.55 N r3 ltac:(lia)) as Riy.
  destruct (binomial 1 0.55 N r3) as [iy r4]. cbn [fst snd st_rng st_heap] in *.
  pose proof (binomial_length 1 0.03 N r4) as Hin.
  pose proof (binomial_range 1 0.03 N r4 ltac:(lia)) as Rin.
  destruct (binomial 1 0.03 N r4) as [ino r5]. cbn [fst snd st_rng st_heap] in *.
  pose proof (binomial_length 1 0.85 N r5) as Hay.
  pose proof (binomial_range 1 0.85 N r5 ltac:(lia)) as Ray.
  destruct (binomial 1 0.85 N r5) as [ay r6]. cbn [fst snd st_rng st_heap] in *.
  pose proof (binomial_length 1 0.12 N r6) as Han.
  pose proof (binomial_range 1 0.12 N r6 ltac:(lia)) as Ran.
  destruct (binomial 1 0.12 N r6) as [an r7]. cbn [fst snd st_rng st_heap] in *.
  intros [= <- _]. fields. unfold flags.
  split_and!; try assumption; try solve_length;
    try (apply Forall_np_where; assumption);
    apply np_where_selected_flag.
Qed.

Lemma medications_total (dx_diabetes dx_epilepsy : list Z) (st : state) :
  exists m st', medications dx_diabetes dx_epilepsy st = Ok (m, st').
Proof.
  unfold medications, bind, draw, ret.
  repeat (destruct (poisson _ _ _) || destruct (binomial _ _ _ _); cbn [st_rng st_heap]).
  now eexists _, _.
Qed.

(** X6.  Conditional medication flags: for diagnosis arrays of [N] rows section
    6 returns; [on_insulin] holds on each row the Bernoulli(0.55) draw
    where [dx_diabetes] is 1 and the Bernoulli(0.03) draw elsewhere,
    [on_antiepileptic] the Bernoulli(0.85) draw where [dx_epilepsy] is 1
    and the Bernoulli(0.12) draw elsewhere; all four medication flags are
    arrays of [N] values 0 or 1. *)
Theorem medications_flags_follow_diagnoses (dx_diabetes dx_epilepsy : list Z) (st : state) :
  length dx_diabetes = N -> length dx_epilepsy = N ->
  exists m st',
    medications dx_diabetes dx_epilepsy st = Ok (m, st') /\
    medication_flags dx_diabetes dx_epilepsy (st_rng st) m.
Proof using HL.
  intros Hd He.
  destruct (medications_total dx_diabetes dx_epilepsy st) as (m & st' & E).
  exists m, st'. split; [exact E |]. now apply (medications_inv _ _ st st').
Qed.

End Selection.

Lemma labs_hgb_base_witness :
  length (full N "F") = N /\ length (full N 1%Z) = N /\ length (full N 0%Z) = N /\
  exists l st',
    labs (RS := Lcg.lcg) (full N "F") (full N 1%Z) (full N 0%Z) (State (seed 2025) []) =
      Ok (l, st') /\
    length (hgb_base l) = N /\
    length (hemoglobin_draws (st_rng (State (RS := Lcg.lcg) (seed 2025) []))).1 = N /\
    length (hemoglobin_draws (st_rng (State (RS := Lcg.lcg) (seed 2025) []))).2 = N /\
    selected_by (fun g => g = "F") (full N "F")
                (hemoglobin_draws (st_rng (State (RS := Lcg.lcg) (seed 2025) []))).1
                (hemoglobin_draws (st_rng (State (RS := Lcg.lcg) (seed 2025) []))).2
                (hgb_base l).
Proof.
  split_and!; [apply length_full | apply length_full | apply length_full |].
  apply (labs_hgb_base_by_gender (HL := LcgFacts.lcg_laws)); apply length_full.
Defined.

Lemma utilization_prior_admits_witness :
  exists u st',
    utilization (RS := Lcg.lcg) (State (seed 2025) []) = Ok (u, st') /\
    length (prior_admits_12m u) = N /\
    length (prior_admits_draws (st_rng (State (RS := Lcg.lcg) (seed 2025) []))).1 = N /\
    length (prior_admits_draws (st_rng (State (RS := Lcg.lcg) (seed 2025) []))).2 = N /\
    zero_inflated (prior_admits_draws (st_rng (State (RS := Lcg.lcg) (seed 2025) []))).1
                  (prior_admits_draws (st_rng (State (RS := Lcg.lcg) (seed 2025) []))).2
                  (prior_admits_12m u).
Proof.
  exact (utilization_prior_admits_zero_inflated (HL := LcgFacts.lcg_laws)
           (State (RS := Lcg.lcg) (seed 2025) [])).
Defined.

Lemma medications_flags_witness :
  length (full N 1%Z) = N /\ length (full N 0%Z) = N /\
  exists m st',
    medications (RS := Lcg.lcg) (full N 1%Z) (full N 0%Z) (State (seed 2025) []) = Ok (m, st') /\
    medication_flags (full N 1%Z) (full N 0%Z)
                     (st_rng (State (RS := Lcg.lcg) (seed 2025) [])) m.
Proof.
  split_and!; [apply length_full | apply length_full |].
  apply (medications_flags_follow_diagnoses (HL := LcgFacts.lcg_laws));
    apply length_full.
Defined.

(** ** [add_missing] as a function (section 8) *)

Lemma nan_at_lookup (l : list float64) (i : nat) : nan_at l i <-> l !! i = Some NaN.
Proof.
  unfold nan_at. destruct (l !! i) as [[q |] |]; simpl; split; intros H;
    first [reflexivity | discriminate].
Qed.

Lemma nan_at_set_nan_at (idx : list nat) (l : list float64) (i : nat) :
  (i < length l)%nat -> nan_at (set_nan_at idx l) i <-> i ∈ idx \/ nan_at l i.
Proof.
  intros Hi. rewrite !nan_at_lookup. destruct (decide (i ∈ idx)) as [Hin | Hout].
  - rewrite (lookup_set_nan_at_in _ _ _ Hin Hi). tauto.
  - rewrite (lookup_set_nan_at_notin _ _ _ Hout). tauto.
Qed.

Lemma count_nan_nan_at (l : list float64) :
  count_nan l = length (filter (nan_at l) (seq 0 (length l))).
Proof.
  apply (count_nan_filter (nan_at l)). intros i _. symmetry. apply nan_at_lookup.
Qed.

Lemma set_nan_at_blanked_over (a : ndarray) (idx : list nat) :
  NoDup idx -> Forall (fun i => (i < len a)%nat) idx ->
  blanked_over a (length idx) (set_nan_at idx (as_float a)).
Proof.
  intros Hnd Hr. rewrite <- (length_as_float a) in Hr.
  set (l := as_float a) in *.
  assert (Hc : count_nan (set_nan_at idx l) =
               length (filter (fun i => i ∈ idx \/ nan_at l i) (seq 0 (length l)))).
  { rewrite <- (length_set_nan_at idx l).
    apply (count_nan_filter (fun i => i ∈ idx \/ nan_at l i)).
    intros i Hi. rewrite length_set_nan_at in Hi.
    rewrite <- nan_at_lookup. now apply nan_at_set_nan_at. }
  unfold blanked_over. fold l. split_and!.
  - rewrite length_set_nan_at. apply length_as_float.
  - intros i Hi. destruct (decide (i < length l)%nat) as [Hlt | Hge].
    + apply nan_at_set_nan_at; tauto.
    + apply nan_at_lookup, lookup_lt_Some in Hi. lia.
  - rewrite Hc, <- (length_filter_elem_of idx (length l) Hnd Hr).
    apply length_filter_impl. tauto.
  - rewrite Hc, count_nan_nan_at. apply length_filter_impl. tauto.
  - rewrite Hc, length_filter_or, (length_filter_elem_of idx (length l) Hnd Hr).
    rewrite count_nan_nan_at.
    pose proof (length_filter_impl (fun i => nan_at l i /\ i ∉ idx) (nan_at l)
                  (seq 0 (length l)) ltac:(intros ? [? _]; assumption)).
    lia.
Qed.

Section AddMissing.
Context {RS : RandomState} {HL : RandomStateLaws RS}.

(** X8.  A percentage that asks for a negative number of rows, or for more rows
    than the array has, is refused: [np.random.choice] raises
    [ValueError] before any array is created. *)
Theorem add_missing_rejects_bad_count
    (st : state) (arr : loc) (a : ndarray) (pct : float) (name : string) (n_miss : Z) :
  st_heap st !! arr = Some a ->
  py_int (n_miss_float (len a) pct) = Some n_miss ->
  (n_miss < 0 \/ Z.of_nat (len a) < n_miss)%Z ->
  add_missing arr pct name st = Raise ValueError.
Proof.
  intros Ha Hn Hbad. rewrite add_missing_unfold, Ha, Hn.
  destruct (Z.ltb_spec n_miss 0); [reflexivity |].
  destruct (Z.ltb_spec (Z.of_nat (len a)) n_miss); [reflexivity | lia].
Qed.

(** X9.  [add_missing] returns exactly when the row count [int(len(arr) * pct /
    100)] exists and lies between 0 and the length of the array. *)
Theorem add_missing_returns_iff
    (st : state) (arr : loc) (a : ndarray) (pct : float) (name : string) :
  st_heap st !! arr = Some a ->
  (exists result st', add_missing arr pct name st = Ok (result, st')) <->
  (exists n_miss, py_int (n_miss_float (len a) pct) = Some n_miss /\
                  (0 <= n_miss <= Z.of_nat (len a))%Z).
Proof using HL.
  intros Ha. rewrite add_missing_unfold, Ha.
  destruct (py_int _) as [n_miss |].
  2: { split; [intros (? & ? & ?); discriminate | intros (? & ? & ?); discriminate]. }
  destruct (Z.ltb_spec n_miss 0).
  { split; [intros (? & ? & ?); discriminate | intros (? & [= <-] & ?); lia]. }
  destruct (Z.ltb_spec (Z.of_nat (len a)) n_miss).
  { split; [intros (? & ? & ?); discriminate | intros (? & [= <-] & ?); lia]. }
  pose proof (choice_without_replacement_range (len a) (Z.to_nat n_miss) (st_rng st)
                ltac:(lia)) as Hr.
  destruct (choice_without_replacement _ _ _) as [idx r]. cbn [fst] in Hr.
  assert (Hb : forallb (fun i => i <? len a)%nat idx = true).
  { apply forallb_forall. intros i Hi. apply Nat.ltb_lt.
    rewrite Forall_forall in Hr. apply Hr. now apply list_elem_of_In. }
  rewrite Hb. split.
  - intros _. exists n_miss. split; [reflexivity | lia].
  - intros _. now eexists _, _.
Qed.

(** X10.  Blanking is one-way: when [add_missing] returns, the array at the
    returned location has the length of the input, every cell missing in
    the input is still missing, and its number of missing cells is at
    least the requested count, at least the input's, and at most their
    sum. *)
Theorem add_missing_never_fills
    (st : state) (arr : loc) (a : ndarray) (pct : float) (name : string)
    (result : loc) (st' : state) :
  st_heap st !! arr = Some a ->
  add_missing arr pct name st = Ok (result, st') ->
  exists (n : nat) (xs : list float64),
    py_int (n_miss_float (len a) pct) = Some (Z.of_nat n) /\
    st_heap st' !! result = Some (FloatArr xs) /\
    blanked_over a n xs.
Proof using HL.
  intros Ha. rewrite add_missing_unfold, Ha.
  destruct (py_int _) as [n_miss |]; [| discriminate].
  destruct (Z.ltb_spec n_miss 0); [discriminate |].
  destruct (Z.ltb_spec (Z.of_nat (len a)) n_miss); [discriminate |].
  assert (Hle : (Z.to_nat n_miss <= len a)%nat) by lia.
  pose proof (choice_without_replacement_length (len a) _ (st_rng st) Hle) as Hlen.
  pose proof (choice_without_replacement_distinct (len a) _ (st_rng st) Hle) as Hnd.
  pose proof (choice_without_replacement_range (len a) _ (st_rng st) Hle) as Hr.
  destruct (choice_without_replacement _ _ _) as [idx r]. cbn [fst] in *.
  destruct (forallb _ idx); [| discriminate].
  intros [= <- <-]. cbn [st_heap].
  exists (Z.to_nat n_miss), (set_nan_at idx (as_float a)). split_and!.
  - now rewrite Z2Nat.id by lia.
  - unfold add_missing_allocs.
    rewrite lookup_app_r by lia.
    replace (S (length (st_heap st)) - length (st_heap st))%nat with 1%nat by lia.
    reflexivity.
  - rewrite <- Hlen. now apply set_nan_at_blanked_over.
Qed.

End AddMissing.

Lemma add_missing_rejects_witness :
  add_missing (RS := Lcg.lcg) 0%nat 150%float "glucose"
              (State (seed 2025) [IntArr [120; 95]%Z]) = Raise ValueError.
Proof.
  apply (add_missing_rejects_bad_count (RS := Lcg.lcg) _ 0%nat (IntArr [120; 95]%Z)
           150%float "glucose" 3%Z); [reflexivity | reflexivity | right; reflexivity].
Defined.

Lemma add_missing_returns_witness :
  (exists result st', add_missing 0%nat 50%float "glucose" half_missing = Ok (result, st')) <->
  (exists n_miss, py_int (n_miss_float 2 50%float) = Some n_miss /\ (0 <= n_miss <= 2)%Z).
Proof.
  apply (add_missing_returns_iff (HL := LcgFacts.lcg_laws) half_missing 0%nat
           (FloatArr [NaN; Finite 7.5]) 50%float "glucose").
  reflexivity.
Defined.

Lemma add_missing_never_fills_witness :
  exists (n : nat) (xs : list float64),
    py_int (n_miss_float 2 50%float) = Some (Z.of_nat n) /\
    st_heap half_missing_after !! 2%nat = Some (FloatArr xs) /\
    blanked_over (FloatArr [NaN; Finite 7.5]) n xs.
Proof.
  apply (add_missing_never_fills (HL := LcgFacts.lcg_laws) half_missing 0%nat
           (FloatArr [NaN; Finite 7.5]) 50%float "glucose" 2%nat half_missing_after);
    reflexivity.
Defined.

(** ** The table of the run *)



Section Domains.
Context {RS : RandomState} {HL : RandomStateLaws RS} {LM : Libm}.

(** X12.  The flag columns hold flags: the run returns, and each of the sixteen
    0/1 columns of the table (the outcome, the ICU flag, the ten diagnosis
    flags and the four medication flags) is an integer column of [N]
    values that are 0 or 1. *)
Theorem table_binary_columns :
  exists g st, run = Ok (g, st) /\ Forall (binary_column (df g)) binary_fields.
Proof using HL.
  destruct script_returns as (g & st & Hrun & Hok). exists g, st. split; [exact Hrun |].
  destruct (run_sections g st Hrun) as (s1 & s2 & s3 & s4 & s5 & s6 & s7 & s8 & Hs).
  destruct Hs as (_ & _ & _ & _ & _ & Hmed & _).
  destruct Hok as (_ & _ & Hu & Hdx & _ & _ & Ho & _ & _ & mc & _ & Ht).
  destruct Hu as (_ & Hicu & _).
  destruct Hdx as (_ & _ & D1 & D2 & D3 & D4 & D5 & D6 & D7 & D8 & D9 & D10).
  pose proof (medications_inv _ _ _ _ _ (proj1 D7) (proj1 D3) Hmed) as (M1 & M2 & M3 & M4 & _).
  rewrite Ht. unfold binary_fields, binary_column.
  repeat (apply Forall_cons_2; [eexists; split; [reflexivity | assumption] |]).
  apply Forall_nil_2.
Qed.


Context {HC : ChoiceLaws RS}.

Lemma demographics_inv (st st' : state) (d : Demographics) :
  demographics st = Ok (d, st') -> demographics_labels d.
Proof using HC.
  unfold demographics, demographics_labels, bind, draw, ret. cbn [st_rng st_heap].
  destruct (normal 67 15 N (st_rng st)) as [age r1]. cbn [fst snd st_rng st_heap].
  pose proof (choice_range ["M"; "F"] N [0.53; 0.47] r1 ltac:(discriminate)) as H1.
  destruct (choice ["M"; "F"] N _ r1) as [gd r2]. cbn [fst snd st_rng st_heap] in *.
  pose proof (choice_range ["WHITE"; "BLACK/AFRICAN AMERICAN"; "HISPANIC/LATINO"; "ASIAN";
                            "OTHER"; "UNKNOWN"] N [0.58; 0.16; 0.08; 0.05; 0.08; 0.05] r2
                ltac:(discriminate)) as H2.
  destruct (choice _ N _ r2) as [rc r3]. cbn [fst snd st_rng st_heap] in *.
  pose proof (choice_range ["Medicare"; "Medicaid"; "Other"] N [0.55; 0.18; 0.27] r3
                ltac:(discriminate)) as H3.
  destruct (choice _ N _ r3) as [ins r4]. cbn [fst snd st_rng st_heap] in *.
  pose proof (choice_range ["MARRIED"; "SINGLE"; "DIVORCED"; "WIDOWED"; "UNKNOWN"] N
                [0.38; 0.25; 0.10; 0.17; 0.10] r4 ltac:(discriminate)) as H4.
  destruct (choice _ N _ r4) as [ms r5]. cbn [fst snd st_rng st_heap] in *.
  intros [= <- _]. fields. now split_and!.
Qed.

Lemma admission_inv (st st' : state) (a : Admission) :
  admission st = Ok (a, st') -> admission_labels a.
Proof using HC.
  unfold admission, admission_labels, bind, draw, ret. cbn [st_rng st_heap].
  destruct (lognormal 1.6 0.7 N (st_rng st)) as [los r1]. cbn [fst snd st_rng st_heap].
  pose proof (choice_range ["URGENT"; "EMERGENCY"; "OBSERVATION"] N [0.35; 0.55; 0.10] r1
                ltac:(discriminate)) as H1.
  destruct (choice _ N _ r1) as [ty r2]. cbn [fst snd st_rng st_heap] in *.
  intros [= <- _]. fields. exact H1.
Qed.

(** X14.  The label columns hold their labels: when [np.random.choice] returns
    only values of the list it is given, the run returns and each of
    gender, race, insurance, marital_status and admission_type is a string
    column of [N] values, every one of them a label the script lists for
    that column. *)
Theorem table_categorical_columns :
  exists g st, run = Ok (g, st) /\ Forall (categorical_column (df g)) categorical_fields.
Proof using HL HC.
  destruct script_returns as (g & st & Hrun & Hok). exists g, st. split; [exact Hrun |].
  destruct (run_sections g st Hrun) as (s1 & s2 & s3 & s4 & s5 & s6 & s7 & s8 & Hs).
  destruct Hs as (Hd & Ha & _).
  apply demographics_inv in Hd as (L1 & L2 & L3 & L4). apply admission_inv in Ha.
  destruct Hok as (Hdo & Hao & _ & _ & _ & _ & _ & _ & _ & mc & _ & Ht).
  destruct Hdo as (_ & _ & _ & N1 & N2 & N3 & N4). destruct Hao as (_ & _ & _ & N5).
  rewrite Ht. unfold categorical_fields, categorical_column, admission_labels in *.
  repeat (apply Forall_cons_2; [eexists; split; [reflexivity | split; assumption] |]).
  apply Forall_nil_2.
Qed.

End Domains.

Lemma lcg_choice_laws : ChoiceLaws Lcg.lcg.
Proof.
  split. intros a n p s Ha. cbn [choice Lcg.lcg].
  apply LcgFacts.Forall_lcg_map. intros v.
  apply list_elem_of_In, nth_In.
  assert (Hl : (0 < Z.of_nat (length a))%Z) by (destruct a; [congruence | simpl; lia]).
  pose proof (Z.mod_pos_bound v (Z.of_nat (length a)) Hl). lia.
Qed.

Lemma table_binary_columns_witness :
  exists g st, @run Lcg.lcg Lcg.libm = Ok (g, st) /\ Forall (binary_column (df g)) binary_fields.
Proof. exact (table_binary_columns (HL := LcgFacts.lcg_laws)). Defined.


Lemma table_categorical_columns_witness :
  exists g st,
    @run Lcg.lcg Lcg.libm = Ok (g, st) /\ Forall (categorical_column (df g)) categorical_fields.
Proof.
  exact (table_categorical_columns (HL := LcgFacts.lcg_laws) (HC := lcg_choice_laws)).
Defined.
